(** * Face extraction and recombination: geometry and metadata contract

    A shallow embedding of [stage1.py] (extraction: [to_square_bbox],
    [get_padded_landmark_bbox], [manual_crop_callback], [prepare_faces]) and
    of [stage3.py] ([recombine_panel]), followed by the properties of the
    written specification that were checked against it.

    Modelling conventions.
    - Python integers are [Z].  The floats [to_square_bbox] computes are
      binary64 numbers that are integer multiples of 1/2; module [double]
      gives their arithmetic with its rounding to 53 significant bits, so
      that the function is followed beyond 2^53 as well, up to the overflow
      of binary64 (about 1.8e308, where Python raises).  Landmarks are
      rationals [Q]; [int(...)] on a float truncates toward zero.
    - Exceptions and state: a small monad [M] over a [world] (regular files,
      directories, standard output, the module globals of stage 1, the
      image writers installed with Pillow).  A raised exception keeps the
      effects performed before it.
    - The Python standard library ([os.path], [os.makedirs], [json], [dict]
      and [list] indexing) is modelled as it behaves, paths being compared
      as they are written.  [os.makedirs] follows the definition of the
      standard library: it makes the missing ancestors, accepts an existing
      directory, and raises on the empty path and on a regular file in its
      way.
    - Pillow is modelled by the documented contract of [open], [convert],
      [crop], [resize], [paste] and [save], as symbolic image terms, so that
      no statement depends on pixel content: [crop] checks the order of the
      box and the limit on the number of pixels, [resize] refuses a side
      below 1, [save] chooses the format by the extension.  Drawing calls of
      OpenCV ([cv2.rectangle], [cv2.imshow]) only touch the display buffer
      and are left out. *)

From Stdlib Require Import ZArith QArith List String Ascii Bool Lia.
From Stdlib Require Import DecimalString.
Import ListNotations.

#[local] Set Warnings "-register-all".

Local Open Scope list_scope.
Local Open Scope string_scope.
Local Open Scope Z_scope.

(** ** Python values, exceptions and builtins *)

Module Py.

Inductive exn : Set :=
| FileNotFoundError
| FileExistsError
| NotADirectoryError
| IsADirectoryError
| OSError        (* a mode the chosen image format cannot hold *)
| KeyError
| IndexError
| TypeError
| ValueError
| UnidentifiedImageError
| DecompressionBombError
| LibraryError.  (* an argument rejected inside Pillow *)

(** Outcome of a call: a value, an exception, or no return at all (the
    interactive loop waiting for a key that never comes). *)
Inductive result (A : Type) : Type :=
| Ok (a : A)
| Raise (e : exn)
| Hang.
Arguments Ok {A} a.
Arguments Raise {A} e.
Arguments Hang {A}.

Inductive value : Type :=
| VInt (n : Z)
| VStr (s : string)
| VTuple (l : list value)
| VList (l : list value)
| VDict (d : list (string * value)).

(** A [dict] literal, in insertion order. *)
Definition dict : Type := list (string * value).

Fixpoint lookup (d : dict) (k : string) : option value :=
  match d with
  | [] => None
  | (k', v) :: rest => if String.eqb k' k then Some v else lookup rest k
  end.

(** [obj[key]] with a string key. *)
Definition getitem (obj : value) (k : string) : result value :=
  match obj with
  | VDict d => match lookup d k with Some v => Ok v | None => Raise KeyError end
  | _ => Raise TypeError
  end.

(** [seq[i]] on a list, for a non-negative index. *)
Definition index {A : Type} (l : list A) (i : nat) : result A :=
  match nth_error l i with Some a => Ok a | None => Raise IndexError end.

Definition chars (s : string) : list value :=
  map (fun c => VStr (String c EmptyString)) (list_ascii_of_string s).

(** The elements [for x in obj] goes through. *)
Definition iter (obj : value) : result (list value) :=
  match obj with
  | VList l | VTuple l => Ok l
  | VDict d => Ok (map (fun kv => VStr (fst kv)) d)
  | VStr s => Ok (chars s)
  | VInt _ => Raise TypeError
  end.

Definition len (obj : value) : result Z :=
  match iter obj with
  | Ok l => Ok (Z.of_nat (List.length l))
  | Raise e => Raise e
  | Hang => Hang
  end.

(** [tuple(obj)] *)
Definition tuple (obj : value) : result value :=
  match iter obj with
  | Ok l => Ok (VTuple l)
  | Raise e => Raise e
  | Hang => Hang
  end.

(** [int(x)] on a float: truncation toward zero. *)
Definition int (x : Q) : Z := Z.quot (Qnum x) (Zpos (Qden x)).

(** [str(n)] on an integer. *)
Definition str (n : Z) : string := NilZero.string_of_int (Z.to_int n).

(** [s.lower()], on the letters A to Z. *)
Definition lower_char (c : ascii) : ascii :=
  let n := nat_of_ascii c in
  if (65 <=? n)%nat && (n <=? 90)%nat then ascii_of_nat (n + 32) else c.

Fixpoint lower (s : string) : string :=
  match s with
  | EmptyString => EmptyString
  | String c rest => String (lower_char c) (lower rest)
  end.

(** The pieces of an f-string: literal text and interpolated values. *)
Inductive frag : Type :=
| Lit (s : string)
| Val (v : value).

End Py.
Import Py.

(** ** Binary64 floats that are multiples of 1/2

    [to_square_bbox] only forms floats of the shape k/2 with k an integer:
    an integer converted to a float, an integer divided by 2, and sums and
    differences of such numbers, each rounded to the nearest binary64
    number, ties to even.  Such a float is written here as the integer k of
    its halves; rounding k/2 to 53 significant bits is rounding k to 53
    significant bits. *)

Module double.

(** The integer nearest to [n / d], ties to the even one, for [0 < d]. *)
Definition round_half_even (n d : Z) : Z :=
  let q := n / d in
  let r := n mod d in
  if 2 * r <? d then q
  else if d <? 2 * r then q + 1
  else if Z.even q then q else q + 1.

(** [k] rounded to 53 significant bits. *)
Definition round53 (k : Z) : Z :=
  let a := Z.abs k in
  let e := Z.log2 a - 52 in
  if e <=? 0 then k else Z.sgn k * (round_half_even a (2 ^ e) * 2 ^ e).

(** [float(n)], as [int + float] converts its integer operand. *)
Definition of_int (n : Z) : Z := round53 (2 * n).

(** [n / 2] on an integer [n]: the correctly rounded quotient. *)
Definition half_of_int (n : Z) : Z := round53 n.

Definition add (a b : Z) : Z := round53 (a + b).
Definition sub (a b : Z) : Z := round53 (a - b).

(** [int(a)]: truncation toward zero. *)
Definition to_int (a : Z) : Z := a ÷ 2.

End double.

(** ** [os.path] (POSIX flavour) *)

Module os_path.

Definition sep : ascii := "/"%char.

(** [s.rfind(c)]: position of the last occurrence, or -1. *)
Fixpoint rfind (c : ascii) (s : string) : Z :=
  match s with
  | EmptyString => -1
  | String a rest =>
      let r := rfind c rest in
      if 0 <=? r then r + 1
      else if Ascii.eqb a c then 0 else -1
  end.

(** [s[i:]] and [s[:i]] for [0 <= i]. *)
Definition from (i : Z) (s : string) : string :=
  substring (Z.to_nat i) (String.length s - Z.to_nat i) s.
Definition upto (i : Z) (s : string) : string :=
  substring 0 (Z.to_nat i) s.

Definition basename (p : string) : string :=
  let i := rfind sep p + 1 in
  from i p.

Fixpoint all_sep (s : string) : bool :=
  match s with
  | EmptyString => true
  | String a rest => Ascii.eqb a sep && all_sep rest
  end.

(** [s.rstrip('/')] *)
Fixpoint rstrip_sep (s : string) : string :=
  match s with
  | EmptyString => EmptyString
  | String a rest =>
      match rstrip_sep rest with
      | EmptyString => if Ascii.eqb a sep then EmptyString else String a EmptyString
      | r => String a r
      end
  end.

Definition dirname (p : string) : string :=
  let i := rfind sep p + 1 in
  let head := upto i p in
  if negb (String.eqb head "") && negb (all_sep head) then rstrip_sep head else head.

(** [os.path.split(p)] *)
Definition split (p : string) : string * string := (dirname p, basename p).

(** The head and tail [os.makedirs] works with:
    [head, tail = split(name)], and [if not tail: head, tail = split(head)]. *)
Definition head_tail (name : string) : string * string :=
  let '(head, tail) := split name in
  if String.eqb tail "" then split head else (head, tail).

Definition startswith_sep (s : string) : bool :=
  match s with String a _ => Ascii.eqb a sep | EmptyString => false end.

Fixpoint endswith_sep (s : string) : bool :=
  match s with
  | EmptyString => false
  | String a EmptyString => Ascii.eqb a sep
  | String _ rest => endswith_sep rest
  end.

(** [os.path.join(a, b)] *)
Definition join (a b : string) : string :=
  if startswith_sep b then b
  else if String.eqb a "" || endswith_sep a then a ++ b
  else a ++ "/" ++ b.

(** Is there a character other than a dot in [s[i:j]]? *)
Definition has_non_dot (i j : Z) (s : string) : bool :=
  existsb (fun c => negb (Ascii.eqb c "."%char))
          (list_ascii_of_string (substring (Z.to_nat i) (Z.to_nat (j - i)) s)).

(** [os.path.splitext(p)]: leading dots of the file name do not start an
    extension. *)
Definition splitext (p : string) : string * string :=
  let sepIndex := rfind sep p in
  let dotIndex := rfind "."%char p in
  if sepIndex <? dotIndex then
    let filenameIndex := sepIndex + 1 in
    if has_non_dot filenameIndex dotIndex p
    then (upto dotIndex p, from dotIndex p)
    else (p, "")
  else (p, "").

End os_path.

(** ** Pillow images, as terms over the calls made on them *)

Module PIL.

Inductive resampling : Set := NEAREST | LANCZOS.

Inductive image : Type :=
| Bitmap (size : Z * Z) (data : list Z)        (* decoded file content *)
| Convert (im : image) (mode : string)
| Crop (im : image) (box : Z * Z * Z * Z)
| Resize (im : image) (size : Z * Z) (resample : resampling)
| Paste (im : image) (src : image) (at_ : Z * Z) (mask : image).

(** [im.size].  A crop has the extent of its box whatever part of the box
    lies outside the image. *)
Fixpoint size (im : image) : Z * Z :=
  match im with
  | Bitmap s _ => s
  | Convert im _ => size im
  | Crop _ (x1, y1, x2, y2) => (x2 - x1, y2 - y1)
  | Resize _ s _ => s
  | Paste im _ _ _ => size im
  end.

(** [im.mode], where a call has fixed it. *)
Fixpoint mode (im : image) : option string :=
  match im with
  | Bitmap _ _ => None
  | Convert _ m => Some m
  | Crop im _ => mode im
  | Resize im _ _ => mode im
  | Paste im _ _ _ => mode im
  end.

Definition MAX_IMAGE_PIXELS : Z := 89478485.   (* int(1024 * 1024 * 1024 // 4 // 3) *)

(** [Image._decompression_bomb_check(size)]: above twice the limit an
    exception, between the limit and twice the limit only a warning. *)
Definition decompression_bomb_check (sz : Z * Z) : result unit :=
  let pixels := Z.max 1 (fst sz) * Z.max 1 (snd sz) in
  if 2 * MAX_IMAGE_PIXELS <? pixels then Raise DecompressionBombError else Ok tt.

(** [im.crop(box)] *)
Definition crop (im : image) (box : Z * Z * Z * Z) : result image :=
  let '(x1, y1, x2, y2) := box in
  if x2 <? x1 then Raise ValueError        (* Coordinate 'right' is less than 'left' *)
  else if y2 <? y1 then Raise ValueError   (* Coordinate 'lower' is less than 'upper' *)
  else
    match decompression_bomb_check (Z.abs (x2 - x1), Z.abs (y2 - y1)) with
    | Ok _ => Ok (Crop im box)
    | Raise e => Raise e
    | Hang => Hang
    end.

(** [im.resize(size, resample)].  An image that has the size asked for is
    copied; otherwise a side below 1 is refused ("height and width must be
    > 0"). *)
Definition resize (im : image) (sz : value) (resample : resampling) : result image :=
  match sz with
  | VTuple [VInt w; VInt h] =>
      if (fst (size im) =? w) && (snd (size im) =? h)
      then Ok (Resize im (w, h) resample)
      else if (w <? 1) || (h <? 1) then Raise ValueError
      else Ok (Resize im (w, h) resample)
  | _ => Raise LibraryError
  end.

(** [im.paste(src, box, mask)], in place: the result is the new state of
    [im].  A 2-tuple is the upper left corner; a 4-tuple must have the
    extent of [src]. *)
Definition paste (im src : image) (box : value) (mask : image) : result image :=
  match box with
  | VTuple [VInt x; VInt y] => Ok (Paste im src (x, y) mask)
  | VTuple [VInt x1; VInt y1; VInt x2; VInt y2] =>
      let '(w, h) := size src in
      if (x2 - x1 =? w) && (y2 - y1 =? h)
      then Ok (Paste im src (x1, y1) mask)
      else Raise ValueError
  | _ => Raise LibraryError
  end.

(** The modes of the two programs, both of which the PNG writer accepts. *)
Definition png_writes (m : option string) : bool :=
  match m with
  | Some m => String.eqb m "RGB" || String.eqb m "RGBA"
  | None => false
  end.

(** The extensions registered for the JPEG writer, which takes no alpha
    channel ("cannot write mode RGBA as JPEG"). *)
Definition jpeg_extension (ext : string) : bool :=
  String.eqb ext ".jpg" || String.eqb ext ".jpeg" ||
  String.eqb ext ".jpe" || String.eqb ext ".jfif".

Definition jpeg_refuses (m : option string) : bool :=
  match m with
  | Some m => String.eqb m "RGBA"
  | None => false
  end.

End PIL.
Import PIL.

(** ** The world the two programs run in, and the monad of their effects *)

Inductive file : Type :=
| FImage (im : image)      (* an image file, as decoded by [Image.open] *)
| FJson (doc : value).     (* a JSON document, as parsed by [json.load] *)

Record world : Type := mkWorld {
  files : string -> option file;     (* regular files, by path *)
  dirs : list string;                (* directories, without trailing separator *)
  stdout : list (list frag);         (* one entry per [print] *)
  ref_points : list (Z * Z);         (* stage 1 module global *)
  cropping : bool;                   (* stage 1 module global *)
  save_handler : string -> image -> option exn
    (* the writers of the installed Pillow: for a lower-case extension and
       an image, the exception [save] ends with, if any *)
}.

Definition M (A : Type) : Type := world -> result A * world.

Definition ret {A : Type} (a : A) : M A := fun w => (Ok a, w).

Definition bind {A B : Type} (c : M A) (k : A -> M B) : M B :=
  fun w =>
    match c w with
    | (Ok a, w') => k a w'
    | (Raise e, w') => (Raise e, w')
    | (Hang, w') => (Hang, w')
    end.

Definition raise {A : Type} (e : exn) : M A := fun w => (Raise e, w).

Definition hang {A : Type} : M A := fun w => (Hang, w).

(** A pure call that may raise. *)
Definition lift {A : Type} (r : result A) : M A := fun w => (r, w).

Declare Scope py_scope.
Delimit Scope py_scope with py.
Notation "x <- c ;; k" := (bind c (fun x => k))
  (at level 61, c at next level, right associativity) : py_scope.
Notation "c ;; k" := (bind c (fun _ => k))
  (at level 61, right associativity) : py_scope.
Local Open Scope py_scope.

(** [try: c  except FileNotFoundError: ...]: [None] when the handler is
    entered. *)
Definition catch_FileNotFoundError {A : Type} (c : M A) : M (option A) :=
  fun w =>
    match c w with
    | (Ok a, w') => (Ok (Some a), w')
    | (Raise FileNotFoundError, w') => (Ok None, w')
    | (Raise e, w') => (Raise e, w')
    | (Hang, w') => (Hang, w')
    end.

Definition print (msg : list frag) : M unit :=
  fun w => (Ok tt, mkWorld (files w) (dirs w) (stdout w ++ [msg])%list
                           (ref_points w) (cropping w) (save_handler w)).

(** ** The file system *)

(** A directory is named without its trailing separators. *)
Definition dir_name (p : string) : string :=
  if os_path.all_sep p then p else os_path.rstrip_sep p.

Section Directories.

(** The regular files and the directories at the time of the call. *)
Variable fs : string -> option file.

Definition isfile (p : string) : bool :=
  match fs p with Some _ => true | None => false end.

(** [os.path.isdir(p)]; the root directory always exists. *)
Definition isdir (ds : list string) (p : string) : bool :=
  negb (String.eqb p "") &&
  (os_path.all_sep p || existsb (String.eqb (dir_name p)) ds).

(** [os.path.exists(p)] *)
Definition path_exists (ds : list string) (p : string) : bool :=
  isfile (dir_name p) || isdir ds p.

(** [os.mkdir(name)]: the name must be new and its parent a directory; an
    empty parent is the current directory.  The directories after the call
    are returned. *)
Definition mkdir (ds : list string) (name : string) : result unit * list string :=
  let d := dir_name name in
  let parent := os_path.dirname d in
  if String.eqb name "" then (Raise FileNotFoundError, ds)
  else if path_exists ds name then (Raise FileExistsError, ds)
  else if isfile parent then (Raise NotADirectoryError, ds)
  else if negb (String.eqb parent "") && negb (isdir ds parent)
  then (Raise FileNotFoundError, ds)
  else (Ok tt, d :: ds).

(** The last step of [os.makedirs(name, exist_ok=True)]:
    [try: mkdir(name)  except OSError: if not path.isdir(name): raise]. *)
Definition mkdir_exist_ok (ds : list string) (name : string) : result unit * list string :=
  match mkdir ds name with
  | (Raise e, ds') => if isdir ds' name then (Ok tt, ds') else (Raise e, ds')
  | other => other
  end.

(** [os.makedirs(name, exist_ok=True)], as the standard library defines
    it: the missing ancestors are made first.  The recursion is on the head
    of the path, which is shorter than the path; [fuel] bounds it. *)
Fixpoint makedirs_rec (fuel : nat) (ds : list string) (name : string)
  : result unit * list string :=
  match fuel with
  | O => (Hang, ds)
  | S fuel =>
      let '(head, tail) := os_path.head_tail name in
      if negb (String.eqb head "") && negb (String.eqb tail "") &&
         negb (path_exists ds head)
      then
        match makedirs_rec fuel ds head with
        | (Ok _, ds1) | (Raise FileExistsError, ds1) =>
            if String.eqb tail "." then (Ok tt, ds1) else mkdir_exist_ok ds1 name
        | other => other
        end
      else mkdir_exist_ok ds name
  end.

End Directories.

Definition makedirs (path : string) : M unit :=
  fun w =>
    let '(r, ds) := makedirs_rec (files w) (S (String.length path)) (dirs w) path in
    (r, mkWorld (files w) ds (stdout w) (ref_points w) (cropping w) (save_handler w)).

(** Opening [path] for writing and storing [f]: a directory cannot be
    opened. *)
Definition write_file (path : string) (f : file) : M unit :=
  fun w =>
    if isdir (dirs w) path then (Raise IsADirectoryError, w)
    else (Ok tt, mkWorld (fun p => if String.eqb p path then Some f else files w p)
                         (dirs w) (stdout w) (ref_points w) (cropping w)
                         (save_handler w)).

(** [Image.open(path).convert(mode)] *)
Definition Image_open (path mode : string) : M image :=
  fun w =>
    match files w path with
    | None => (Raise FileNotFoundError, w)
    | Some (FImage im) => (Ok (Convert im mode), w)
    | Some (FJson _) => (Raise UnidentifiedImageError, w)
    end.

(** [im.save(path)].  The format is chosen by the lower-cased extension of
    the path: none is an unknown extension, [.png] takes the modes RGB and
    RGBA, JPEG refuses RGBA; any other case is decided by the installed
    writers. *)
Definition Image_save (im : image) (path : string) : M unit :=
  fun w =>
    let ext := lower (snd (os_path.splitext path)) in
    if String.eqb ext "" then (Raise ValueError, w)
    else if String.eqb ext ".png" && png_writes (mode im)
    then write_file path (FImage im) w
    else if jpeg_extension ext && jpeg_refuses (mode im) then (Raise OSError, w)
    else
      match save_handler w ext im with
      | None => write_file path (FImage im) w
      | Some e => (Raise e, w)
      end.

Module json.

(** What [json.load] reads back after [json.dump]: tuples have become
    arrays. *)
Fixpoint encode (v : value) : value :=
  match v with
  | VInt n => VInt n
  | VStr s => VStr s
  | VTuple l => VList (map encode l)
  | VList l => VList (map encode l)
  | VDict d => VDict (map (fun kv => (fst kv, encode (snd kv))) d)
  end.

(** [with open(path, 'w') as f: json.dump(v, f, indent=4)] *)
Definition dump (v : value) (path : string) : M unit :=
  write_file path (FJson (encode v)).

(** [with open(path, 'r') as f: json.load(f)] *)
Definition load (path : string) : M value :=
  fun w =>
    match files w path with
    | None => (Raise FileNotFoundError, w)
    | Some (FJson doc) => (Ok doc, w)
    | Some (FImage _) => (Raise ValueError, w)   (* not decodable as JSON *)
    end.

End json.

(** ** Stage 1: [stage1.py] *)

(** A box [(x1, y1, x2, y2)]. *)
Definition rect : Type := (Z * Z * Z * Z)%type.

(** The floats are halves, see [double]: [center_x] and the like hold twice
    the value of the Python variable. *)
Definition to_square_bbox (bbox : rect) : rect :=
  let '(x1, y1, x2, y2) := bbox in
  let width := x2 - x1 in
  let height := y2 - y1 in
  let center_x := double.add (double.of_int x1) (double.half_of_int width) in
  let center_y := double.add (double.of_int y1) (double.half_of_int height) in
  let side_length := Z.max width height in
  let new_x1 := double.to_int (double.sub center_x (double.half_of_int side_length)) in
  let new_y1 := double.to_int (double.sub center_y (double.half_of_int side_length)) in
  let new_x2 := double.to_int (double.add center_x (double.half_of_int side_length)) in
  let new_y2 := double.to_int (double.add center_y (double.half_of_int side_length)) in
  (new_x1, new_y1, new_x2, new_y2).

Definition np_min (a b : Q) : Q := if Qle_bool a b then a else b.
Definition np_max (a b : Q) : Q := if Qle_bool a b then b else a.

(** [landmarks] is the array of points, one row per point.  The product
    [width * padding_factor] is taken in [Q]; this is the float product
    whenever that product is representable, as it is for the factor 1.0 that
    the only caller passes. *)
Definition get_padded_landmark_bbox (landmarks : list (Q * Q)) (padding_factor : Q)
  : result rect :=
  match landmarks with
  | [] => Raise ValueError     (* [np.min] of an empty array *)
  | p :: rest =>
      let min_x := int (fold_left np_min (map fst rest) (fst p)) in
      let min_y := int (fold_left np_min (map snd rest) (snd p)) in
      let max_x := int (fold_left np_max (map fst rest) (fst p)) in
      let max_y := int (fold_left np_max (map snd rest) (snd p)) in
      let width := max_x - min_x in
      let height := max_y - min_y in
      let pad_x := int (inject_Z width * padding_factor)%Q in
      let pad_y := int (inject_Z height * padding_factor)%Q in
      Ok (min_x - pad_x, min_y - pad_y, max_x + pad_x, max_y + pad_y)
  end.

Inductive mouse_event : Set :=
| EVENT_LBUTTONDOWN
| EVENT_LBUTTONUP
| EVENT_OTHER (code : Z).

Definition set_ref_points (l : list (Z * Z)) : M unit :=
  fun w => (Ok tt, mkWorld (files w) (dirs w) (stdout w) l (cropping w)
                           (save_handler w)).

Definition set_cropping (b : bool) : M unit :=
  fun w => (Ok tt, mkWorld (files w) (dirs w) (stdout w) (ref_points w) b
                           (save_handler w)).

Definition get_ref_points : M (list (Z * Z)) := fun w => (Ok (ref_points w), w).

Definition bbox_value (b : rect) : value :=
  let '(x1, y1, x2, y2) := b in VTuple [VInt x1; VInt y1; VInt x2; VInt y2].

(** [param] is the list the callback appends to; the new state of that list
    is returned. *)
Definition manual_crop_callback (event : mouse_event) (x y : Z) (param : list rect)
  : M (list rect) :=
  match event with
  | EVENT_LBUTTONDOWN =>
      set_ref_points [(x, y)] ;;
      set_cropping true ;;
      ret param
  | EVENT_LBUTTONUP =>
      pts <- get_ref_points ;;
      set_ref_points (pts ++ [(x, y)])%list ;;
      set_cropping false ;;
      ref_points <- get_ref_points ;;
      start_point <- lift (index ref_points 0) ;;
      end_point <- lift (index ref_points 1) ;;
      let dx := Z.abs (fst end_point - fst start_point) in
      let dy := Z.abs (snd end_point - snd start_point) in
      let side_length := Z.max dx dy in
      let square_end_point := (fst start_point + side_length, snd start_point + side_length) in
      let param := (param ++ [(fst start_point, snd start_point,
                               fst square_end_point, snd square_end_point)])%list in
      print [Lit "Manual box added: "; Val (bbox_value (last param (0, 0, 0, 0)))] ;;
      ret param
  | EVENT_OTHER _ => ret param
  end.

(** What reaches the window in manual mode: mouse events, delivered to the
    callback, and the key codes returned by [cv2.waitKey] (-1 for none). *)
Inductive ui_event : Type :=
| Mouse (event : mouse_event) (x y : Z)
| Key (code : Z).

(** The [while True] loop of manual mode.  An exception raised inside the
    callback is reported by OpenCV and the loop carries on.  When the events
    end without a "q" the loop is still waiting. *)
Fixpoint manual_loop (events : list ui_event) (square_bounding_boxes : list rect)
  : M (list rect) :=
  match events with
  | [] => hang
  | Mouse event x y :: rest =>
      fun w =>
        match manual_crop_callback event x y square_bounding_boxes w with
        | (Ok boxes, w') => manual_loop rest boxes w'
        | (_, w') => manual_loop rest square_bounding_boxes w'
        end
  | Key code :: rest =>
      let key := Z.land code 255 in
      if key =? 114 then                       (* ord("r") *)
        print [Lit "Boxes have been reset."] ;;
        manual_loop rest []
      else if key =? 113 then                  (* ord("q") *)
        ret square_bounding_boxes
      else manual_loop rest square_bounding_boxes
  end.

(** The [for face in faces] loop of auto mode; a face is given by its
    landmark array [face.kps]. *)
Fixpoint auto_loop (faces : list (list (Q * Q))) (square_bounding_boxes : list rect)
  : M (list rect) :=
  match faces with
  | [] => ret square_bounding_boxes
  | face :: rest =>
      landmark_bbox <- lift (get_padded_landmark_bbox face 1) ;;
      let square_bbox := to_square_bbox landmark_bbox in
      auto_loop rest (square_bounding_boxes ++ [square_bbox])%list
  end.

Definition pair_value (p : Z * Z) : value := VTuple [VInt (fst p); VInt (snd p)].

(** The [for i, coords in enumerate(square_bounding_boxes)] loop. *)
Fixpoint crop_loop (source_img_pil : image) (specific_output_dir image_path : string)
    (i : Z) (boxes : list rect) (all_faces_metadata : list dict) : M (list dict) :=
  match boxes with
  | [] => ret all_faces_metadata
  | coords :: rest =>
      let face_id := i in
      let coords_tuple := coords in
      cropped_face <- lift (crop source_img_pil coords_tuple) ;;
      let original_size := size cropped_face in
      let paste_coordinates := (fst (fst (fst coords_tuple)), snd (fst (fst coords_tuple))) in
      resized_face <- lift (resize cropped_face (VTuple [VInt 512; VInt 512]) LANCZOS) ;;
      let face_filename := "face_" ++ str face_id ++ ".png" in
      let face_saved_path := os_path.join specific_output_dir face_filename in
      Image_save resized_face face_saved_path ;;
      let face_metadata : dict :=
        [ ("face_id", VInt face_id);
          ("face_image_512px_path", VStr face_saved_path);
          ("original_size", pair_value original_size);
          ("paste_coordinates", pair_value paste_coordinates);
          ("original_bbox_square", bbox_value coords_tuple);
          ("source_image", VStr image_path) ] in
      print [Lit "  - Processed and saved Face "; Val (VInt face_id); Lit " to ";
             Val (VStr face_saved_path)] ;;
      crop_loop source_img_pil specific_output_dir image_path (i + 1) rest
                (all_faces_metadata ++ [face_metadata])%list
  end.

(** The face detection part of [prepare_faces]: the branch on [mode].
    [faces] is what the detector returns for the image in auto mode,
    [events] what the operator does in manual mode. *)
Definition select_boxes (faces : list (list (Q * Q))) (events : list ui_event)
    (mode : string) : M (list rect) :=
  if String.eqb mode "auto" then
    print [Lit "Running in AUTO (Landmark-Based) mode..."] ;;
    match faces with
    | [] =>
        print [Lit "Auto mode did not detect any faces."] ;;
        ret []
    | _ =>
        print [Lit "Auto mode found "; Val (VInt (Z.of_nat (List.length faces)));
               Lit " faces."] ;;
        auto_loop faces []
    end
  else if String.eqb mode "manual" then
    print [Lit "Running in MANUAL mode..."] ;;
    print [Lit "Draw boxes around faces. Press 'r' to reset. Press 'q' to quit and process."] ;;
    square_bounding_boxes <- manual_loop events [] ;;
    print [Lit "Manual mode finished with ";
           Val (VInt (Z.of_nat (List.length square_bounding_boxes)));
           Lit " selected faces."] ;;
    ret square_bounding_boxes
  else raise ValueError.

(** The shared final processing step of [prepare_faces]. *)
Definition process_boxes (source_img_pil : image) (specific_output_dir image_path : string)
    (square_bounding_boxes : list rect) : M (list dict) :=
  if 0 <? Z.of_nat (List.length square_bounding_boxes) then
    print [Lit "Cropping, resizing, and saving faces..."] ;;
    all_faces_metadata <-
      crop_loop source_img_pil specific_output_dir image_path 0
                square_bounding_boxes [] ;;
    let metadata_path := os_path.join specific_output_dir "metadata.json" in
    json.dump (VList (map VDict all_faces_metadata)) metadata_path ;;
    print [Lit "Successfully saved metadata to "; Val (VStr metadata_path)] ;;
    ret all_faces_metadata
  else
    print [Lit "No new faces were processed for this image."] ;;
    ret [].

Definition prepare_faces (faces : list (list (Q * Q))) (events : list ui_event)
    (image_path mode output_dir : string) : M (list dict) :=
  opened <- catch_FileNotFoundError (Image_open image_path "RGB") ;;
  match opened with
  | None =>
      print [Lit "Error: Source image not found at "; Val (VStr image_path)] ;;
      ret []
  | Some source_img_pil =>
      let base_filename := os_path.basename image_path in
      let source_name := fst (os_path.splitext base_filename) in
      let specific_output_dir := os_path.join output_dir source_name in
      makedirs specific_output_dir ;;
      print [Lit "--- Processing source image: "; Val (VStr base_filename); Lit " ---"] ;;
      print [Lit "Saving results to: "; Val (VStr specific_output_dir)] ;;
      square_bounding_boxes <- select_boxes faces events mode ;;
      process_boxes source_img_pil specific_output_dir image_path square_bounding_boxes
  end.

(** ** Stage 3: [stage3.py] *)

(** [os.path.basename] applied to a value read from metadata. *)
Definition basename_of (v : value) : result string :=
  match v with
  | VStr s => Ok (os_path.basename s)
  | _ => Raise TypeError
  end.

(** The body of [for face_data in all_faces_metadata]; the loop carries the
    panel, which [paste] modifies in place, and [recombined_count].
    [continue] returns them unchanged. *)
Definition recombine_face (reenacted_faces_dir : string) (st : image * Z)
    (face_data : value) : M (image * Z) :=
  let '(original_manga_panel, recombined_count) := st in
  face_id <- lift (getitem face_data "face_id") ;;
  stored <- lift (getitem face_data "face_image_512px_path") ;;
  original_filename <- lift (basename_of stored) ;;
  let reenacted_face_path := os_path.join reenacted_faces_dir original_filename in
  opened <- catch_FileNotFoundError (Image_open reenacted_face_path "RGBA") ;;
  match opened with
  | None =>
      print [Lit "--- WARNING: Reenacted face for ID "; Val face_id;
             Lit " not found at '"; Val (VStr reenacted_face_path); Lit "'. Skipping."] ;;
      ret (original_manga_panel, recombined_count)
  | Some reenacted_face_512px =>
      raw_size <- lift (getitem face_data "original_size") ;;
      orig_size <- lift (tuple raw_size) ;;
      raw_coords <- lift (getitem face_data "paste_coordinates") ;;
      paste_coords <- lift (tuple raw_coords) ;;
      print [Lit "  - Processing face "; Val face_id; Lit ": Resizing from 512x512 to ";
             Val orig_size; Lit "..."] ;;
      face_to_paste <- lift (resize reenacted_face_512px orig_size LANCZOS) ;;
      print [Lit "  - Pasting face "; Val face_id; Lit " at coordinates ";
             Val paste_coords; Lit "..."] ;;
      original_manga_panel <-
        lift (paste original_manga_panel face_to_paste paste_coords face_to_paste) ;;
      ret (original_manga_panel, recombined_count + 1)
  end.

Fixpoint recombine_loop (reenacted_faces_dir : string) (all_faces_metadata : list value)
    (st : image * Z) : M (image * Z) :=
  match all_faces_metadata with
  | [] => ret st
  | face_data :: rest =>
      st' <- recombine_face reenacted_faces_dir st face_data ;;
      recombine_loop reenacted_faces_dir rest st'
  end.

Definition nl : string := String (ascii_of_nat 10) EmptyString.

(** Step 6 of [recombine_panel]: save the result when something was
    pasted. *)
Definition save_result (original_manga_panel : image) (recombined_count : Z)
    (output_path : string) : M unit :=
  if 0 <? recombined_count then
    makedirs (os_path.dirname output_path) ;;
    Image_save original_manga_panel output_path ;;
    print [Lit (nl ++ "--- Recombination Complete ---")] ;;
    print [Lit "Successfully recombined "; Val (VInt recombined_count); Lit " faces."] ;;
    print [Lit "Final panel saved to: "; Val (VStr output_path)] ;;
    print [Lit "This is the 'before-artifact-removal' version, ready for the final polishing step."]
  else
    print [Lit (nl ++ "--- Recombination Finished ---")] ;;
    print [Lit "No reenacted faces were found to process."].

Definition recombine_panel
    (original_panel_path metadata_path reenacted_faces_dir output_path : string) : M unit :=
  print [Lit "--- Starting Stage 3: Recombination ---"] ;;
  opened <- catch_FileNotFoundError
              (original_manga_panel <- Image_open original_panel_path "RGBA" ;;
               print [Lit "Loaded original panel: "; Val (VStr original_panel_path)] ;;
               ret original_manga_panel) ;;
  match opened with
  | None =>
      print [Lit "!!! ERROR: Original panel not found at '";
             Val (VStr original_panel_path); Lit "'"]
  | Some original_manga_panel =>
      loaded <- catch_FileNotFoundError
                  (all_faces_metadata <- json.load metadata_path ;;
                   n <- lift (len all_faces_metadata) ;;
                   print [Lit "Loaded metadata for "; Val (VInt n); Lit " faces from '";
                          Val (VStr metadata_path); Lit "'"] ;;
                   ret all_faces_metadata) ;;
      match loaded with
      | None =>
          print [Lit "!!! ERROR: Metadata file not found at '";
                 Val (VStr metadata_path); Lit "'"]
      | Some all_faces_metadata =>
          records <- lift (iter all_faces_metadata) ;;
          st <- recombine_loop reenacted_faces_dir records (original_manga_panel, 0) ;;
          save_result (fst st) (snd st) output_path
      end
  end.

(** ** Vocabulary of the statements *)

Definition width (b : rect) : Z := let '(x1, _, x2, _) := b in x2 - x1.
Definition height (b : rect) : Z := let '(_, y1, _, y2) := b in y2 - y1.

(** Twice the centre, so that it stays an integer. *)
Definition center2 (b : rect) : Z * Z :=
  let '(x1, y1, x2, y2) := b in (x1 + x2, y1 + y2).

Definition ordered (b : rect) : Prop := 0 <= width b /\ 0 <= height b.
Definition square (b : rect) : Prop := width b = height b.

(** Coordinates small enough for every float of [to_square_bbox] to be
    exact. *)
Definition exact_range (b : rect) : Prop :=
  let '(x1, y1, x2, y2) := b in
  Z.abs x1 < 2 ^ 51 /\ Z.abs y1 < 2 ^ 51 /\ Z.abs x2 < 2 ^ 51 /\ Z.abs y2 < 2 ^ 51.

(** The writers of a stock Pillow, for the extensions used here: JPEG
    takes the modes without alpha channel, BMP, GIF and TIFF take what the
    two programs produce, and any other extension is unknown. *)
Definition stock_pillow (ext : string) (im : image) : option exn :=
  if jpeg_extension ext then
    match mode im with
    | Some m =>
        if String.eqb m "L" || String.eqb m "RGB" || String.eqb m "CMYK"
        then None else Some OSError
    | None => None
    end
  else if String.eqb ext ".png" || String.eqb ext ".bmp" || String.eqb ext ".gif" ||
          String.eqb ext ".tif" || String.eqb ext ".tiff"
  then None
  else Some ValueError.

Definition empty_world : world := mkWorld (fun _ => None) [] [] [] false stock_pillow.

(** The box appended by a press at [(sx, sy)] followed by a release at
    [(ex, ey)]. *)
Definition press_release (sx sy ex ey : Z) (param : list rect) (w : world)
  : result (list rect) :=
  let w1 := snd (manual_crop_callback EVENT_LBUTTONDOWN sx sy param w) in
  fst (manual_crop_callback EVENT_LBUTTONUP ex ey param w1).

(** The directory [prepare_faces] works in. *)
Definition specific_output_dir (output_dir image_path : string) : string :=
  os_path.join output_dir (fst (os_path.splitext (os_path.basename image_path))).

(** The record [crop_loop] builds for box [b] at position [i]. *)
Definition face_record (dir image_path : string) (i : Z) (b : rect) : dict :=
  let '(x1, y1, x2, y2) := b in
  [ ("face_id", VInt i);
    ("face_image_512px_path", VStr (os_path.join dir ("face_" ++ str i ++ ".png")));
    ("original_size", pair_value (x2 - x1, y2 - y1));
    ("paste_coordinates", pair_value (x1, y1));
    ("original_bbox_square", bbox_value b);
    ("source_image", VStr image_path) ].

Fixpoint records_from (dir image_path : string) (i : Z) (boxes : list rect) : list dict :=
  match boxes with
  | [] => []
  | b :: rest => face_record dir image_path i b :: records_from dir image_path (i + 1) rest
  end.

(** Field names: as written by stage 1, as read by stage 3, and as listed
    in section 3 of the specification. *)
Definition stage1_fields : list string :=
  ["face_id"; "face_image_512px_path"; "original_size"; "paste_coordinates";
   "original_bbox_square"; "source_image"].
Definition stage3_fields : list string :=
  ["face_id"; "face_image_512px_path"; "original_size"; "paste_coordinates"].
Definition spec_fields : list string :=
  ["face_id"; "canonical_image_path"; "original_size"; "paste_coordinates";
   "original_bbox_square"; "source_image"].

Definition keys (v : value) : list string :=
  match v with VDict d => map fst d | _ => [] end.


(** The scenario of the specification: an 800x600 source image and one face
    whose landmarks span (100,100)-(200,250). *)
Definition scenario_landmarks : list (Q * Q) :=
  [(100 # 1, 100 # 1); (200 # 1, 100 # 1); (150 # 1, 175 # 1);
   (100 # 1, 250 # 1); (200 # 1, 250 # 1)]%Q.

Definition scenario_world : world :=
  mkWorld (fun p => if String.eqb p "panel.png"
                    then Some (FImage (Bitmap (800, 600) []))
                    else None)
          [] [] [] false stock_pillow.

Definition scenario_run : result (list dict) * world :=
  prepare_faces [scenario_landmarks] [] "panel.png" "auto" "prepared_faces_final"
                scenario_world.

(** A recombination whose output path has no directory part: one record,
    its replacement present. *)
Definition flat_output_world : world :=
  mkWorld (fun p =>
             if String.eqb p "panel.png" then Some (FImage (Bitmap (800, 600) []))
             else if String.eqb p "metadata.json" then
               Some (FJson (VList [VDict
                 [ ("face_id", VInt 0);
                   ("face_image_512px_path", VStr "prepared_faces_final/panel/face_0.png");
                   ("original_size", VList [VInt 450; VInt 450]);
                   ("paste_coordinates", VList [VInt (-75); VInt (-50)]);
                   ("original_bbox_square",
                    VList [VInt (-75); VInt (-50); VInt 375; VInt 400]);
                   ("source_image", VStr "panel.png") ]]))
             else if String.eqb p "reenacted_faces/face_0.png"
             then Some (FImage (Bitmap (512, 512) []))
             else None)
          [] [] [] false stock_pillow.

(** Where stage 3 looks for the replacement of a record whose stored image
    path is [stored]. *)
Definition replacement_path (reenacted_faces_dir stored : string) : string :=
  os_path.join reenacted_faces_dir (os_path.basename stored).

(** The warning printed for a missing replacement. *)
Definition missing_warning (face_id : value) (path : string) : list frag :=
  [Lit "--- WARNING: Reenacted face for ID "; Val face_id;
   Lit " not found at '"; Val (VStr path); Lit "'. Skipping."].

(** A replacement directory that holds [face_0.png] and nothing else. *)
Definition renamed_world : world :=
  mkWorld (fun p => if String.eqb p "reenacted_faces/face_0.png"
                    then Some (FImage (Bitmap (512, 512) []))
                    else None)
          [] [] [] false stock_pillow.

(** Two runs of extraction: a click without a drag in manual mode, and a
    small face at the top edge in auto mode. *)
Definition click_run : result (list dict) * world :=
  prepare_faces [] [Mouse EVENT_LBUTTONDOWN 5 5; Mouse EVENT_LBUTTONUP 5 5; Key 113]
                "panel.png" "manual" "prepared_faces_final" scenario_world.

Definition top_edge_run : result (list dict) * world :=
  prepare_faces [[(10 # 1, 1 # 1); (14 # 1, 2 # 1)]%Q] []
                "panel.png" "auto" "prepared_faces_final" scenario_world.

(** The world left by the scenario's extraction, with a replacement for its
    face put in [reenacted_faces]. *)
Definition round_trip_world : world :=
  let w := snd scenario_run in
  mkWorld (fun p => if String.eqb p "reenacted_faces/face_0.png"
                    then Some (FImage (Bitmap (512, 512) [255; 0; 0]))
                    else files w p)
          (dirs w) (stdout w) (ref_points w) (cropping w) (save_handler w).

(** The path under which [crop_loop] saves the face at position [i]. *)
Definition face_path (dir : string) (i : Z) : string :=
  os_path.join dir ("face_" ++ str i ++ ".png").

(** A file that holds an image of the canonical resolution. *)
Definition canonical_file (f : option file) : Prop :=
  exists im, f = Some (FImage im) /\ size im = (512, 512).

(** The records of the metadata document of [flat_output_world]. *)
Definition flat_records : list value :=
  [VDict [ ("face_id", VInt 0);
           ("face_image_512px_path", VStr "prepared_faces_final/panel/face_0.png");
           ("original_size", VList [VInt 450; VInt 450]);
           ("paste_coordinates", VList [VInt (-75); VInt (-50)]);
           ("original_bbox_square", VList [VInt (-75); VInt (-50); VInt 375; VInt 400]);
           ("source_image", VStr "panel.png") ]].

(** The record the click of [click_run] leaves in the metadata document: a
    box without extent. *)
Definition click_record : dict :=
  face_record "prepared_faces_final/panel" "panel.png" 0 (5, 5, 5, 5).

(** The directory part of the path a recombination saves to can be made,
    and the path names a PNG file, not a directory. *)
Definition png_output_ready (output_path : string) (w : world) : Prop :=
  fst (makedirs (os_path.dirname output_path) w) = Ok tt /\
  lower (snd (os_path.splitext output_path)) = ".png" /\
  isdir (dirs (snd (makedirs (os_path.dirname output_path) w))) output_path = false.

(** * Properties *)

(** ** Box geometry *)

Section Truncation.

Lemma int_inject_mul_one (a : Z) : int (inject_Z a * 1)%Q = a.
Proof.
  unfold int, Qmult, inject_Z. cbn [Qnum Qden Pos.mul].
  rewrite Z.mul_1_r. apply Z.quot_1_r.
Qed.

(** [int] is monotone. *)
Lemma int_le (p q : Q) : (p <= q)%Q -> int p <= int q.
Proof.
  destruct p as [a b], q as [c d]. unfold Qle, int. cbn [Qnum Qden]. intros H.
  rewrite <- (Z.quot_mul_cancel_r a (Z.pos b) (Z.pos d)) by lia.
  rewrite <- (Z.quot_mul_cancel_r c (Z.pos d) (Z.pos b)) by lia.
  rewrite (Z.mul_comm (Z.pos d) (Z.pos b)).
  apply Z.quot_le_mono; lia.
Qed.

End Truncation.

(** *** Rounding to 53 significant bits *)

Section Rounding.

Import double.

Lemma round_half_even_bounds (n d : Z) :
  0 < d -> n / d <= round_half_even n d <= n / d + 1.
Proof.
  intros Hd. unfold round_half_even.
  destruct (2 * (n mod d) <? d); [lia|].
  destruct (d <? 2 * (n mod d)); [lia|].
  destruct (Z.even (n / d)); lia.
Qed.

Lemma round_half_even_mono (n m d : Z) :
  0 < d -> n <= m -> round_half_even n d <= round_half_even m d.
Proof.
  intros Hd H.
  pose proof (Z.div_le_mono n m d Hd H) as Hq.
  destruct (Z.eq_dec (n / d) (m / d)) as [E | N].
  - unfold round_half_even. rewrite <- E.
    assert (Hr : n mod d <= m mod d).
    { rewrite (Z.mod_eq n d), (Z.mod_eq m d) by lia. rewrite E. lia. }
    destruct (2 * (n mod d) <? d) eqn:A1.
    + destruct (2 * (m mod d) <? d); [lia|].
      destruct (d <? 2 * (m mod d)); [lia|]. destruct (Z.even (n / d)); lia.
    + apply Z.ltb_ge in A1.
      destruct (2 * (m mod d) <? d) eqn:B1; [apply Z.ltb_lt in B1; lia|].
      destruct (d <? 2 * (n mod d)) eqn:A2.
      * apply Z.ltb_lt in A2.
        destruct (d <? 2 * (m mod d)) eqn:B2; [lia | apply Z.ltb_ge in B2; lia].
      * destruct (d <? 2 * (m mod d)); [destruct (Z.even (n / d)); lia | lia].
  - pose proof (round_half_even_bounds n d Hd). pose proof (round_half_even_bounds m d Hd).
    lia.
Qed.

(** Below 2^53 every integer is kept as it is. *)
Lemma round53_small (k : Z) : Z.abs k < 2 ^ 53 -> round53 k = k.
Proof.
  intros H. unfold round53.
  destruct (Z.eq_dec (Z.abs k) 0) as [E | N].
  - rewrite E. reflexivity.
  - assert (Z.log2 (Z.abs k) < 53) by (apply Z.log2_lt_pow2; lia).
    replace (Z.log2 (Z.abs k) - 52 <=? 0) with true by (symmetry; apply Z.leb_le; lia).
    reflexivity.
Qed.

Lemma round53_opp (k : Z) : round53 (- k) = - round53 k.
Proof.
  unfold round53. rewrite Z.abs_opp, Z.sgn_opp.
  destruct (Z.log2 (Z.abs k) - 52 <=? 0); lia.
Qed.

Lemma round53_large (k : Z) :
  0 <= k -> 0 < Z.log2 k - 52 ->
  let e := Z.log2 k - 52 in
  round53 k = round_half_even k (2 ^ e) * 2 ^ e /\
  2 ^ 52 * 2 ^ e <= round53 k <= 2 ^ 53 * 2 ^ e.
Proof.
  intros Hk He e.
  assert (Hpos : 0 < k).
  { destruct (Z.eq_dec k 0) as [-> | ]; [cbn in He; lia | lia]. }
  assert (E : round53 k = round_half_even k (2 ^ e) * 2 ^ e).
  { unfold round53. rewrite Z.abs_eq by lia. fold e.
    replace (e <=? 0) with false by (symmetry; apply Z.leb_gt; exact He).
    rewrite Z.sgn_pos by lia. lia. }
  split; [exact E|]. rewrite E.
  assert (Hp : 0 < 2 ^ e) by (apply Z.pow_pos_nonneg; lia).
  pose proof (Z.log2_spec k Hpos) as [L1 L2].
  replace (Z.log2 k) with (52 + e) in L1 by (subst e; lia).
  replace (Z.succ (Z.log2 k)) with (53 + e) in L2 by (subst e; lia).
  rewrite Z.pow_add_r in L1, L2 by lia.
  pose proof (round_half_even_bounds k (2 ^ e) Hp) as [B1 B2].
  assert (Q1 : 2 ^ 52 <= k / 2 ^ e).
  { apply Z.div_le_lower_bound; lia. }
  assert (Q2 : k / 2 ^ e < 2 ^ 53).
  { apply Z.div_lt_upper_bound; lia. }
  split; nia.
Qed.

Lemma round53_nonneg (k : Z) : 0 <= k -> 0 <= round53 k.
Proof.
  intros Hk. destruct (Z.leb_spec (Z.log2 k - 52) 0) as [H | H].
  - unfold round53. rewrite Z.abs_eq by lia.
    replace (Z.log2 k - 52 <=? 0) with true by (symmetry; apply Z.leb_le; lia). lia.
  - destruct (round53_large k Hk H) as [_ [B _]]. cbv zeta in B.
    assert (0 < 2 ^ (Z.log2 k - 52)) by (apply Z.pow_pos_nonneg; lia). lia.
Qed.

Lemma round53_mono_nonneg (a b : Z) : 0 <= a -> a <= b -> round53 a <= round53 b.
Proof.
  intros Ha Hab.
  pose proof (Z.log2_le_mono a b Hab) as Hl.
  destruct (Z.leb_spec (Z.log2 b - 52) 0) as [Hb | Hb].
  - rewrite !round53_small; [lia | |].
    + destruct (Z.eq_dec b 0) as [-> | ]; [cbn; lia|].
      rewrite Z.abs_eq by lia. apply Z.log2_lt_pow2; lia.
    + destruct (Z.eq_dec a 0) as [-> | ]; [cbn; lia|].
      rewrite Z.abs_eq by lia. apply Z.log2_lt_pow2; lia.
  - destruct (round53_large b ltac:(lia) Hb) as [Eb [Lb Ub]]. cbv zeta in *.
    assert (Hpb : 0 < 2 ^ (Z.log2 b - 52)) by (apply Z.pow_pos_nonneg; lia).
    destruct (Z.leb_spec (Z.log2 a - 52) 0) as [Hs | Hs].
    + rewrite (round53_small a).
      * assert (a < 2 ^ 53).
        { destruct (Z.eq_dec a 0) as [-> | ]; [cbn; lia|]. apply Z.log2_lt_pow2; lia. }
        assert (2 ^ 53 <= 2 ^ 52 * 2 ^ (Z.log2 b - 52)).
        { rewrite <- Z.pow_add_r by lia. apply Z.pow_le_mono_r; lia. }
        lia.
      * destruct (Z.eq_dec a 0) as [-> | ]; [cbn; lia|].
        rewrite Z.abs_eq by lia. apply Z.log2_lt_pow2; lia.
    + destruct (round53_large a Ha Hs) as [Ea [La Ua]]. cbv zeta in *.
      destruct (Z.eq_dec (Z.log2 a) (Z.log2 b)) as [E | N].
      * rewrite Ea, Eb, E. apply Z.mul_le_mono_nonneg_r; [lia|].
        apply round_half_even_mono; lia.
      * assert (2 ^ 53 * 2 ^ (Z.log2 a - 52) <= 2 ^ 52 * 2 ^ (Z.log2 b - 52)).
        { rewrite <- !Z.pow_add_r by lia. apply Z.pow_le_mono_r; lia. }
        lia.
Qed.

(** Rounding is monotone. *)
Lemma round53_mono (a b : Z) : a <= b -> round53 a <= round53 b.
Proof.
  intros H. destruct (Z.le_gt_cases 0 a) as [Ha | Ha].
  - apply round53_mono_nonneg; assumption.
  - destruct (Z.le_gt_cases 0 b) as [Hb | Hb].
    + pose proof (round53_nonneg b Hb).
      pose proof (round53_nonneg (- a) ltac:(lia)) as Hn. rewrite round53_opp in Hn. lia.
    + pose proof (round53_mono_nonneg (- b) (- a) ltac:(lia) ltac:(lia)) as Hm.
      rewrite !round53_opp in Hm. lia.
Qed.

End Rounding.

(** In the exact range no float of [to_square_bbox] is rounded, and the
    squared box is given by integer arithmetic. *)
Lemma to_square_bbox_quot (x1 y1 x2 y2 : Z) :
  exact_range (x1, y1, x2, y2) ->
  to_square_bbox (x1, y1, x2, y2) =
  let s := Z.max (x2 - x1) (y2 - y1) in
  ((x1 + x2 - s) ÷ 2, (y1 + y2 - s) ÷ 2, (x1 + x2 + s) ÷ 2, (y1 + y2 + s) ÷ 2).
Proof.
  unfold exact_range. change (2 ^ 51) with 2251799813685248. intros (A & B & C & D).
  assert (R : forall k, Z.abs k < 9007199254740992 -> double.round53 k = k)
    by (intros k Hk; apply round53_small; exact Hk).
  unfold to_square_bbox, double.add, double.sub, double.of_int, double.half_of_int,
    double.to_int.
  rewrite (R (2 * x1)), (R (2 * y1)), (R (x2 - x1)), (R (y2 - y1)),
    (R (Z.max (x2 - x1) (y2 - y1))) by lia.
  rewrite (R (2 * x1 + (x2 - x1))), (R (2 * y1 + (y2 - y1))) by lia.
  rewrite !R by lia.
  cbv zeta.
  repeat match goal with |- (_, _) = (_, _) => f_equal end;
    (apply (f_equal (fun n => n ÷ 2)); ring).
Qed.

Lemma quot_2_double (k : Z) : (2 * k) ÷ 2 = k.
Proof. rewrite Z.mul_comm. apply Z.quot_mul. lia. Qed.

(** Truncating both edges moves the centre by at most half a pixel, and
    loses at most one pixel of side. *)
Lemma quot_2_pair (a s : Z) :
  0 <= s ->
  let lo := (a - s) ÷ 2 in
  let hi := (a + s) ÷ 2 in
  Z.abs (lo + hi - a) <= 1 /\ s - 1 <= hi - lo <= s.
Proof.
  intros Hs lo hi. subst lo hi.
  pose proof (Z.quot_rem' (a - s) 2) as E1.
  pose proof (Z.quot_rem' (a + s) 2) as E2.
  pose proof (Z.rem_bound_abs (a - s) 2 ltac:(lia)) as B1.
  pose proof (Z.rem_bound_abs (a + s) 2 ltac:(lia)) as B2.
  assert (S1 : 0 <= (a - s) -> 0 <= Z.rem (a - s) 2)
    by (intros; apply Z.rem_nonneg; lia).
  assert (S2 : (a - s) <= 0 -> Z.rem (a - s) 2 <= 0)
    by (intros; apply Z.rem_nonpos; lia).
  assert (S3 : 0 <= (a + s) -> 0 <= Z.rem (a + s) 2)
    by (intros; apply Z.rem_nonneg; lia).
  assert (S4 : (a + s) <= 0 -> Z.rem (a + s) 2 <= 0)
    by (intros; apply Z.rem_nonpos; lia).
  lia.
Qed.

Lemma to_square_bbox_center (x1 y1 x2 y2 : Z) :
  exact_range (x1, y1, x2, y2) ->
  x1 <= x2 -> y1 <= y2 ->
  let b := to_square_bbox (x1, y1, x2, y2) in
  Z.abs (fst (center2 b) - (x1 + x2)) <= 1 /\
  Z.abs (snd (center2 b) - (y1 + y2)) <= 1.
Proof.
  intros Hr Hx Hy. rewrite to_square_bbox_quot by exact Hr. cbv zeta.
  cbn [center2 fst snd].
  split; apply quot_2_pair; lia.
Qed.

(** Each side of the squared box is the larger input side, or one less. *)
Lemma to_square_bbox_sides (x1 y1 x2 y2 : Z) :
  exact_range (x1, y1, x2, y2) ->
  x1 <= x2 -> y1 <= y2 ->
  let b := to_square_bbox (x1, y1, x2, y2) in
  let s := Z.max (x2 - x1) (y2 - y1) in
  s - 1 <= width b <= s /\ s - 1 <= height b <= s.
Proof.
  intros Hr Hx Hy. rewrite to_square_bbox_quot by exact Hr. cbv zeta.
  cbn [width height].
  split; apply quot_2_pair; lia.
Qed.

(** C9, as stated, fails.  The box (0,0)-(2^53+1,2^53+1) is square, and
    [to_square_bbox] returns (0,0)-(2^53,2^53): the side 2^53+1 is not a
    binary64 number, and [side_length / 2] is rounded. *)
Lemma to_square_bbox_rounds_large_square :
  let b := (0, 0, 2 ^ 53 + 1, 2 ^ 53 + 1) in
  width b = height b /\
  to_square_bbox b = (0, 0, 2 ^ 53, 2 ^ 53) /\
  to_square_bbox b <> b.
Proof.
  cbv zeta. split; [reflexivity|]. split; [vm_compute; reflexivity|].
  vm_compute. discriminate.
Qed.

(** C9, amended.  Squaring is idempotent on every box whose coordinates are
    below 2^51 in absolute value: such a box that is already square,
    [x2 - x1 = y2 - y1], is returned unchanged by [to_square_bbox]. *)
Theorem to_square_bbox_idempotent (x1 y1 x2 y2 : Z) :
  exact_range (x1, y1, x2, y2) ->
  x2 - x1 = y2 - y1 ->
  to_square_bbox (x1, y1, x2, y2) = (x1, y1, x2, y2).
Proof.
  intros Hr H. rewrite to_square_bbox_quot by exact Hr. cbv zeta.
  rewrite <- H, Z.max_id.
  replace (x1 + x2 - (x2 - x1)) with (2 * x1) by ring.
  replace (x1 + x2 + (x2 - x1)) with (2 * x2) by ring.
  replace (y1 + y2 - (x2 - x1)) with (2 * y1) by lia.
  replace (y1 + y2 + (x2 - x1)) with (2 * y2) by lia.
  rewrite !quot_2_double. reflexivity.
Qed.

Lemma to_square_bbox_idempotent_witness :
  exact_range (0, 25, 300, 325) /\
  300 - 0 = 325 - 25 /\
  to_square_bbox (0, 25, 300, 325) = (0, 25, 300, 325).
Proof.
  assert (R : exact_range (0, 25, 300, 325)) by (repeat split).
  split; [exact R|]. split; [reflexivity|].
  apply (to_square_bbox_idempotent 0 25 300 325); [exact R | reflexivity].
Defined.

(** C2 does not hold of the code: the padded landmark box (6,0)-(18,3),
    obtained from the landmarks (10,1) and (14,2), has larger side 12, and
    [to_square_bbox] returns (6,-4)-(18,7), whose height is 11: truncation
    toward zero rounds the top edge up and the bottom edge down when the
    box straddles the coordinate 0. *)
Theorem to_square_bbox_short_side_at_origin :
  get_padded_landmark_bbox [(10 # 1, 1 # 1); (14 # 1, 2 # 1)]%Q 1 = Ok (6, 0, 18, 3) /\
  to_square_bbox (6, 0, 18, 3) = (6, -4, 18, 7) /\
  Z.max (width (6, 0, 18, 3)) (height (6, 0, 18, 3)) = 12 /\
  width (to_square_bbox (6, 0, 18, 3)) = 12 /\
  height (to_square_bbox (6, 0, 18, 3)) = 11.
Proof. repeat split; vm_compute; reflexivity. Qed.

(** ** Manual selection *)

(** C4, as stated, fails: pressing at (0,0) and releasing at (4,2) draws a
    rectangle centred at (2,1), and the emitted box (0,0)-(4,4) is centred
    at (2,2). *)
Lemma manual_box_not_centered :
  press_release 0 0 4 2 [] empty_world = Ok [(0, 0, 4, 4)] /\
  center2 (0, 0, 4, 4) <> center2 (0, 0, 4, 2).
Proof. split; [reflexivity | discriminate]. Qed.

(** C4, amended.  In manual mode no padding is applied and the emitted box
    is the square whose top-left corner is the press point and whose side is
    the larger of the drawn rectangle's width and height: it is anchored at
    the press point, not centred on the drawn rectangle. *)
Theorem manual_box_anchored_at_press (sx sy ex ey : Z) (param : list rect) (w : world) :
  let side := Z.max (Z.abs (ex - sx)) (Z.abs (ey - sy)) in
  let b := (sx, sy, sx + side, sy + side) in
  press_release sx sy ex ey param w = Ok (param ++ [b])%list /\
  width b = side /\ height b = side.
Proof.
  cbv zeta. split; [reflexivity|].
  cbn [width height]. lia.
Qed.

(** ** Effects of the extraction loops *)

(** The squared box of an ordered box is ordered, whatever is rounded. *)
Lemma ordered_to_square_bbox (x1 y1 x2 y2 : Z) :
  x1 <= x2 -> y1 <= y2 -> ordered (to_square_bbox (x1, y1, x2, y2)).
Proof.
  intros Hx Hy. unfold ordered, to_square_bbox, double.add, double.sub, double.to_int,
    double.half_of_int.
  cbn [width height].
  assert (Hs : 0 <= double.round53 (Z.max (x2 - x1) (y2 - y1)))
    by (apply round53_nonneg; lia).
  split; apply Z.le_0_sub; apply Z.quot_le_mono; try lia; apply round53_mono; lia.
Qed.

Lemma np_min_le_max (l : list Q) (a b : Q) :
  (a <= b)%Q -> (fold_left np_min l a <= fold_left np_max l b)%Q.
Proof.
  revert a b. induction l as [|x l IH]; intros a b H; cbn [fold_left]; [exact H|].
  apply IH. unfold np_min, np_max.
  destruct (Qle_bool a x) eqn:Ea, (Qle_bool b x) eqn:Eb;
    rewrite ?Qle_bool_iff in *; try assumption.
  - apply Qle_refl.
  - apply Qle_trans with a; [|exact H].
    apply Qlt_le_weak, Qnot_le_lt.
    intros C. apply Qle_bool_iff in C. congruence.
Qed.

(** The padded landmark box is ordered. *)
Lemma get_padded_landmark_bbox_ordered (landmarks : list (Q * Q)) (b : rect) :
  get_padded_landmark_bbox landmarks 1 = Ok b -> ordered b.
Proof.
  destruct landmarks as [|p rest]; [discriminate|].
  unfold get_padded_landmark_bbox. rewrite !int_inject_mul_one.
  intros E. injection E as <-. unfold ordered. cbn [width height].
  pose proof (int_le _ _ (np_min_le_max (map fst rest) _ _ (Qle_refl (fst p)))).
  pose proof (int_le _ _ (np_min_le_max (map snd rest) _ _ (Qle_refl (snd p)))).
  lia.
Qed.

Lemma auto_loop_inv (faces : list (list (Q * Q))) :
  forall (acc boxes : list rect) (w w' : world),
    auto_loop faces acc w = (Ok boxes, w') ->
    Forall ordered acc ->
    w' = w /\ Forall ordered boxes.
Proof.
  induction faces as [|face rest IH]; intros acc boxes w w' E Hacc; cbn in E.
  - injection E as <- <-. auto.
  - unfold bind, lift in E. cbn in E.
    destruct (get_padded_landmark_bbox face 1) as [[[[x1 y1] x2] y2]| |] eqn:Eb;
      try discriminate.
    apply IH in E; [exact E|].
    apply Forall_app. split; [exact Hacc|]. constructor; [|constructor].
    apply get_padded_landmark_bbox_ordered in Eb. unfold ordered in Eb.
    cbn [width height] in Eb. apply ordered_to_square_bbox; lia.
Qed.

Lemma manual_crop_callback_inv (event : mouse_event) (x y : Z) (param : list rect)
    (w : world) :
  let out := manual_crop_callback event x y param w in
  files (snd out) = files w /\ dirs (snd out) = dirs w /\
  forall boxes, fst out = Ok boxes ->
    Forall (fun b => ordered b /\ square b) param ->
    Forall (fun b => ordered b /\ square b) boxes.
Proof.
  cbv zeta. destruct event; cbn.
  - repeat split; intros boxes [= <-] H; exact H.
  - unfold bind, get_ref_points, set_ref_points, set_cropping, lift, print, ret.
    cbn. destruct (ref_points w) as [|p [|q l]]; cbn.
    + repeat split; discriminate.
    + repeat split. intros boxes [= <-] H. apply Forall_app. split; [exact H|].
      constructor; [|constructor]. unfold ordered, square. cbn [width height fst snd].
      lia.
    + repeat split. intros boxes [= <-] H. apply Forall_app. split; [exact H|].
      constructor; [|constructor]. unfold ordered, square. cbn [width height fst snd].
      lia.
  - repeat split; intros boxes [= <-] H; exact H.
Qed.

Lemma manual_loop_inv (events : list ui_event) :
  forall (boxes : list rect) (w : world),
    let out := manual_loop events boxes w in
    files (snd out) = files w /\ dirs (snd out) = dirs w /\
    forall sel, fst out = Ok sel ->
      Forall (fun b => ordered b /\ square b) boxes ->
      Forall (fun b => ordered b /\ square b) sel.
Proof.
  induction events as [|ev rest IH]; intros boxes w; cbv zeta.
  - cbn. repeat split. discriminate.
  - destruct ev as [event x y | code]; cbn [manual_loop].
    + pose proof (manual_crop_callback_inv event x y boxes w) as (Hf & Hd & Hb).
      destruct (manual_crop_callback event x y boxes w) as [[b'|e|] w1] eqn:E;
        cbn [fst snd] in *.
      * destruct (IH b' w1) as (Hf' & Hd' & Hb'). rewrite Hf', Hd'.
        repeat split; try assumption. intros sel Es Hp. apply (Hb' sel Es).
        apply (Hb b' eq_refl Hp).
      * destruct (IH boxes w1) as (Hf' & Hd' & Hb'). rewrite Hf', Hd'.
        repeat split; assumption.
      * destruct (IH boxes w1) as (Hf' & Hd' & Hb'). rewrite Hf', Hd'.
        repeat split; assumption.
    + destruct (Z.land code 255 =? 114).
      * unfold bind, print. cbn.
        match goal with |- context [manual_loop rest [] ?w1] =>
          destruct (IH [] w1) as (Hf' & Hd' & Hb') end.
        rewrite Hf', Hd'. cbn. repeat split. intros sel Es _.
        apply (Hb' sel Es). constructor.
      * destruct (Z.land code 255 =? 113).
        -- cbn. repeat split. intros sel [= <-] H. exact H.
        -- apply IH.
Qed.

(** [os.makedirs] changes nothing but the directories, and its outcome
    depends on the files and directories only. *)
Lemma makedirs_frame (path : string) (w : world) :
  let out := makedirs path w in
  files (snd out) = files w /\ stdout (snd out) = stdout w /\
  ref_points (snd out) = ref_points w /\ cropping (snd out) = cropping w /\
  save_handler (snd out) = save_handler w.
Proof.
  cbv zeta. unfold makedirs.
  destruct (makedirs_rec (files w) (S (String.length path)) (dirs w) path) as [r ds].
  cbn. repeat split.
Qed.

Lemma makedirs_ext (path : string) (w1 w2 : world) :
  files w1 = files w2 -> dirs w1 = dirs w2 ->
  fst (makedirs path w1) = fst (makedirs path w2) /\
  dirs (snd (makedirs path w1)) = dirs (snd (makedirs path w2)).
Proof.
  intros F D. unfold makedirs. rewrite F, D.
  destruct (makedirs_rec (files w2) (S (String.length path)) (dirs w2) path) as [r ds].
  cbn. split; reflexivity.
Qed.

(** The empty path is refused, and nothing is made. *)
Lemma makedirs_empty (w : world) :
  fst (makedirs "" w) = Raise FileNotFoundError /\ dirs (snd (makedirs "" w)) = dirs w.
Proof. split; reflexivity. Qed.

(** *** The recursion of [os.makedirs] ends *)

Lemma length_substring_0 (s : string) :
  forall n : nat, String.length (substring 0 n s) = Nat.min n (String.length s).
Proof.
  induction s as [|c s IH]; intros [|n]; cbn; try reflexivity.
  now rewrite IH.
Qed.

Lemma substring_none (s : string) : forall n : nat, substring n 0 s = "".
Proof. induction s as [|c s IH]; intros [|n]; cbn; auto. Qed.

Lemma length_rstrip_sep (s : string) :
  (String.length (os_path.rstrip_sep s) <= String.length s)%nat.
Proof.
  induction s as [|c s IH]; cbn [os_path.rstrip_sep String.length]; [lia|].
  destruct (os_path.rstrip_sep s) as [|c' r].
  - destruct (Ascii.eqb c os_path.sep); cbn; lia.
  - cbn [String.length] in *. lia.
Qed.

Lemma length_dirname (p : string) :
  (String.length (os_path.dirname p) <=
   Nat.min (Z.to_nat (os_path.rfind os_path.sep p + 1)) (String.length p))%nat.
Proof.
  unfold os_path.dirname, os_path.upto.
  pose proof (length_substring_0 p (Z.to_nat (os_path.rfind os_path.sep p + 1))) as L.
  pose proof (length_rstrip_sep
                (substring 0 (Z.to_nat (os_path.rfind os_path.sep p + 1)) p)) as R.
  destruct (negb _ && negb _); lia.
Qed.

(** The head of a path with a last component is shorter than the path. *)
Lemma dirname_shorter (p : string) :
  os_path.basename p <> "" ->
  (String.length (os_path.dirname p) < String.length p)%nat.
Proof.
  intros H. pose proof (length_dirname p) as L.
  destruct (Nat.lt_ge_cases (Z.to_nat (os_path.rfind os_path.sep p + 1)) (String.length p))
    as [Hlt | Hge]; [lia|].
  exfalso. apply H. unfold os_path.basename, os_path.from.
  replace (String.length p - Z.to_nat (os_path.rfind os_path.sep p + 1))%nat with 0%nat
    by lia.
  apply substring_none.
Qed.

Lemma mkdir_exist_ok_returns (fs : string -> option file) (ds : list string)
    (name : string) :
  fst (mkdir_exist_ok fs ds name) <> Hang.
Proof.
  unfold mkdir_exist_ok, mkdir.
  repeat match goal with
         | |- context [if ?c then _ else _] => destruct c
         end; cbn; discriminate.
Qed.

Lemma makedirs_rec_returns (fs : string -> option file) :
  forall (fuel : nat) (ds : list string) (name : string),
    (String.length name < fuel)%nat -> fst (makedirs_rec fs fuel ds name) <> Hang.
Proof.
  induction fuel as [|fuel IH]; intros ds name Hn; [lia|].
  cbn [makedirs_rec].
  pose proof (length_dirname name) as L1.
  assert (Hh : forall head tail,
             os_path.head_tail name = (head, tail) ->
             tail <> "" -> (String.length head < fuel)%nat).
  { unfold os_path.head_tail, os_path.split. intros head tail E Ht.
    destruct (String.eqb (os_path.basename name) "") eqn:Eb; injection E as <- <-.
    - pose proof (dirname_shorter (os_path.dirname name) Ht). lia.
    - apply String.eqb_neq in Eb. pose proof (dirname_shorter name Eb). lia. }
  destruct (os_path.head_tail name) as [head tail] eqn:E.
  specialize (Hh head tail eq_refl).
  destruct (negb (String.eqb head "") && negb (String.eqb tail "") &&
            negb (path_exists fs ds head)) eqn:Ec.
  - assert (Ht : tail <> "").
    { intros ->. rewrite andb_false_r in Ec. discriminate. }
    specialize (IH ds head (Hh Ht)).
    destruct (makedirs_rec fs fuel ds head) as [[[]|e|] ds1]; cbn [fst] in *.
    + destruct (String.eqb tail "."); [discriminate | apply mkdir_exist_ok_returns].
    + destruct e; try discriminate.
      destruct (String.eqb tail "."); [discriminate | apply mkdir_exist_ok_returns].
    + contradiction.
  - apply mkdir_exist_ok_returns.
Qed.

Lemma mkdir_exist_ok_made (fs : string -> option file) (ds : list string)
    (name : string) :
  fst (mkdir_exist_ok fs ds name) = Ok tt ->
  isdir (snd (mkdir_exist_ok fs ds name)) name = true.
Proof.
  unfold mkdir_exist_ok, mkdir.
  destruct (String.eqb name "") eqn:En;
    [apply String.eqb_eq in En; subst name; cbn; discriminate|].
  destruct (path_exists fs ds name) eqn:Ee.
  { cbn [fst snd]. destruct (isdir ds name) eqn:Ei; cbn [fst snd]; [intros _; exact Ei|].
    discriminate. }
  destruct (isfile fs (os_path.dirname (dir_name name))).
  { cbn [fst snd]. destruct (isdir ds name) eqn:Ei; cbn [fst snd]; [intros _; exact Ei|].
    discriminate. }
  destruct (negb _ && negb _).
  { cbn [fst snd]. destruct (isdir ds name) eqn:Ei; cbn [fst snd]; [intros _; exact Ei|].
    discriminate. }
  cbn [fst snd]. intros _. unfold isdir. rewrite En. cbn [negb andb existsb].
  rewrite String.eqb_refl. cbn [orb]. apply orb_true_r.
Qed.

(** After a successful [os.makedirs] the path is a directory, unless its
    last component is ".", in which case only its head has been made. *)
Lemma makedirs_made (path : string) (w : world) :
  fst (makedirs path w) = Ok tt ->
  snd (os_path.head_tail path) <> "." ->
  isdir (dirs (snd (makedirs path w))) path = true.
Proof.
  unfold makedirs. cbn [makedirs_rec].
  destruct (os_path.head_tail path) as [head tail]. cbn [snd].
  intros E Ht.
  assert (Hd : String.eqb tail "." = false) by (apply String.eqb_neq; exact Ht).
  destruct (negb (String.eqb head "") && negb (String.eqb tail "") &&
            negb (path_exists (files w) (dirs w) head)).
  - destruct (makedirs_rec (files w) (String.length path) (dirs w) head)
      as [[[]|e|] ds1].
    + rewrite Hd in *.
      pose proof (mkdir_exist_ok_made (files w) ds1 path) as M.
      destruct (mkdir_exist_ok (files w) ds1 path) as [r ds2]. cbn [fst snd dirs] in *.
      apply M, E.
    + destruct e; try (cbn in E; discriminate).
      rewrite Hd in *.
      pose proof (mkdir_exist_ok_made (files w) ds1 path) as M.
      destruct (mkdir_exist_ok (files w) ds1 path) as [r ds2]. cbn [fst snd dirs] in *.
      apply M, E.
    + cbn in E. discriminate.
  - pose proof (mkdir_exist_ok_made (files w) (dirs w) path) as M.
    destruct (mkdir_exist_ok (files w) (dirs w) path) as [r ds2]. cbn [fst snd dirs] in *.
    apply M, E.
Qed.

(** [os.makedirs] returns or raises: its fuel is never used up. *)
Lemma makedirs_returns (path : string) (w : world) : fst (makedirs path w) <> Hang.
Proof.
  unfold makedirs.
  pose proof (makedirs_rec_returns (files w) (S (String.length path)) (dirs w) path
                ltac:(lia)) as H.
  destruct (makedirs_rec (files w) (S (String.length path)) (dirs w) path) as [r ds].
  exact H.
Qed.

(** A file is written as a whole, or the world is left as it was. *)
Lemma write_file_cases (path : string) (f : file) (w : world) :
  let out := write_file path f w in
  (fst out = Ok tt /\
   snd out = mkWorld (fun p => if String.eqb p path then Some f else files w p)
                     (dirs w) (stdout w) (ref_points w) (cropping w) (save_handler w)) \/
  ((exists e, fst out = Raise e) /\ snd out = w).
Proof.
  cbv zeta. unfold write_file. destruct (isdir (dirs w) path).
  - right. split; [eexists|]; reflexivity.
  - left. split; reflexivity.
Qed.

Lemma Image_save_cases (im : image) (path : string) (w : world) :
  let out := Image_save im path w in
  (fst out = Ok tt /\
   snd out = mkWorld (fun p => if String.eqb p path then Some (FImage im) else files w p)
                     (dirs w) (stdout w) (ref_points w) (cropping w) (save_handler w)) \/
  ((exists e, fst out = Raise e) /\ snd out = w).
Proof.
  cbv zeta. unfold Image_save.
  destruct (String.eqb (lower (snd (os_path.splitext path))) "").
  - right. split; [eexists|]; reflexivity.
  - destruct (String.eqb (lower (snd (os_path.splitext path))) ".png" &&
              png_writes (mode im)).
    + apply write_file_cases.
    + destruct (jpeg_extension (lower (snd (os_path.splitext path))) &&
                jpeg_refuses (mode im)).
      * right. split; [eexists|]; reflexivity.
      * destruct (save_handler w (lower (snd (os_path.splitext path))) im).
        -- right. split; [eexists|]; reflexivity.
        -- apply write_file_cases.
Qed.

Lemma crop_ok (im : image) (b : rect) (c : image) : crop im b = Ok c -> c = Crop im b.
Proof.
  destruct b as [[[x1 y1] x2] y2]. unfold crop.
  destruct (x2 <? x1); [discriminate|]. destruct (y2 <? y1); [discriminate|].
  destruct (decompression_bomb_check (Z.abs (x2 - x1), Z.abs (y2 - y1)));
    [|discriminate..].
  intros [= <-]. reflexivity.
Qed.

Lemma resize_canonical (im : image) (r : resampling) :
  resize im (VTuple [VInt 512; VInt 512]) r = Ok (Resize im (512, 512) r).
Proof.
  unfold resize. destruct ((fst (size im) =? 512) && (snd (size im) =? 512)); reflexivity.
Qed.

(** When the loop over the boxes ends normally, it has built one record
    per box, in order. *)
Lemma crop_loop_inv (source_img_pil : image) (dir image_path : string)
    (boxes : list rect) :
  forall (i : Z) (acc : list dict) (w : world) (recs : list dict) (w' : world),
    crop_loop source_img_pil dir image_path i boxes acc w = (Ok recs, w') ->
    recs = (acc ++ records_from dir image_path i boxes)%list /\ dirs w' = dirs w.
Proof.
  induction boxes as [|b rest IH]; intros i acc w recs w' E;
    cbn [crop_loop records_from] in E |- *.
  - injection E as <- <-. rewrite app_nil_r. split; reflexivity.
  - unfold bind at 1 in E. unfold lift at 1 in E.
    destruct (crop source_img_pil b) as [c| |] eqn:Ec; try discriminate.
    apply crop_ok in Ec. subst c.
    rewrite resize_canonical in E.
    unfold bind at 1 in E. unfold lift at 1 in E.
    unfold bind at 1 in E.
    match type of E with context [Image_save ?im ?p w] =>
      pose proof (Image_save_cases im p w) as Hs;
      destruct (Image_save im p w) as [r1 w1] end.
    cbn [fst snd] in Hs. destruct Hs as [[-> ->] | [[e ->] ->]]; [|discriminate].
    unfold bind at 1 in E. unfold print at 1 in E. cbn [fst snd] in E.
    apply IH in E. destruct E as [-> D]. cbn [dirs] in D.
    rewrite <- app_assoc. cbn [app].
    destruct b as [[[x1 y1] x2] y2]. split; [reflexivity | exact D].
Qed.

Lemma select_boxes_inv (faces : list (list (Q * Q))) (events : list ui_event)
    (mode : string) (w w' : world) (boxes : list rect) :
  select_boxes faces events mode w = (Ok boxes, w') ->
  files w' = files w /\ dirs w' = dirs w /\
  Forall ordered boxes /\ (mode = "manual" -> Forall square boxes).
Proof.
  unfold select_boxes. intros E.
  destruct (String.eqb mode "auto") eqn:Ea.
  - apply String.eqb_eq in Ea. subst mode.
    unfold bind at 1 in E. unfold print at 1 in E. cbn [fst snd] in E.
    destruct faces as [|face rest].
    + cbn in E. injection E as <- <-. cbn. repeat split; try constructor.
    + unfold bind at 1 in E. unfold print at 1 in E. cbn [fst snd] in E.
      apply auto_loop_inv in E; [|constructor].
      destruct E as (-> & Ho). cbn. repeat split; [exact Ho | discriminate].
  - destruct (String.eqb mode "manual") eqn:Em; [|discriminate].
    unfold bind at 1 in E. unfold print at 1 in E. cbn [fst snd] in E.
    unfold bind at 1 in E. unfold print at 1 in E. cbn [fst snd] in E.
    unfold bind at 1 in E.
    match type of E with context [manual_loop events [] ?w1] =>
      pose proof (manual_loop_inv events [] w1) as (Hf & Hd & Hb);
      destruct (manual_loop events [] w1) as [[sel|e|] w2] eqn:El end;
      try discriminate.
    cbn in E. injection E as <- <-. cbn [fst snd files dirs] in *.
    specialize (Hb sel eq_refl (Forall_nil _)).
    repeat split; try assumption.
    + eapply Forall_impl; [|exact Hb]. cbn. intros b Hbq. apply Hbq.
    + intros _. eapply Forall_impl; [|exact Hb]. cbn. intros b Hbq. apply Hbq.
Qed.

Lemma process_boxes_inv (source_img_pil : image) (dir image_path : string)
    (boxes : list rect) (w : world) (recs : list dict) (w' : world) :
  process_boxes source_img_pil dir image_path boxes w = (Ok recs, w') ->
  recs = records_from dir image_path 0 boxes /\
  dirs w' = dirs w /\
  (boxes = [] -> files w' = files w) /\
  (boxes <> [] ->
     files w' (os_path.join dir "metadata.json") =
       Some (FJson (json.encode (VList (map VDict recs))))).
Proof.
  unfold process_boxes. destruct boxes as [|b rest]; intros E.
  - cbn in E. injection E as <- <-. cbn. repeat split. congruence.
  - replace (0 <? Z.of_nat (List.length (b :: rest))) with true in E
      by (symmetry; apply Z.ltb_lt; cbn [List.length]; lia).
    unfold bind at 1 in E. unfold print at 1 in E. cbn [fst snd] in E.
    unfold bind at 1 in E.
    match type of E with context [crop_loop ?a ?b' ?c ?d ?e ?f ?w1] =>
      destruct (crop_loop a b' c d e f w1) as [[rs|ex|] w2] eqn:Ec end;
      try discriminate.
    apply crop_loop_inv in Ec. destruct Ec as [-> D]. cbn [app dirs] in *.
    unfold bind at 1 in E. unfold json.dump in E.
    match type of E with context [write_file ?p ?f w2] =>
      pose proof (write_file_cases p f w2) as Hs;
      destruct (write_file p f w2) as [r1 w3] end.
    cbn [fst snd] in Hs. destruct Hs as [[-> ->] | [[e ->] ->]]; [|discriminate].
    unfold bind, print, ret in E. cbn [fst snd] in E. injection E as <- <-.
    cbn [files dirs]. repeat split.
    + exact D.
    + discriminate.
    + intros _. rewrite String.eqb_refl. reflexivity.
Qed.

Lemma prepare_faces_inv (faces : list (list (Q * Q))) (events : list ui_event)
    (image_path mode output_dir : string) (w w' : world) (recs : list dict) :
  prepare_faces faces events image_path mode output_dir w = (Ok recs, w') ->
  let dir := specific_output_dir output_dir image_path in
  exists boxes,
    recs = records_from dir image_path 0 boxes /\
    Forall ordered boxes /\
    (mode = "manual" -> Forall square boxes) /\
    (boxes = [] -> files w' = files w) /\
    (boxes <> [] ->
       files w' (os_path.join dir "metadata.json") =
         Some (FJson (json.encode (VList (map VDict recs))))) /\
    (forall im, files w image_path = Some (FImage im) ->
       fst (makedirs dir w) = Ok tt /\ dirs w' = dirs (snd (makedirs dir w)) /\
       exists w1, fst (select_boxes faces events mode w1) = Ok boxes).
Proof.
  intros E dir.
  unfold prepare_faces in E.
  unfold bind at 1 in E. unfold catch_FileNotFoundError, Image_open in E.
  destruct (files w image_path) as [[im|doc]|] eqn:Ef; try discriminate.
  - fold (specific_output_dir output_dir image_path) in E. fold dir in E.
    unfold bind at 1 in E.
    pose proof (makedirs_frame dir w) as (Fm & _).
    destruct (makedirs dir w) as [[[]|e|] w1] eqn:Em; try discriminate.
    cbn [fst snd] in Fm.
    unfold bind at 1 in E. unfold print at 1 in E. cbn [fst snd] in E.
    unfold bind at 1 in E. unfold print at 1 in E. cbn [fst snd] in E.
    unfold bind at 1 in E.
    match type of E with context [select_boxes faces events mode ?w1] =>
      destruct (select_boxes faces events mode w1) as [[boxes|e|] w2] eqn:Es end;
      try discriminate.
    pose proof Es as Es'.
    apply select_boxes_inv in Es. cbn [files dirs] in Es.
    destruct Es as (Hf & Hd & Ho & Hs).
    apply process_boxes_inv in E. destruct E as (-> & Dp & Fe & Fmeta).
    exists boxes. repeat split; try assumption.
    + intros Hb. rewrite (Fe Hb), Hf. exact Fm.
    + rewrite Dp, Hd. reflexivity.
    + eexists. rewrite Es'. reflexivity.
  - cbn in E. injection E as <- <-. exists []. cbn.
    repeat split; try constructor; congruence.
Qed.

(** ** The scenario of the specification *)

(** C1, as stated, fails: on the landmark box (100,100)-(200,250) the padded
    box is not (0,25)-(300,325), and the record carries neither the size
    (300,300) nor the paste point (0,25). *)
Lemma scenario_values_as_stated_fail :
  get_padded_landmark_bbox scenario_landmarks 1 <> Ok (0, 25, 300, 325) /\
  forall r, fst scenario_run = Ok [r] ->
    lookup r "original_size" <> Some (pair_value (300, 300)) /\
    lookup r "paste_coordinates" <> Some (pair_value (0, 25)).
Proof.
  split.
  - vm_compute. discriminate.
  - intros r E. vm_compute in E. injection E as <-. split; vm_compute; discriminate.
Qed.

(** C1, amended.  For the landmark box (100,100)-(200,250), width 100 and
    height 150, with padding factor 1.0 the box is padded by its full width
    and height on each side, giving (0,-50)-(300,400), 300 by 450; squaring
    gives (-75,-50)-(375,400); the record has face_id 0, original_size
    (450,450) and paste_coordinates (-75,-50). *)
Theorem scenario_padded_squared_recorded :
  get_padded_landmark_bbox scenario_landmarks 1 = Ok (0, -50, 300, 400) /\
  to_square_bbox (0, -50, 300, 400) = (-75, -50, 375, 400) /\
  exists r,
    fst scenario_run = Ok [r] /\
    lookup r "face_id" = Some (VInt 0) /\
    lookup r "original_size" = Some (pair_value (450, 450)) /\
    lookup r "paste_coordinates" = Some (pair_value (-75, -50)).
Proof.
  split; [vm_compute; reflexivity|].
  split; [vm_compute; reflexivity|].
  eexists. split; [vm_compute; reflexivity|].
  repeat split.
Qed.

(** ** Extraction with no region *)

(** C5, as stated, fails: with no face detected the record set is empty,
    but the output directory has been created, together with its missing
    parent. *)
Lemma empty_extraction_creates_directory :
  let out := prepare_faces [] [] "panel.png" "auto" "prepared_faces_final" scenario_world in
  fst out = Ok [] /\
  dirs scenario_world = [] /\
  dirs (snd out) = ["prepared_faces_final/panel"; "prepared_faces_final"].
Proof. cbv zeta. repeat split. Qed.

(** C5, amended.  When the source image opens, [os.makedirs] succeeds on
    the output directory of the image, and no region is detected (auto mode)
    or selected (manual mode), extraction returns an empty record set and
    writes no file, neither a face image nor a metadata document; the
    directories are those [os.makedirs] has left, and the output directory
    of the image is among them: it has nevertheless been created. *)
Theorem empty_extraction_writes_no_file
    (faces : list (list (Q * Q))) (events : list ui_event)
    (image_path mode output_dir : string) (w : world) (im : image) :
  files w image_path = Some (FImage im) ->
  fst (makedirs (specific_output_dir output_dir image_path) w) = Ok tt ->
  (mode = "auto" /\ faces = []) \/
  (mode = "manual" /\
   forall w1, ref_points w1 = ref_points w -> fst (manual_loop events [] w1) = Ok []) ->
  let out := prepare_faces faces events image_path mode output_dir w in
  fst out = Ok [] /\
  files (snd out) = files w /\
  dirs (snd out) = dirs (snd (makedirs (specific_output_dir output_dir image_path) w)) /\
  (snd (os_path.head_tail (specific_output_dir output_dir image_path)) <> "." ->
   isdir (dirs (snd out)) (specific_output_dir output_dir image_path) = true).
Proof.
  intros Hf Hd Hz. cbv zeta.
  pose proof (makedirs_made (specific_output_dir output_dir image_path) w Hd) as Hmade.
  destruct (prepare_faces faces events image_path mode output_dir w) as [r wf] eqn:E.
  cbn [fst snd]. unfold prepare_faces in E.
  unfold bind at 1 in E. unfold catch_FileNotFoundError, Image_open in E.
  rewrite Hf in E.
  fold (specific_output_dir output_dir image_path) in E.
  unfold bind at 1 in E.
  pose proof (makedirs_frame (specific_output_dir output_dir image_path) w)
    as (Fm & _ & Rm & _).
  destruct (makedirs (specific_output_dir output_dir image_path) w) as [rm wm].
  cbn [fst snd] in *. subst rm.
  unfold bind at 1 in E. unfold print at 1 in E. cbn [fst snd] in E.
  unfold bind at 1 in E. unfold print at 1 in E. cbn [fst snd] in E.
  unfold bind at 1 in E.
  destruct Hz as [(-> & ->) | (-> & Hm)].
  - cbn in E. injection E as <- <-. cbn [files dirs].
    split; [reflexivity|]. split; [exact Fm|]. split; [reflexivity | exact Hmade].
  - unfold select_boxes in E. cbn [String.eqb Ascii.eqb Bool.eqb] in E.
    unfold bind at 1 in E. unfold print at 1 in E. cbn [fst snd] in E.
    unfold bind at 1 in E. unfold print at 1 in E. cbn [fst snd] in E.
    unfold bind at 1 in E.
    match type of E with context [manual_loop events [] ?w1] =>
      pose proof (Hm w1 Rm) as Hr;
      pose proof (manual_loop_inv events [] w1) as (Hfs & Hds & _);
      destruct (manual_loop events [] w1) as [r1 w2] end.
    cbn [fst snd files dirs] in *. subst r1. cbn in E. injection E as <- <-.
    cbn [files dirs]. rewrite Hfs, Hds.
    split; [reflexivity|]. split; [exact Fm|]. split; [reflexivity | exact Hmade].
Qed.

Lemma empty_extraction_writes_no_file_witness :
  let out := prepare_faces [] [Key 113] "panel.png" "manual" "prepared_faces_final"
                           scenario_world in
  fst out = Ok [] /\
  files (snd out) = files scenario_world /\
  dirs (snd out) = ["prepared_faces_final/panel"; "prepared_faces_final"] /\
  (snd (os_path.head_tail "prepared_faces_final/panel") <> "." ->
   isdir (dirs (snd out)) "prepared_faces_final/panel" = true).
Proof.
  apply (empty_extraction_writes_no_file [] [Key 113] "panel.png" "manual"
           "prepared_faces_final" scenario_world (Bitmap (800, 600) [])).
  - reflexivity.
  - vm_compute. reflexivity.
  - right. split; [reflexivity|]. intros w1 _. reflexivity.
Defined.

(** ** One record of the recombination loop *)



(** A record whose replacement file is missing is skipped with a warning. *)
Lemma recombine_face_missing (dir : string) (st : image * Z) (d : dict)
    (fid : value) (stored : string) (w : world) :
  lookup d "face_id" = Some fid ->
  lookup d "face_image_512px_path" = Some (VStr stored) ->
  files w (replacement_path dir stored) = None ->
  recombine_face dir st (VDict d) w =
    (Ok st, mkWorld (files w) (dirs w)
                    (stdout w ++ [missing_warning fid (replacement_path dir stored)])%list
                    (ref_points w) (cropping w) (save_handler w)).
Proof.
  intros Hid Hp Hf. destruct st as [panel count].
  unfold recombine_face, bind, lift, getitem, basename_of, catch_FileNotFoundError,
    Image_open.
  rewrite Hid, Hp. fold (replacement_path dir stored). rewrite Hf. reflexivity.
Qed.

(** A record whose replacement is present is resized to the recorded size,
    when both sides are at least 1, and pasted at the recorded point. *)
Lemma recombine_face_present (dir : string) (panel : image) (count : Z) (d : dict)
    (fid sz co : value) (stored : string) (w h x y : Z) (im : image) (wr : world) :
  lookup d "face_id" = Some fid ->
  lookup d "face_image_512px_path" = Some (VStr stored) ->
  lookup d "original_size" = Some sz -> iter sz = Ok [VInt w; VInt h] ->
  lookup d "paste_coordinates" = Some co -> iter co = Ok [VInt x; VInt y] ->
  1 <= w -> 1 <= h ->
  files wr (replacement_path dir stored) = Some (FImage im) ->
  let face := Resize (Convert im "RGBA") (w, h) LANCZOS in
  let out := recombine_face dir (panel, count) (VDict d) wr in
  fst out = Ok (Paste panel face (x, y) face, count + 1) /\
  files (snd out) = files wr /\ dirs (snd out) = dirs wr.
Proof.
  intros Hid Hp Hs His Hc Hic Hw Hh Hf. cbv zeta.
  unfold recombine_face, bind, lift, getitem, basename_of, catch_FileNotFoundError,
    Image_open, tuple, resize.
  rewrite Hid, Hp. fold (replacement_path dir stored). rewrite Hf, Hs, His, Hc, Hic.
  replace (w <? 1) with false by (symmetry; apply Z.ltb_ge; exact Hw).
  replace (h <? 1) with false by (symmetry; apply Z.ltb_ge; exact Hh).
  destruct ((fst (size (Convert im "RGBA")) =? w) && (snd (size (Convert im "RGBA")) =? h));
    cbn; repeat split.
Qed.

(** A recorded size with a side below 1 is refused by [resize], for every
    replacement that has at least one pixel. *)
Lemma recombine_face_degenerate (dir : string) (panel : image) (count : Z) (d : dict)
    (fid sz co : value) (stored : string) (w h : Z) (im : image) (wr : world) :
  lookup d "face_id" = Some fid ->
  lookup d "face_image_512px_path" = Some (VStr stored) ->
  lookup d "original_size" = Some sz -> iter sz = Ok [VInt w; VInt h] ->
  lookup d "paste_coordinates" = Some co -> (exists l, iter co = Ok l) ->
  w < 1 \/ h < 1 ->
  files wr (replacement_path dir stored) = Some (FImage im) ->
  1 <= fst (size im) -> 1 <= snd (size im) ->
  fst (recombine_face dir (panel, count) (VDict d) wr) = Raise ValueError.
Proof.
  intros Hid Hp Hs His Hc (l & Hic) Hwh Hf Hsw Hsh.
  unfold recombine_face, bind, lift, getitem, basename_of, catch_FileNotFoundError,
    Image_open, tuple, resize.
  rewrite Hid, Hp. fold (replacement_path dir stored). rewrite Hf, Hs, His, Hc, Hic.
  cbn [size].
  replace ((fst (size im) =? w) && (snd (size im) =? h)) with false.
  - replace ((w <? 1) || (h <? 1)) with true; [reflexivity|].
    symmetry. apply orb_true_iff. rewrite !Z.ltb_lt. exact Hwh.
  - symmetry. apply andb_false_iff. rewrite !Z.eqb_neq. lia.
Qed.



(** ** Records produced by extraction *)

Lemma in_records_from (dir image_path : string) (boxes : list rect) :
  forall (i : Z) (r : dict),
    In r (records_from dir image_path i boxes) ->
    exists j b, In b boxes /\ r = face_record dir image_path j b.
Proof.
  induction boxes as [|b rest IH]; intros i r H; cbn in H; [contradiction|].
  destruct H as [<- | H].
  - exists i, b. split; [left|]; reflexivity.
  - destruct (IH _ _ H) as (j & b' & Hin & E). exists j, b'. split; [right|]; assumption.
Qed.

Lemma keys_encode_face_record (dir image_path : string) (i : Z) (b : rect) :
  keys (json.encode (VDict (face_record dir image_path i b))) = stage1_fields.
Proof. destruct b as [[[x1 y1] x2] y2]. reflexivity. Qed.

(** C6, as stated, fails: the record persisted for the scenario has no field
    named canonical_image_path; its field names are not those of section 3. *)
Lemma persisted_record_lacks_canonical_image_path :
  exists doc,
    files (snd scenario_run) "prepared_faces_final/panel/metadata.json" =
      Some (FJson (VList [doc])) /\
    keys doc <> spec_fields /\
    getitem doc "canonical_image_path" = Raise KeyError.
Proof.
  eexists. split; [vm_compute; reflexivity|].
  split; [vm_compute; discriminate | reflexivity].
Qed.

(** C6, amended.  Every metadata record persisted by extraction has exactly
    the fields face_id, face_image_512px_path, original_size,
    paste_coordinates, original_bbox_square and source_image: the path of
    the canonical image is stored under face_image_512px_path.
    Recombination reads a record by four of these same names (face_id,
    face_image_512px_path, original_size, paste_coordinates) and by nothing
    else. *)
Theorem persisted_field_names
    (faces : list (list (Q * Q))) (events : list ui_event)
    (image_path mode output_dir : string) (w : world) (recs : list dict) :
  let out := prepare_faces faces events image_path mode output_dir w in
  fst out = Ok recs ->
  recs <> [] ->
  (exists docs,
     files (snd out)
           (os_path.join (specific_output_dir output_dir image_path) "metadata.json") =
       Some (FJson (VList docs)) /\
     List.length docs = List.length recs /\
     Forall (fun doc => keys doc = stage1_fields) docs) /\
  incl stage3_fields stage1_fields /\
  (forall dir st d d' wr,
     (forall k, In k stage3_fields -> lookup d k = lookup d' k) ->
     recombine_face dir st (VDict d) wr = recombine_face dir st (VDict d') wr).
Proof.
  cbv zeta. intros E Hne.
  destruct (prepare_faces faces events image_path mode output_dir w) as [res w'] eqn:Er.
  cbn [fst snd] in *. subst res.
  apply prepare_faces_inv in Er. cbv zeta in Er.
  destruct Er as (boxes & -> & _ & _ & _ & Hm & _).
  split; [|split].
  - assert (Hb : boxes <> []) by (intros ->; apply Hne; reflexivity).
    exists (map json.encode (map VDict
              (records_from (specific_output_dir output_dir image_path) image_path 0 boxes))).
    split; [exact (Hm Hb)|]. split; [now rewrite !length_map|].
    rewrite !Forall_map. apply Forall_forall. intros r Hr.
    apply in_records_from in Hr. destruct Hr as (j & b & _ & ->).
    apply keys_encode_face_record.
  - intros k Hk. cbn in Hk. cbn. intuition.
  - intros dir [panel count] d d' wr H.
    unfold recombine_face, getitem.
    rewrite (H "face_id"), (H "face_image_512px_path"), (H "original_size"),
      (H "paste_coordinates") by (cbn; intuition).
    reflexivity.
Qed.

Lemma persisted_field_names_witness :
  (exists docs,
     files (snd scenario_run)
           (os_path.join (specific_output_dir "prepared_faces_final" "panel.png")
                         "metadata.json") = Some (FJson (VList docs)) /\
     List.length docs = 1%nat /\
     Forall (fun doc => keys doc = stage1_fields) docs) /\
  incl stage3_fields stage1_fields /\
  (forall dir st d d' wr,
     (forall k, In k stage3_fields -> lookup d k = lookup d' k) ->
     recombine_face dir st (VDict d) wr = recombine_face dir st (VDict d') wr).
Proof.
  apply (persisted_field_names [scenario_landmarks] [] "panel.png" "auto"
           "prepared_faces_final" scenario_world
           [face_record "prepared_faces_final/panel" "panel.png" 0 (-75, -50, 375, 400)]).
  - reflexivity.
  - discriminate.
Defined.

(** C8, as stated, fails.  A click without a drag in manual mode produces a
    record whose original_size is (0,0); a small face at the top edge of the
    image in auto mode produces one whose original_size is (12,11). *)
Lemma original_size_degenerate_or_uneven :
  (exists r, fst click_run = Ok [r] /\
     lookup r "original_size" = Some (pair_value (0, 0)) /\
     ~ (0 = 0 /\ 1 <= 0 /\ 1 <= 0)) /\
  (exists r, fst top_edge_run = Ok [r] /\
     lookup r "original_size" = Some (pair_value (12, 11)) /\
     ~ (12 = 11 /\ 1 <= 12 /\ 1 <= 11)).
Proof.
  split; eexists; (split; [vm_compute; reflexivity|]); (split; [reflexivity | lia]).
Qed.

(** C8, amended.  For every FaceRecord produced by extraction, original_size
    is the extent of the recorded box original_bbox_square along each axis,
    and both components are at least 0 (a degenerate region is not
    rejected); for the boxes of manual mode the two components are equal. *)
Theorem original_size_is_box_extent
    (faces : list (list (Q * Q))) (events : list ui_event)
    (image_path mode output_dir : string) (w : world) (recs : list dict) :
  fst (prepare_faces faces events image_path mode output_dir w) = Ok recs ->
  Forall (fun r => exists b,
            lookup r "original_bbox_square" = Some (bbox_value b) /\
            lookup r "original_size" = Some (pair_value (width b, height b)) /\
            0 <= width b /\ 0 <= height b /\
            (mode = "manual" -> width b = height b)) recs.
Proof.
  intros E.
  destruct (prepare_faces faces events image_path mode output_dir w) as [res w'] eqn:Er.
  cbn [fst] in E. subst res.
  apply prepare_faces_inv in Er. cbv zeta in Er.
  destruct Er as (boxes & -> & Ho & Hs & _).
  apply Forall_forall. intros r Hr.
  apply in_records_from in Hr. destruct Hr as (j & b & Hin & ->).
  exists b. rewrite Forall_forall in Ho. destruct (Ho b Hin) as [Hw Hh].
  destruct b as [[[x1 y1] x2] y2].
  repeat split; try assumption.
  intros Hm. specialize (Hs Hm). rewrite Forall_forall in Hs. apply (Hs _ Hin).
Qed.

Lemma original_size_is_box_extent_witness :
  Forall (fun r => exists b,
            lookup r "original_bbox_square" = Some (bbox_value b) /\
            lookup r "original_size" = Some (pair_value (width b, height b)) /\
            0 <= width b /\ 0 <= height b /\
            ("auto" = "manual" -> width b = height b))
         [face_record "prepared_faces_final/panel" "panel.png" 0 (6, -4, 18, 7)].
Proof.
  apply (original_size_is_box_extent [[(10 # 1, 1 # 1); (14 # 1, 2 # 1)]%Q] []
           "panel.png" "auto" "prepared_faces_final" scenario_world).
  reflexivity.
Defined.

(** ** Round trip of the geometry *)

(** C3, as stated, fails.  The click without a drag of [click_run] leaves a
    record whose original_size is (0,0); with its replacement present,
    recombination of the persisted record does not resize and paste: the
    resize to (0,0) is refused with [ValueError]. *)
Lemma degenerate_record_not_recombined :
  fst click_run = Ok [click_record] /\
  lookup click_record "original_size" = Some (pair_value (0, 0)) /\
  lookup click_record "paste_coordinates" = Some (pair_value (5, 5)) /\
  files renamed_world
        (os_path.join "reenacted_faces"
           (os_path.basename "prepared_faces_final/panel/face_0.png")) =
    Some (FImage (Bitmap (512, 512) [])) /\
  fst (recombine_face "reenacted_faces" (Convert (Bitmap (800, 600) []) "RGBA", 0)
         (json.encode (VDict click_record)) renamed_world) = Raise ValueError.
Proof. repeat split; vm_compute; reflexivity. Qed.

(** C3, amended.  For every FaceRecord produced by extraction whose
    original_size (w, h) has both components at least 1, with
    paste_coordinates (x, y), and for every replacement image found for it,
    whatever its content, recombination of the persisted record resizes the
    replacement to exactly (w, h) and pastes it into the panel with its
    top-left corner at exactly (x, y). *)
Theorem recombination_restores_geometry
    (faces : list (list (Q * Q))) (events : list ui_event)
    (image_path mode output_dir : string) (w0 : world) (recs : list dict)
    (r : dict) (w h x y : Z) (stored reenacted_faces_dir : string)
    (replacement panel : image) (count : Z) (wr : world) :
  fst (prepare_faces faces events image_path mode output_dir w0) = Ok recs ->
  In r recs ->
  lookup r "original_size" = Some (pair_value (w, h)) ->
  lookup r "paste_coordinates" = Some (pair_value (x, y)) ->
  lookup r "face_image_512px_path" = Some (VStr stored) ->
  1 <= w -> 1 <= h ->
  files wr (os_path.join reenacted_faces_dir (os_path.basename stored)) =
    Some (FImage replacement) ->
  let face := Resize (Convert replacement "RGBA") (w, h) LANCZOS in
  fst (recombine_face reenacted_faces_dir (panel, count) (json.encode (VDict r)) wr) =
    Ok (Paste panel face (x, y) face, count + 1) /\
  size face = (w, h).
Proof.
  intros E Hin Hs Hc Hp Hw Hh Hf face. split; [|reflexivity].
  destruct (prepare_faces faces events image_path mode output_dir w0) as [res w1] eqn:Er.
  cbn [fst] in E. subst res.
  apply prepare_faces_inv in Er. cbv zeta in Er.
  destruct Er as (boxes & -> & _).
  apply in_records_from in Hin. destruct Hin as (j & b & _ & ->).
  destruct b as [[[x1 y1] x2] y2].
  cbn in Hs, Hc, Hp.
  injection Hs as <- <-. injection Hc as <- <-. injection Hp as <-.
  eapply (recombine_face_present reenacted_faces_dir panel count _ (VInt j));
    try reflexivity; assumption.
Qed.

Lemma recombination_restores_geometry_witness :
  let face := Resize (Convert (Bitmap (512, 512) [7; 7; 7]) "RGBA") (450, 450) LANCZOS in
  fst (recombine_face "reenacted_faces"
         (Convert (Bitmap (800, 600) []) "RGBA", 0)
         (json.encode (VDict (face_record "prepared_faces_final/panel" "panel.png" 0
                                          (-75, -50, 375, 400))))
         (mkWorld (fun p => if String.eqb p "reenacted_faces/face_0.png"
                            then Some (FImage (Bitmap (512, 512) [7; 7; 7]))
                            else None) [] [] [] false stock_pillow)) =
    Ok (Paste (Convert (Bitmap (800, 600) []) "RGBA") face (-75, -50) face, 0 + 1) /\
  size face = (450, 450).
Proof.
  apply (recombination_restores_geometry [scenario_landmarks] [] "panel.png" "auto"
           "prepared_faces_final" scenario_world
           [face_record "prepared_faces_final/panel" "panel.png" 0 (-75, -50, 375, 400)]
           (face_record "prepared_faces_final/panel" "panel.png" 0 (-75, -50, 375, 400))
           450 450 (-75) (-50) "prepared_faces_final/panel/face_0.png").
  - reflexivity.
  - left. reflexivity.
  - reflexivity.
  - reflexivity.
  - reflexivity.
  - lia.
  - lia.
  - reflexivity.
Defined.

(** ** Saving the recombined panel *)

(** Whether the output path is ready depends on the files and directories
    only. *)
Lemma png_output_ready_ext (output_path : string) (w w' : world) :
  files w' = files w -> dirs w' = dirs w ->
  png_output_ready output_path w -> png_output_ready output_path w'.
Proof.
  intros F D (A & B & C).
  destruct (makedirs_ext (os_path.dirname output_path) w' w F D) as [E1 E2].
  unfold png_output_ready. rewrite E1, E2. repeat split; assumption.
Qed.

(** When the output path is ready, the panel is written exactly when at
    least one record was pasted. *)
Lemma save_result_written (panel : image) (count : Z) (output_path : string) (w : world) :
  png_output_ready output_path w ->
  png_writes (mode panel) = true ->
  0 < count ->
  let out := save_result panel count output_path w in
  fst out = Ok tt /\ files (snd out) output_path = Some (FImage panel) /\
  forall p, p <> output_path -> files (snd out) p = files w p.
Proof.
  intros (Hm & He & Hd) Hp Hc. cbv zeta.
  destruct (save_result panel count output_path w) as [r wf] eqn:E. cbn [fst snd].
  unfold save_result in E.
  replace (0 <? count) with true in E by (symmetry; apply Z.ltb_lt; exact Hc).
  unfold bind at 1 in E.
  pose proof (makedirs_frame (os_path.dirname output_path) w) as (Fm & _).
  destruct (makedirs (os_path.dirname output_path) w) as [rm wm].
  cbn [fst snd] in *. subst rm.
  unfold bind at 1 in E. unfold Image_save in E. rewrite He, Hp in E.
  cbn [String.eqb Ascii.eqb Bool.eqb andb] in E. unfold write_file in E. rewrite Hd in E.
  unfold bind, print in E. cbn [fst snd] in E. injection E as <- <-. cbn [files].
  split; [reflexivity|]. split.
  - rewrite String.eqb_refl. reflexivity.
  - intros p Hne.
    destruct (String.eqb p output_path) eqn:Ep;
      [apply String.eqb_eq in Ep; contradiction|].
    rewrite Fm. reflexivity.
Qed.

Lemma save_result_not_written (panel : image) (count : Z) (output_path : string)
    (w : world) :
  count <= 0 ->
  let out := save_result panel count output_path w in
  fst out = Ok tt /\ files (snd out) = files w /\ dirs (snd out) = dirs w.
Proof.
  intros Hc. cbv zeta. unfold save_result.
  replace (0 <? count) with false by (symmetry; apply Z.ltb_ge; exact Hc).
  cbn. repeat split.
Qed.

(** The count only grows, by one per pasted record. *)
Lemma recombine_loop_count (dir : string) (records : list value) :
  forall (st st' : image * Z) (w w' : world),
    recombine_loop dir records st w = (Ok st', w') ->
    snd st <= snd st' <= snd st + Z.of_nat (List.length records) /\
    files w' = files w /\ dirs w' = dirs w.
Proof.
  induction records as [|face_data rest IH]; intros st st' w w' E; cbn [recombine_loop] in E.
  - injection E as <- <-. cbn. repeat split; lia.
  - unfold bind at 1 in E.
    destruct (recombine_face dir st face_data w) as [[st1|e|] w1] eqn:Ef; try discriminate.
    apply IH in E. destruct E as (Hc & Hf & Hd).
    assert (H1 : snd st <= snd st1 <= snd st + 1 /\ files w1 = files w /\ dirs w1 = dirs w).
    { clear - Ef. destruct st as [panel count].
      unfold recombine_face, bind, lift, catch_FileNotFoundError, Image_open, print, ret
        in Ef.
      destruct (getitem face_data "face_id") as [fid| |]; try discriminate.
      destruct (getitem face_data "face_image_512px_path") as [sp| |]; try discriminate.
      destruct (basename_of sp) as [fn| |]; try discriminate.
      cbn [fst snd] in Ef.
      destruct (files w (os_path.join dir fn)) as [[im|doc]|]; try discriminate.
      - destruct (getitem face_data "original_size") as [sz| |]; try discriminate.
        destruct (tuple sz) as [osz| |]; try discriminate.
        destruct (getitem face_data "paste_coordinates") as [co| |]; try discriminate.
        destruct (tuple co) as [pc| |]; try discriminate.
        cbn [fst snd files dirs stdout ref_points cropping] in Ef.
        destruct (resize (Convert im "RGBA") osz LANCZOS) as [face| |]; try discriminate.
        destruct (paste panel face pc face) as [p'| |]; try discriminate.
        injection Ef as <- <-. cbn. repeat split; lia.
      - injection Ef as <- <-. cbn. repeat split; lia. }
    destruct H1 as (H1 & Hf1 & Hd1). rewrite Hf, Hd, Hf1, Hd1.
    cbn [List.length]. repeat split; lia.
Qed.

(** C7 does not hold of the code when the output path has no directory
    part.  One record, its replacement present: the loop pastes it and
    counts 1, [os.path.dirname] of "recombined.png" is the empty string,
    [os.makedirs] refuses it, and the panel is not written although the
    count is greater than 0. *)
Theorem flat_output_path_not_written :
  let out := recombine_panel "panel.png" "metadata.json" "reenacted_faces/"
                             "recombined.png" flat_output_world in
  (exists panel records,
     files flat_output_world "metadata.json" = Some (FJson (VList records)) /\
     fst (recombine_loop "reenacted_faces/" records
            (Convert (Bitmap (800, 600) []) "RGBA", 0) flat_output_world) =
       Ok (panel, 1)) /\
  os_path.dirname "recombined.png" = "" /\
  fst out = Raise FileNotFoundError /\
  files (snd out) "recombined.png" = None.
Proof.
  cbv zeta. split; [|split; [|split]].
  - exists (Paste (Convert (Bitmap (800, 600) []) "RGBA")
                  (Resize (Convert (Bitmap (512, 512) []) "RGBA") (450, 450) LANCZOS)
                  (-75, -50)
                  (Resize (Convert (Bitmap (512, 512) []) "RGBA") (450, 450) LANCZOS)).
    eexists. split; [vm_compute; reflexivity|]. vm_compute; reflexivity.
  - vm_compute; reflexivity.
  - vm_compute; reflexivity.
  - vm_compute; reflexivity.
Qed.

(** A missing replacement does not stop the loop: the record is skipped
    with a warning and the remaining records are processed. *)
Lemma recombine_loop_skips_missing (dir : string) (st : image * Z) (d : dict)
    (rest : list value) (fid : value) (stored : string) (w : world) :
  lookup d "face_id" = Some fid ->
  lookup d "face_image_512px_path" = Some (VStr stored) ->
  files w (replacement_path dir stored) = None ->
  recombine_loop dir (VDict d :: rest) st w =
    recombine_loop dir rest st
      (mkWorld (files w) (dirs w)
               (stdout w ++ [missing_warning fid (replacement_path dir stored)])%list
               (ref_points w) (cropping w) (save_handler w)).
Proof.
  intros Hid Hp Hf. cbn [recombine_loop]. unfold bind at 1.
  rewrite (recombine_face_missing dir st d fid stored w Hid Hp Hf). reflexivity.
Qed.

(** The scenario end to end: extraction, then recombination with a
    replacement of any content, writes the panel with the replacement
    resized to 450x450 and pasted at (-75,-50). *)
Example scenario_round_trip :
  let face := Resize (Convert (Bitmap (512, 512) [255; 0; 0]) "RGBA") (450, 450) LANCZOS in
  let out := recombine_panel "panel.png" "prepared_faces_final/panel/metadata.json"
                             "reenacted_faces" "output/recombined_panel_01.png"
                             round_trip_world in
  fst out = Ok tt /\
  files (snd out) "output/recombined_panel_01.png" =
    Some (FImage (Paste (Convert (Bitmap (800, 600) []) "RGBA") face (-75, -50) face)).
Proof. cbv zeta. split; vm_compute; reflexivity. Qed.

(** * Further properties of the code *)

(** ** Squaring and padding *)

(** X1. For a box whose coordinates are below 2^51 in absolute value, the
    box returned by [to_square_bbox] contains its input: no edge of the
    region is cut off. *)
Theorem to_square_bbox_contains_input (x1 y1 x2 y2 : Z) :
  exact_range (x1, y1, x2, y2) ->
  let '(nx1, ny1, nx2, ny2) := to_square_bbox (x1, y1, x2, y2) in
  nx1 <= x1 /\ ny1 <= y1 /\ x2 <= nx2 /\ y2 <= ny2.
Proof.
  intros Hr. rewrite to_square_bbox_quot by exact Hr. cbv beta iota zeta.
  assert (L : forall n k, n <= 2 * k -> n ÷ 2 <= k).
  { intros n k H. rewrite <- (quot_2_double k). apply Z.quot_le_mono; lia. }
  assert (U : forall n k, 2 * k <= n -> k <= n ÷ 2).
  { intros n k H. rewrite <- (quot_2_double k) at 1. apply Z.quot_le_mono; lia. }
  repeat split; [apply L | apply L | apply U | apply U]; lia.
Qed.

Lemma to_square_bbox_contains_input_witness :
  exact_range (6, 0, 18, 3) /\
  let '(nx1, ny1, nx2, ny2) := to_square_bbox (6, 0, 18, 3) in
  nx1 <= 6 /\ ny1 <= 0 /\ 18 <= nx2 /\ 3 <= ny2.
Proof.
  assert (R : exact_range (6, 0, 18, 3)) by (repeat split).
  split; [exact R|]. apply (to_square_bbox_contains_input 6 0 18 3). exact R.
Defined.

(** X2. For a box with [x1 <= x2] and [y1 <= y2] whose coordinates are
    below 2^51 in absolute value, the squared box has its centre within half
    a pixel of the input's centre on each axis, and each of its sides is the
    larger input side or exactly one pixel less. *)
Theorem to_square_bbox_center_and_sides (x1 y1 x2 y2 : Z) :
  exact_range (x1, y1, x2, y2) ->
  x1 <= x2 -> y1 <= y2 ->
  let b := to_square_bbox (x1, y1, x2, y2) in
  let s := Z.max (x2 - x1) (y2 - y1) in
  Z.abs (fst (center2 b) - (x1 + x2)) <= 1 /\
  Z.abs (snd (center2 b) - (y1 + y2)) <= 1 /\
  (width b = s \/ width b = s - 1) /\
  (height b = s \/ height b = s - 1).
Proof.
  intros Hr Hx Hy b s.
  pose proof (to_square_bbox_center x1 y1 x2 y2 Hr Hx Hy) as [C1 C2].
  pose proof (to_square_bbox_sides x1 y1 x2 y2 Hr Hx Hy) as [S1 S2].
  cbv zeta in *. subst b s. repeat split; try assumption; lia.
Qed.

Lemma to_square_bbox_center_and_sides_witness :
  exact_range (6, 0, 18, 3) /\
  let b := to_square_bbox (6, 0, 18, 3) in
  let s := Z.max (18 - 6) (3 - 0) in
  Z.abs (fst (center2 b) - (6 + 18)) <= 1 /\
  Z.abs (snd (center2 b) - (0 + 3)) <= 1 /\
  (width b = s \/ width b = s - 1) /\
  (height b = s \/ height b = s - 1).
Proof.
  assert (R : exact_range (6, 0, 18, 3)) by (repeat split).
  split; [exact R|]. apply (to_square_bbox_center_and_sides 6 0 18 3); [exact R | lia | lia].
Defined.

(** X3. When the input box, with coordinates below 2^51 in absolute value,
    lies far enough inside the non-negative quadrant for the squared box to
    start at non-negative coordinates ([max(w,h) <= x1 + x2] and
    [max(w,h) <= y1 + y2]), the result is an exact square of side
    [max(w,h)]. *)
Theorem to_square_bbox_exact_in_quadrant (x1 y1 x2 y2 : Z) :
  exact_range (x1, y1, x2, y2) ->
  x1 <= x2 -> y1 <= y2 ->
  Z.max (x2 - x1) (y2 - y1) <= x1 + x2 ->
  Z.max (x2 - x1) (y2 - y1) <= y1 + y2 ->
  let b := to_square_bbox (x1, y1, x2, y2) in
  width b = Z.max (x2 - x1) (y2 - y1) /\
  height b = Z.max (x2 - x1) (y2 - y1) /\
  0 <= fst (fst (fst b)) /\ 0 <= snd (fst (fst b)).
Proof.
  intros Hr Hx Hy Qx Qy. rewrite to_square_bbox_quot by exact Hr. cbv zeta.
  cbn [width height fst snd].
  set (s := Z.max (x2 - x1) (y2 - y1)) in *.
  assert (Hs : 0 <= s) by (subst s; lia).
  assert (K : forall a, s <= a -> (a + s) ÷ 2 - (a - s) ÷ 2 = s /\ 0 <= (a - s) ÷ 2).
  { intros a Ha. replace (a + s) with ((a - s) + s * 2) by ring.
    rewrite Z.quot_add by nia.
    split; [lia | apply Z.quot_pos; lia]. }
  destruct (K _ Qx) as [A1 A2]. destruct (K _ Qy) as [B1 B2].
  repeat split; assumption.
Qed.

Lemma to_square_bbox_exact_in_quadrant_witness :
  exact_range (100, 40, 130, 95) /\
  let b := to_square_bbox (100, 40, 130, 95) in
  width b = Z.max (130 - 100) (95 - 40) /\
  height b = Z.max (130 - 100) (95 - 40) /\
  0 <= fst (fst (fst b)) /\ 0 <= snd (fst (fst b)).
Proof.
  assert (R : exact_range (100, 40, 130, 95)) by (repeat split).
  split; [exact R|].
  apply (to_square_bbox_exact_in_quadrant 100 40 130 95); [exact R | lia..].
Defined.

Lemma np_min_fold_le (l : list Q) (a : Q) :
  (fold_left np_min l a <= a)%Q /\
  forall x, In x l -> (fold_left np_min l a <= x)%Q.
Proof.
  revert a. induction l as [|y l IH]; intros a; cbn [fold_left].
  - split; [apply Qle_refl | intros x []].
  - destruct (IH (np_min a y)) as [H1 H2].
    assert (Ma : (np_min a y <= a)%Q /\ (np_min a y <= y)%Q).
    { unfold np_min. destruct (Qle_bool a y) eqn:E.
      - apply Qle_bool_iff in E. split; [apply Qle_refl | exact E].
      - split; [|apply Qle_refl]. apply Qlt_le_weak, Qnot_le_lt.
        intros C. apply Qle_bool_iff in C. congruence. }
    split.
    + eapply Qle_trans; [exact H1 | apply Ma].
    + intros x [<- | Hx].
      * eapply Qle_trans; [exact H1 | apply Ma].
      * apply H2, Hx.
Qed.

Lemma np_max_fold_ge (l : list Q) (a : Q) :
  (a <= fold_left np_max l a)%Q /\
  forall x, In x l -> (x <= fold_left np_max l a)%Q.
Proof.
  revert a. induction l as [|y l IH]; intros a; cbn [fold_left].
  - split; [apply Qle_refl | intros x []].
  - destruct (IH (np_max a y)) as [H1 H2].
    assert (Ma : (a <= np_max a y)%Q /\ (y <= np_max a y)%Q).
    { unfold np_max. destruct (Qle_bool a y) eqn:E.
      - apply Qle_bool_iff in E. split; [exact E | apply Qle_refl].
      - split; [apply Qle_refl|]. apply Qlt_le_weak, Qnot_le_lt.
        intros C. apply Qle_bool_iff in C. congruence. }
    split.
    + eapply Qle_trans; [apply Ma | exact H1].
    + intros x [<- | Hx].
      * eapply Qle_trans; [apply Ma | exact H1].
      * apply H2, Hx.
Qed.

(** Truncation of a non-negative number rounds down, and no truncation
    loses a whole unit upward. *)
Lemma int_le_self (q : Q) : (0 <= q)%Q -> (inject_Z (int q) <= q)%Q.
Proof.
  destruct q as [n d]. unfold Qle, int, inject_Z. cbn [Qnum Qden]. intros H.
  rewrite Z.mul_1_r in *.
  pose proof (Z.mul_quot_le n (Z.pos d) ltac:(lia) ltac:(lia)). lia.
Qed.

Lemma lt_int_succ (q : Q) : (q < inject_Z (int q + 1))%Q.
Proof.
  destruct q as [n d]. unfold Qlt, int, inject_Z. cbn [Qnum Qden].
  rewrite Z.mul_1_r.
  destruct (Z.le_gt_cases 0 n) as [H | H].
  - pose proof (Z.mul_succ_quot_gt n (Z.pos d) H ltac:(lia)). lia.
  - pose proof (Z.mul_quot_ge n (Z.pos d) ltac:(lia) ltac:(lia)). lia.
Qed.

(** X4. For landmarks with non-negative coordinates, the padded landmark
    box (padding factor 1.0) covers every landmark up to the truncated
    fraction: each landmark [(px, py)] satisfies [x1 <= px < x2 + 1] and
    [y1 <= py < y2 + 1]. *)
Theorem padded_box_covers_landmarks (landmarks : list (Q * Q)) (x1 y1 x2 y2 : Z) :
  Forall (fun p => (0 <= fst p)%Q /\ (0 <= snd p)%Q) landmarks ->
  get_padded_landmark_bbox landmarks 1 = Ok (x1, y1, x2, y2) ->
  forall p, In p landmarks ->
    (inject_Z x1 <= fst p)%Q /\ (fst p < inject_Z (x2 + 1))%Q /\
    (inject_Z y1 <= snd p)%Q /\ (snd p < inject_Z (y2 + 1))%Q.
Proof.
  intros Hpos E p Hp.
  destruct landmarks as [|p0 rest]; [discriminate|].
  unfold get_padded_landmark_bbox in E. rewrite !int_inject_mul_one in E.
  set (mnx := fold_left np_min (map fst rest) (fst p0)) in *.
  set (mny := fold_left np_min (map snd rest) (snd p0)) in *.
  set (mxx := fold_left np_max (map fst rest) (fst p0)) in *.
  set (mxy := fold_left np_max (map snd rest) (snd p0)) in *.
  injection E as <- <- <- <-.
  assert (Bx : (mnx <= fst p)%Q /\ (fst p <= mxx)%Q).
  { destruct (np_min_fold_le (map fst rest) (fst p0)) as [a1 a2].
    destruct (np_max_fold_ge (map fst rest) (fst p0)) as [b1 b2].
    destruct Hp as [<- | Hp]; [split; assumption|].
    split; [apply a2 | apply b2]; apply in_map, Hp. }
  assert (By : (mny <= snd p)%Q /\ (snd p <= mxy)%Q).
  { destruct (np_min_fold_le (map snd rest) (snd p0)) as [a1 a2].
    destruct (np_max_fold_ge (map snd rest) (snd p0)) as [b1 b2].
    destruct Hp as [<- | Hp]; [split; assumption|].
    split; [apply a2 | apply b2]; apply in_map, Hp. }
  assert (Px : (0 <= mnx)%Q /\ (0 <= mny)%Q).
  { rewrite Forall_forall in Hpos.
    assert (G : forall (f : Q * Q -> Q) l a, (0 <= a)%Q ->
              (forall x, In x l -> (0 <= x)%Q) -> (0 <= fold_left np_min l a)%Q).
    { intros _ l. induction l as [|y l IH]; intros a Ha Hl; cbn [fold_left]; [exact Ha|].
      apply IH; [|intros x Hx; apply Hl; right; exact Hx].
      unfold np_min. destruct (Qle_bool a y); [exact Ha | apply Hl; left; reflexivity]. }
    split; apply (G fst).
    - apply (Hpos p0). left; reflexivity.
    - intros x Hx. apply in_map_iff in Hx. destruct Hx as (q & <- & Hq).
      apply (Hpos q). right; exact Hq.
    - apply (Hpos p0). left; reflexivity.
    - intros x Hx. apply in_map_iff in Hx. destruct Hx as (q & <- & Hq).
      apply (Hpos q). right; exact Hq. }
  destruct Bx as [Bx1 Bx2], By as [By1 By2], Px as [Px Py].
  assert (Mx : int mnx <= int mxx) by (apply int_le; eapply Qle_trans; eassumption).
  assert (My : int mny <= int mxy) by (apply int_le; eapply Qle_trans; eassumption).
  assert (Le : forall a b, a <= b -> (inject_Z a <= inject_Z b)%Q)
    by (intros a b H; rewrite <- Zle_Qle; exact H).
  repeat split.
  - apply Qle_trans with (inject_Z (int mnx)); [apply Le; lia|].
    apply Qle_trans with mnx; [apply int_le_self; exact Px | exact Bx1].
  - apply Qle_lt_trans with mxx; [exact Bx2|].
    apply Qlt_le_trans with (inject_Z (int mxx + 1)); [apply lt_int_succ | apply Le; lia].
  - apply Qle_trans with (inject_Z (int mny)); [apply Le; lia|].
    apply Qle_trans with mny; [apply int_le_self; exact Py | exact By1].
  - apply Qle_lt_trans with mxy; [exact By2|].
    apply Qlt_le_trans with (inject_Z (int mxy + 1)); [apply lt_int_succ | apply Le; lia].
Qed.

Lemma padded_box_covers_landmarks_witness :
  (inject_Z 6 <= fst (29 # 2, 5 # 2))%Q /\ (fst (29 # 2, 5 # 2) < inject_Z (18 + 1))%Q /\
  (inject_Z 0 <= snd (29 # 2, 5 # 2))%Q /\ (snd (29 # 2, 5 # 2) < inject_Z (3 + 1))%Q.
Proof.
  apply (padded_box_covers_landmarks [(21 # 2, 3 # 2); (29 # 2, 5 # 2)]%Q 6 0 18 3).
  - repeat constructor; cbn; discriminate.
  - vm_compute. reflexivity.
  - right. left. reflexivity.
Defined.

(** ** The mouse callback and the selection loop *)

(** X5. A button release that no press preceded ([ref_points] empty) raises
    [IndexError] on [ref_points[1]]: no box is appended and nothing is
    printed, but the released point has been stored in [ref_points] and
    [cropping] is off. *)
Theorem release_without_press (x y : Z) (param : list rect) (w : world) :
  ref_points w = [] ->
  let out := manual_crop_callback EVENT_LBUTTONUP x y param w in
  fst out = Raise IndexError /\
  ref_points (snd out) = [(x, y)] /\
  cropping (snd out) = false /\
  stdout (snd out) = stdout w.
Proof.
  intros H. cbv zeta.
  unfold manual_crop_callback, bind, get_ref_points, set_ref_points, set_cropping, lift.
  cbn. rewrite H. cbn. repeat split.
Qed.

Lemma release_without_press_witness :
  let out := manual_crop_callback EVENT_LBUTTONUP 7 9 [(0, 0, 4, 4)] empty_world in
  fst out = Raise IndexError /\
  ref_points (snd out) = [(7, 9)] /\
  cropping (snd out) = false /\
  stdout (snd out) = stdout empty_world.
Proof. apply (release_without_press 7 9 [(0, 0, 4, 4)] empty_world). reflexivity. Defined.

(** X6. A second release without a new press appends the box of the first
    release once more: the callback always reads [ref_points[1]], so the
    point of the second release is ignored. *)
Theorem second_release_repeats_box (sx sy ex ey x y : Z) (param : list rect) (w : world) :
  let side := Z.max (Z.abs (ex - sx)) (Z.abs (ey - sy)) in
  let b := (sx, sy, sx + side, sy + side) in
  let w1 := snd (manual_crop_callback EVENT_LBUTTONDOWN sx sy param w) in
  let r2 := manual_crop_callback EVENT_LBUTTONUP ex ey param w1 in
  let r3 := manual_crop_callback EVENT_LBUTTONUP x y (param ++ [b])%list (snd r2) in
  fst r2 = Ok (param ++ [b])%list /\
  fst r3 = Ok ((param ++ [b]) ++ [b])%list.
Proof. cbv zeta. split; reflexivity. Qed.

(** X7. Every box the selection loop returns is a square with a
    non-negative side. *)
Theorem manual_boxes_are_squares (events : list ui_event) (w : world) (sel : list rect) :
  fst (manual_loop events [] w) = Ok sel ->
  Forall (fun b => width b = height b /\ 0 <= width b) sel.
Proof.
  intros E.
  destruct (manual_loop_inv events [] w) as (_ & _ & H).
  specialize (H sel E (Forall_nil _)).
  eapply Forall_impl; [|exact H]. cbn. intros b [[Hw _] Hs]. split; assumption.
Qed.

Lemma manual_boxes_are_squares_witness :
  Forall (fun b => width b = height b /\ 0 <= width b) [(3, 8, 10, 15)].
Proof.
  apply (manual_boxes_are_squares
           [Mouse EVENT_LBUTTONDOWN 3 8; Mouse EVENT_LBUTTONUP 10 2; Key 113]
           empty_world).
  reflexivity.
Defined.

Lemma manual_crop_callback_param (event : mouse_event) (x y : Z) (b1 b2 : list rect)
    (w : world) :
  snd (manual_crop_callback event x y b1 w) = snd (manual_crop_callback event x y b2 w) /\
  ((exists ext, fst (manual_crop_callback event x y b1 w) = Ok (b1 ++ ext)%list /\
                fst (manual_crop_callback event x y b2 w) = Ok (b2 ++ ext)%list) \/
   (exists e, fst (manual_crop_callback event x y b1 w) = Raise e /\
              fst (manual_crop_callback event x y b2 w) = Raise e)).
Proof.
  destruct event; cbn.
  - split; [reflexivity|]. left. exists []. rewrite !app_nil_r. split; reflexivity.
  - unfold bind, get_ref_points, set_ref_points, set_cropping, lift, print, ret. cbn.
    destruct (ref_points w) as [|p [|q l]]; cbn.
    + split; [reflexivity|]. right. exists IndexError. split; reflexivity.
    + rewrite !last_last. split; [reflexivity|]. left. eexists. split; reflexivity.
    + rewrite !last_last. split; [reflexivity|]. left. eexists. split; reflexivity.
  - split; [reflexivity|]. left. exists []. rewrite !app_nil_r. split; reflexivity.
Qed.

(** X8. Pressing "r" discards everything selected before it: when the
    events before an "r" contain no "q", the outcome of the session does not
    depend on the boxes the list held at the start. *)
Theorem reset_discards_earlier_boxes (before after : list ui_event) (code : Z) :
  Z.land code 255 = 114 ->
  (forall c, In (Key c) before -> Z.land c 255 <> 113) ->
  forall (b1 b2 : list rect) (w : world),
    manual_loop (before ++ Key code :: after) b1 w =
    manual_loop (before ++ Key code :: after) b2 w.
Proof.
  intros Hr. induction before as [|ev rest IH]; intros Hq b1 b2 w.
  - cbn [app manual_loop]. rewrite Hr. reflexivity.
  - cbn [app manual_loop]. destruct ev as [event x y | c].
    + destruct (manual_crop_callback_param event x y b1 b2 w) as [Hw Hres].
      destruct (manual_crop_callback event x y b1 w) as [r1 w1].
      destruct (manual_crop_callback event x y b2 w) as [r2 w2].
      cbn [fst snd] in *. subst w2.
      assert (Hq' : forall c, In (Key c) rest -> Z.land c 255 <> 113)
        by (intros c Hc; apply Hq; right; exact Hc).
      destruct Hres as [(ext & -> & ->) | (e & -> & ->)]; apply IH; exact Hq'.
    + assert (Hq' : forall c', In (Key c') rest -> Z.land c' 255 <> 113)
        by (intros c' Hc; apply Hq; right; exact Hc).
      destruct (Z.land c 255 =? 114); [reflexivity|].
      destruct (Z.land c 255 =? 113) eqn:E.
      * apply Z.eqb_eq in E. exfalso. apply (Hq c); [left; reflexivity | exact E].
      * apply IH. exact Hq'.
Qed.

Lemma reset_discards_earlier_boxes_witness :
  manual_loop ([Mouse EVENT_LBUTTONDOWN 1 1; Key (-1)] ++ Key 114 :: [Key 113])
              [(0, 0, 4, 4)] empty_world =
  manual_loop ([Mouse EVENT_LBUTTONDOWN 1 1; Key (-1)] ++ Key 114 :: [Key 113])
              [] empty_world.
Proof.
  apply (reset_discards_earlier_boxes [Mouse EVENT_LBUTTONDOWN 1 1; Key (-1)] [Key 113] 114).
  - reflexivity.
  - intros c [H | [H | []]]; [discriminate|]. injection H as <-. vm_compute. discriminate.
Defined.

(** X9. Without a key whose code is "q" modulo 256 the selection loop
    never returns, and it writes no file while it waits. *)
Theorem loop_waits_without_quit (events : list ui_event) :
  (forall c, In (Key c) events -> Z.land c 255 <> 113) ->
  forall (boxes : list rect) (w : world),
    fst (manual_loop events boxes w) = Hang /\
    files (snd (manual_loop events boxes w)) = files w.
Proof.
  intros Hq boxes w. split; [|apply manual_loop_inv].
  revert Hq boxes w. induction events as [|ev rest IH]; intros Hq boxes w.
  - reflexivity.
  - assert (Hq' : forall c, In (Key c) rest -> Z.land c 255 <> 113)
      by (intros c Hc; apply Hq; right; exact Hc).
    cbn [manual_loop]. destruct ev as [event x y | c].
    + destruct (manual_crop_callback event x y boxes w) as [[b'|e|] w1];
        apply IH; exact Hq'.
    + destruct (Z.land c 255 =? 114).
      * unfold bind, print. cbn [fst snd]. apply IH. exact Hq'.
      * destruct (Z.land c 255 =? 113) eqn:E.
        -- apply Z.eqb_eq in E. exfalso. apply (Hq c); [left; reflexivity | exact E].
        -- apply IH. exact Hq'.
Qed.

Lemma loop_waits_without_quit_witness :
  fst (manual_loop [Mouse EVENT_LBUTTONDOWN 1 1; Key 114; Key (-1)] [] empty_world) = Hang /\
  files (snd (manual_loop [Mouse EVENT_LBUTTONDOWN 1 1; Key 114; Key (-1)] []
                          empty_world)) = files empty_world.
Proof.
  apply (loop_waits_without_quit [Mouse EVENT_LBUTTONDOWN 1 1; Key 114; Key (-1)]).
  intros c [H | [H | [H | []]]]; [discriminate | |];
    injection H as <-; vm_compute; discriminate.
Defined.

(** X10. The first key whose code is "q" modulo 256 ends the session:
    whatever follows it has no effect on the outcome. *)
Theorem events_after_quit_ignored (before after : list ui_event) (code : Z) :
  Z.land code 255 = 113 ->
  forall (boxes : list rect) (w : world),
    manual_loop (before ++ Key code :: after) boxes w =
    manual_loop (before ++ [Key code]) boxes w.
Proof.
  intros Hq. induction before as [|ev rest IH]; intros boxes w.
  - cbn [app manual_loop]. rewrite Hq. reflexivity.
  - cbn [app manual_loop]. destruct ev as [event x y | c].
    + destruct (manual_crop_callback event x y boxes w) as [[b'|e|] w1]; apply IH.
    + destruct (Z.land c 255 =? 114).
      * unfold bind, print. cbn [fst snd]. apply IH.
      * destruct (Z.land c 255 =? 113); [reflexivity | apply IH].
Qed.

Lemma events_after_quit_ignored_witness :
  manual_loop ([Key (-1)] ++ Key (113 + 256) :: [Mouse EVENT_LBUTTONDOWN 1 1])
              [] empty_world =
  manual_loop ([Key (-1)] ++ [Key (113 + 256)]) [] empty_world.
Proof.
  apply (events_after_quit_ignored [Key (-1)] [Mouse EVENT_LBUTTONDOWN 1 1] (113 + 256)).
  reflexivity.
Defined.

(** ** Extraction as a whole *)

Lemma prepare_faces_opened (faces : list (list (Q * Q))) (events : list ui_event)
    (image_path mode output_dir : string) (w : world) (im : image) :
  files w image_path = Some (FImage im) ->
  fst (makedirs (specific_output_dir output_dir image_path) w) = Ok tt ->
  exists w1,
    files w1 = files w /\
    dirs w1 = dirs (snd (makedirs (specific_output_dir output_dir image_path) w)) /\
    ref_points w1 = ref_points w /\
    prepare_faces faces events image_path mode output_dir w =
      bind (select_boxes faces events mode)
           (fun boxes => process_boxes (Convert im "RGB")
                           (specific_output_dir output_dir image_path) image_path boxes)
           w1.
Proof.
  intros Hf Hd. unfold prepare_faces.
  unfold bind at 1. unfold catch_FileNotFoundError, Image_open. rewrite Hf.
  fold (specific_output_dir output_dir image_path).
  unfold bind at 1.
  pose proof (makedirs_frame (specific_output_dir output_dir image_path) w)
    as (Fm & _ & Rm & _).
  destruct (makedirs (specific_output_dir output_dir image_path) w) as [rm wm].
  cbn [fst snd] in *. subst rm.
  unfold bind at 1. unfold print at 1. cbn [fst snd].
  unfold bind at 1. unfold print at 1. cbn [fst snd].
  eexists. split; [|split; [|split]].
  4: reflexivity.
  all: cbn [files dirs ref_points]; try assumption; reflexivity.
Qed.

Lemma auto_loop_world (faces : list (list (Q * Q))) :
  forall (acc : list rect) (w : world), snd (auto_loop faces acc w) = w.
Proof.
  induction faces as [|face rest IH]; intros acc w; cbn [auto_loop]; [reflexivity|].
  unfold bind, lift.
  destruct (get_padded_landmark_bbox face 1) as [b| |]; cbn [fst snd]; [apply IH| |];
    reflexivity.
Qed.

Lemma select_boxes_frame (faces : list (list (Q * Q))) (events : list ui_event)
    (mode : string) (w : world) :
  files (snd (select_boxes faces events mode w)) = files w /\
  dirs (snd (select_boxes faces events mode w)) = dirs w.
Proof.
  destruct (select_boxes faces events mode w) as [r w'] eqn:E. cbn [snd].
  unfold select_boxes in E. destruct (String.eqb mode "auto").
  - unfold bind at 1 in E. unfold print at 1 in E. cbn [fst snd] in E.
    destruct faces as [|face rest]; [cbn in E; injection E as <- <-; split; reflexivity|].
    unfold bind at 1 in E. unfold print at 1 in E. cbn [fst snd] in E.
    match type of E with auto_loop ?f ?a ?w1 = _ =>
      pose proof (auto_loop_world f a w1) as Hw end.
    rewrite E in Hw. cbn [snd] in Hw. subst w'. split; reflexivity.
  - destruct (String.eqb mode "manual");
      [|cbn in E; injection E as <- <-; split; reflexivity].
    unfold bind at 1 in E. unfold print at 1 in E. cbn [fst snd] in E.
    unfold bind at 1 in E. unfold print at 1 in E. cbn [fst snd] in E.
    unfold bind at 1 in E.
    match type of E with context [manual_loop events [] ?w1] =>
      pose proof (manual_loop_inv events [] w1) as (Hf & Hd & _);
      destruct (manual_loop events [] w1) as [[sel|e|] w2] end;
      cbn in E; injection E as <- <-; cbn [fst snd files dirs] in *;
      rewrite ?Hf, ?Hd; split; reflexivity.
Qed.



(** X12. A mode other than 'auto' and 'manual' raises [ValueError], but
    only after the source image has been opened and [os.makedirs] has run:
    when that call succeeds, the directories it made are left behind, and no
    file is written. *)
Theorem unknown_mode_raises_after_makedirs
    (faces : list (list (Q * Q))) (events : list ui_event)
    (image_path mode output_dir : string) (w : world) (im : image) :
  files w image_path = Some (FImage im) ->
  fst (makedirs (specific_output_dir output_dir image_path) w) = Ok tt ->
  mode <> "auto" -> mode <> "manual" ->
  let out := prepare_faces faces events image_path mode output_dir w in
  fst out = Raise ValueError /\
  files (snd out) = files w /\
  dirs (snd out) = dirs (snd (makedirs (specific_output_dir output_dir image_path) w)).
Proof.
  intros Hf Hd Ha Hm. cbv zeta.
  destruct (prepare_faces_opened faces events image_path mode output_dir w im Hf Hd)
    as (w1 & F1 & D1 & _ & ->).
  unfold bind, select_boxes.
  destruct (String.eqb mode "auto") eqn:Ea; [apply String.eqb_eq in Ea; contradiction|].
  destruct (String.eqb mode "manual") eqn:Em; [apply String.eqb_eq in Em; contradiction|].
  cbn. repeat split; assumption.
Qed.

Lemma unknown_mode_raises_after_makedirs_witness :
  let out := prepare_faces [] [] "panel.png" "Auto" "prepared_faces_final" scenario_world in
  fst out = Raise ValueError /\
  files (snd out) = files scenario_world /\
  dirs (snd out) = ["prepared_faces_final/panel"; "prepared_faces_final"].
Proof.
  apply (unknown_mode_raises_after_makedirs [] [] "panel.png" "Auto" "prepared_faces_final"
           scenario_world (Bitmap (800, 600) [])).
  - reflexivity.
  - vm_compute. reflexivity.
  - discriminate.
  - discriminate.
Defined.

Lemma nth_records_from (dir image_path : string) (boxes : list rect) :
  forall (i : Z) (k : nat) (r : dict),
    nth_error (records_from dir image_path i boxes) k = Some r ->
    exists b, nth_error boxes k = Some b /\
              r = face_record dir image_path (i + Z.of_nat k) b.
Proof.
  induction boxes as [|b rest IH]; intros i k r H; cbn [records_from] in H.
  - destruct k; discriminate.
  - destruct k as [|k]; cbn [nth_error] in *.
    + injection H as <-. exists b. split; [reflexivity|]. f_equal. lia.
    + destruct (IH _ _ _ H) as (b' & Hb & ->). exists b'. split; [exact Hb|].
      f_equal. lia.
Qed.

Lemma length_records_from (dir image_path : string) (boxes : list rect) :
  forall i, List.length (records_from dir image_path i boxes) = List.length boxes.
Proof.
  induction boxes as [|b rest IH]; intros i; cbn [records_from List.length];
    [reflexivity | now rewrite IH].
Qed.

Lemma append_inj_l (p a b : string) : p ++ a = p ++ b -> a = b.
Proof.
  induction p as [|c p IH]; cbn; intros H; [exact H|]. injection H as H. apply IH, H.
Qed.

Lemma join_inj (d a b : string) :
  os_path.startswith_sep a = false -> os_path.startswith_sep b = false ->
  os_path.join d a = os_path.join d b -> a = b.
Proof.
  intros Ha Hb. unfold os_path.join. rewrite Ha, Hb.
  destruct (String.eqb d "" || os_path.endswith_sep d); intros H.
  - apply append_inj_l in H. exact H.
  - apply append_inj_l in H. apply (append_inj_l "/") in H. exact H.
Qed.

Lemma metadata_path_not_face_path (dir : string) (j : Z) :
  os_path.join dir "metadata.json" <> face_path dir j.
Proof.
  unfold face_path. intros H. apply join_inj in H; [discriminate | reflexivity..].
Qed.

(** The loop over the boxes writes face files only, whatever its outcome;
    when it ends normally every face file holds a canonical image. *)
Lemma crop_loop_files (source_img_pil : image) (dir image_path : string)
    (boxes : list rect) :
  forall (i : Z) (acc : list dict) (w : world),
    let out := crop_loop source_img_pil dir image_path i boxes acc w in
    dirs (snd out) = dirs w /\
    (forall p,
       files (snd out) p = files w p \/
       (exists j, i <= j < i + Z.of_nat (List.length boxes) /\ p = face_path dir j)) /\
    (forall recs, fst out = Ok recs ->
       forall j, i <= j < i + Z.of_nat (List.length boxes) ->
         canonical_file (files (snd out) (face_path dir j))).
Proof.
  induction boxes as [|b rest IH]; intros i acc w; cbv zeta.
  - cbn. split; [reflexivity|].
    split; [intros p; left; reflexivity | intros recs _ j Hj; lia].
  - destruct (crop_loop source_img_pil dir image_path i (b :: rest) acc w)
      as [r wf] eqn:E.
    cbn [fst snd]. cbn [crop_loop] in E.
    assert (Stop : forall r0 : result (list dict),
              (forall recs, r0 <> Ok recs) -> (r0, w) = (r, wf) ->
              dirs wf = dirs w /\
              (forall p, files wf p = files w p \/
                 (exists j, i <= j < i + Z.of_nat (List.length (b :: rest)) /\
                            p = face_path dir j)) /\
              (forall recs, r = Ok recs ->
                 forall j, i <= j < i + Z.of_nat (List.length (b :: rest)) ->
                   canonical_file (files wf (face_path dir j)))).
    { intros r0 Hr0 H. injection H as <- <-.
      split; [reflexivity|]. split; [intros p; left; reflexivity|].
      intros recs Hr. exfalso. exact (Hr0 recs Hr). }
    unfold bind at 1 in E. unfold lift at 1 in E.
    destruct (crop source_img_pil b) as [c|e|] eqn:Ec;
      [| apply (Stop (Raise e)); [discriminate | exact E]
       | apply (Stop Hang); [discriminate | exact E]].
    apply crop_ok in Ec. subst c.
    rewrite resize_canonical in E.
    unfold bind at 1 in E. unfold lift at 1 in E.
    unfold bind at 1 in E.
    fold (face_path dir i) in E.
    match type of E with context [Image_save ?im ?p w] =>
      pose proof (Image_save_cases im p w) as Hs;
      destruct (Image_save im p w) as [r1 w1] end.
    cbn [fst snd] in Hs. destruct Hs as [[-> ->] | [[e ->] ->]];
      [| apply (Stop (Raise e)); [discriminate | exact E]].
    unfold bind at 1 in E. unfold print at 1 in E. cbn [fst snd] in E.
    match type of E with crop_loop _ _ _ _ rest ?a ?w2 = _ =>
      pose proof (IH (i + 1) a w2) as (D & A & B) end.
    cbv zeta in D, A, B. rewrite E in D, A, B. cbn [fst snd files dirs] in D, A, B.
    split; [exact D|].
    assert (A' : forall p, files wf p = files w p \/
                   (exists j, i <= j < i + Z.of_nat (List.length (b :: rest)) /\
                              p = face_path dir j)).
    { intros p. cbn [List.length]. destruct (A p) as [Ep | (j & Hj & ->)].
      - destruct (String.eqb p (face_path dir i)) eqn:Eq.
        + apply String.eqb_eq in Eq. right. exists i. split; [lia | exact Eq].
        + left. exact Ep.
      - right. exists j. split; [lia | reflexivity]. }
    split; [exact A'|].
    intros recs Hr j Hj. cbn [List.length] in Hj.
    destruct (Z.eq_dec j i) as [-> | Hne].
    + destruct (A (face_path dir i)) as [Ep | (j & Hj' & Ej)].
      * rewrite String.eqb_refl in Ep. rewrite Ep. eexists. split; reflexivity.
      * rewrite Ej. apply (B recs Hr). exact Hj'.
    + apply (B recs Hr). lia.
Qed.

(** The final processing step writes metadata.json and face files only;
    when it ends normally the records are those of the boxes and every
    face file holds a canonical image. *)
Lemma process_boxes_files (source_img_pil : image) (dir image_path : string)
    (boxes : list rect) (w : world) :
  let out := process_boxes source_img_pil dir image_path boxes w in
  dirs (snd out) = dirs w /\
  (forall p,
     files (snd out) p = files w p \/
     p = os_path.join dir "metadata.json" \/
     exists j, 0 <= j < Z.of_nat (List.length boxes) /\ p = face_path dir j) /\
  (forall recs, fst out = Ok recs ->
     recs = records_from dir image_path 0 boxes /\
     forall j, 0 <= j < Z.of_nat (List.length boxes) ->
       canonical_file (files (snd out) (face_path dir j))).
Proof.
  cbv zeta.
  destruct (process_boxes source_img_pil dir image_path boxes w) as [r wf] eqn:E.
  cbn [fst snd].
  assert (R : forall recs, r = Ok recs -> recs = records_from dir image_path 0 boxes).
  { intros recs ->. apply process_boxes_inv in E. apply E. }
  unfold process_boxes in E. destruct boxes as [|b rest].
  - cbn in E. injection E as <- <-. cbn.
    split; [reflexivity|]. split; [intros p; left; reflexivity|].
    intros recs Hr. split; [apply R, Hr | intros j Hj; lia].
  - replace (0 <? Z.of_nat (List.length (b :: rest))) with true in E
      by (symmetry; apply Z.ltb_lt; cbn [List.length]; lia).
    unfold bind at 1 in E. unfold print at 1 in E. cbn [fst snd] in E.
    unfold bind at 1 in E.
    match type of E with context [crop_loop ?a ?b' ?c ?d ?e ?f ?w1] =>
      pose proof (crop_loop_files a b' c e d f w1) as (D & A & B);
      destruct (crop_loop a b' c d e f w1) as [rc w2] end.
    cbv zeta in D, A, B. cbn [fst snd files dirs] in D, A, B.
    assert (Stop : forall r0 : result (list dict),
              (forall recs, r0 <> Ok recs) -> (r0, w2) = (r, wf) ->
              dirs wf = dirs w /\
              (forall p, files wf p = files w p \/
                 p = os_path.join dir "metadata.json" \/
                 exists j, 0 <= j < Z.of_nat (List.length (b :: rest)) /\
                           p = face_path dir j) /\
              (forall recs, r = Ok recs ->
                 recs = records_from dir image_path 0 (b :: rest) /\
                 forall j, 0 <= j < Z.of_nat (List.length (b :: rest)) ->
                   canonical_file (files wf (face_path dir j)))).
    { intros r0 Hr0 H. injection H as <- <-.
      split; [exact D|]. split.
      - intros p. destruct (A p) as [Ep | Hp]; [left; exact Ep | right; right; exact Hp].
      - intros recs Hr. exfalso. exact (Hr0 recs Hr). }
    destruct rc as [rs|ex|];
      [| apply (Stop (Raise ex)); [discriminate | exact E]
       | apply (Stop Hang); [discriminate | exact E]].
    unfold bind at 1 in E. unfold json.dump in E.
    match type of E with context [write_file ?p ?f w2] =>
      pose proof (write_file_cases p f w2) as Hs;
      destruct (write_file p f w2) as [r1 w3] end.
    cbn [fst snd] in Hs. destruct Hs as [[-> ->] | [[e ->] ->]];
      [| apply (Stop (Raise e)); [discriminate | exact E]].
    unfold bind, print, ret in E. cbn [fst snd] in E. injection E as <- <-.
    cbn [files dirs]. split; [exact D|]. split.
    + intros p. destruct (String.eqb p (os_path.join dir "metadata.json")) eqn:Ep.
      * apply String.eqb_eq in Ep. right. left. exact Ep.
      * destruct (A p) as [Eq | H]; [left; exact Eq | right; right; exact H].
    + intros recs Hr. split; [apply R, Hr|]. intros j Hj.
      destruct (String.eqb (face_path dir j) (os_path.join dir "metadata.json")) eqn:Ep.
      * apply String.eqb_eq in Ep. symmetry in Ep.
        exfalso. exact (metadata_path_not_face_path dir j Ep).
      * apply (B rs eq_refl). exact Hj.
Qed.

(** Either [prepare_faces] stops before the final processing step, having
    written no file, or it ends with that step run on the selected boxes. *)
Lemma prepare_faces_shape (faces : list (list (Q * Q))) (events : list ui_event)
    (image_path mode output_dir : string) (w : world) :
  let out := prepare_faces faces events image_path mode output_dir w in
  let dir := specific_output_dir output_dir image_path in
  (files (snd out) = files w /\
   (dirs (snd out) = dirs w \/ dirs (snd out) = dirs (snd (makedirs dir w))) /\
   (forall recs, fst out = Ok recs -> recs = [])) \/
  (exists im boxes w2,
     files w image_path = Some (FImage im) /\
     files w2 = files w /\ dirs w2 = dirs (snd (makedirs dir w)) /\
     out = process_boxes (Convert im "RGB") dir image_path boxes w2).
Proof.
  cbv zeta.
  destruct (files w image_path) as [[im|doc]|] eqn:Hf.
  - destruct (makedirs (specific_output_dir output_dir image_path) w) as [rm wm] eqn:Em.
    destruct rm as [[]|e|].
    + assert (Hd : fst (makedirs (specific_output_dir output_dir image_path) w) = Ok tt)
        by (rewrite Em; reflexivity).
      destruct (prepare_faces_opened faces events image_path mode output_dir w im Hf Hd)
        as (w1 & F1 & D1 & _ & ->).
      rewrite Em in D1. cbn [snd] in D1 |- *.
      unfold bind.
      pose proof (select_boxes_frame faces events mode w1) as [Fs Ds].
      destruct (select_boxes faces events mode w1) as [[boxes|e|] w2];
        cbn [fst snd] in *.
      * right. exists im, boxes, w2. rewrite Fs, Ds, F1, D1. repeat split.
      * left. rewrite Fs, Ds, F1, D1. repeat split; [right; reflexivity | discriminate].
      * left. rewrite Fs, Ds, F1, D1. repeat split; [right; reflexivity | discriminate].
    + left. pose proof (makedirs_frame (specific_output_dir output_dir image_path) w)
        as (Fm & _).
      unfold prepare_faces, bind, catch_FileNotFoundError, Image_open.
      rewrite Hf. fold (specific_output_dir output_dir image_path).
      rewrite Em in *. cbn [fst snd] in *.
      repeat split; [exact Fm | right; reflexivity | discriminate].
    + left. pose proof (makedirs_frame (specific_output_dir output_dir image_path) w)
        as (Fm & _).
      unfold prepare_faces, bind, catch_FileNotFoundError, Image_open.
      rewrite Hf. fold (specific_output_dir output_dir image_path).
      rewrite Em in *. cbn [fst snd] in *.
      repeat split; [exact Fm | right; reflexivity | discriminate].
  - left. unfold prepare_faces, bind, catch_FileNotFoundError, Image_open.
    rewrite Hf. cbn. repeat split; [left; reflexivity | discriminate].
  - left. unfold prepare_faces, bind, catch_FileNotFoundError, Image_open.
    rewrite Hf. cbn. repeat split; [left; reflexivity|]. intros recs [= <-]. reflexivity.
Qed.

(** X13. The records are returned in selection order and numbered from 0:
    the record at position k has face_id k, the image path face_<k>.png in
    the image's output directory, source_image equal to the path given, and
    paste_coordinates equal to the top-left corner of original_bbox_square. *)
Theorem records_numbered_in_order
    (faces : list (list (Q * Q))) (events : list ui_event)
    (image_path mode output_dir : string) (w : world) (recs : list dict) :
  fst (prepare_faces faces events image_path mode output_dir w) = Ok recs ->
  forall (k : nat) (r : dict), nth_error recs k = Some r ->
    lookup r "face_id" = Some (VInt (Z.of_nat k)) /\
    lookup r "face_image_512px_path" =
      Some (VStr (face_path (specific_output_dir output_dir image_path) (Z.of_nat k))) /\
    lookup r "source_image" = Some (VStr image_path) /\
    exists x1 y1 x2 y2,
      lookup r "original_bbox_square" = Some (bbox_value (x1, y1, x2, y2)) /\
      lookup r "paste_coordinates" = Some (pair_value (x1, y1)).
Proof.
  intros E k r Hk.
  destruct (prepare_faces faces events image_path mode output_dir w) as [res w'] eqn:Er.
  cbn [fst] in E. subst res. apply prepare_faces_inv in Er. cbv zeta in Er.
  destruct Er as (boxes & -> & _).
  apply nth_records_from in Hk. destruct Hk as ([[[x1 y1] x2] y2] & _ & ->).
  rewrite Z.add_0_l. repeat split. exists x1, y1, x2, y2. split; reflexivity.
Qed.

Lemma records_numbered_in_order_witness :
  let r := face_record "prepared_faces_final/panel" "panel.png" 0 (5, 5, 5, 5) in
  lookup r "face_id" = Some (VInt (Z.of_nat 0)) /\
  lookup r "face_image_512px_path" =
    Some (VStr (face_path (specific_output_dir "prepared_faces_final" "panel.png")
                          (Z.of_nat 0))) /\
  lookup r "source_image" = Some (VStr "panel.png") /\
  exists x1 y1 x2 y2,
    lookup r "original_bbox_square" = Some (bbox_value (x1, y1, x2, y2)) /\
    lookup r "paste_coordinates" = Some (pair_value (x1, y1)).
Proof.
  apply (records_numbered_in_order []
           [Mouse EVENT_LBUTTONDOWN 5 5; Mouse EVENT_LBUTTONUP 5 5; Key 113]
           "panel.png" "manual" "prepared_faces_final" scenario_world
           [face_record "prepared_faces_final/panel" "panel.png" 0 (5, 5, 5, 5)]).
  - reflexivity.
  - reflexivity.
Defined.

(** X14. After a successful extraction every returned record has its
    canonical image on disk: the file face_<k>.png of the output directory
    holds an image of size 512x512, for every position k of the result. *)
Theorem canonical_images_saved
    (faces : list (list (Q * Q))) (events : list ui_event)
    (image_path mode output_dir : string) (w : world) (recs : list dict) :
  let out := prepare_faces faces events image_path mode output_dir w in
  fst out = Ok recs ->
  forall k : nat, (k < List.length recs)%nat ->
    canonical_file
      (files (snd out)
             (face_path (specific_output_dir output_dir image_path) (Z.of_nat k))).
Proof.
  cbv zeta. intros E k Hk.
  destruct (prepare_faces_shape faces events image_path mode output_dir w)
    as [(_ & _ & H) | (im & boxes & w2 & _ & _ & _ & Eo)]; cbv zeta in *.
  - rewrite (H recs E) in Hk. cbn in Hk. lia.
  - rewrite Eo in *.
    destruct (process_boxes_files (Convert im "RGB")
                (specific_output_dir output_dir image_path) image_path boxes w2)
      as (_ & _ & B).
    cbv zeta in B. destruct (B recs E) as [-> C].
    rewrite length_records_from in Hk. apply C. lia.
Qed.

Lemma canonical_images_saved_witness :
  canonical_file
    (files (snd scenario_run)
           (face_path (specific_output_dir "prepared_faces_final" "panel.png")
                      (Z.of_nat 0))).
Proof.
  apply (canonical_images_saved [scenario_landmarks] [] "panel.png" "auto"
           "prepared_faces_final" scenario_world
           [face_record "prepared_faces_final/panel" "panel.png" 0 (-75, -50, 375, 400)]).
  - reflexivity.
  - cbn. lia.
Defined.

(** X15. Whatever its outcome, [prepare_faces] writes only inside the
    output directory of the image, and there only metadata.json and files
    named face_<j>.png; every other path keeps its content, and no
    directory is made but by the one call of [os.makedirs]. *)
Theorem extraction_writes_only_its_files
    (faces : list (list (Q * Q))) (events : list ui_event)
    (image_path mode output_dir : string) (w : world) :
  let out := prepare_faces faces events image_path mode output_dir w in
  let dir := specific_output_dir output_dir image_path in
  (forall p,
     files (snd out) p = files w p \/
     p = os_path.join dir "metadata.json" \/
     exists j, 0 <= j /\ p = face_path dir j) /\
  (dirs (snd out) = dirs w \/ dirs (snd out) = dirs (snd (makedirs dir w))).
Proof.
  cbv zeta.
  destruct (prepare_faces_shape faces events image_path mode output_dir w)
    as [(F & D & _) | (im & boxes & w2 & _ & F2 & D2 & Eo)]; cbv zeta in *.
  - split; [|exact D]. intros p. left. rewrite F. reflexivity.
  - rewrite Eo.
    destruct (process_boxes_files (Convert im "RGB")
                (specific_output_dir output_dir image_path) image_path boxes w2)
      as (D & A & _).
    cbv zeta in D, A.
    split; [|right; rewrite D; exact D2].
    intros p. destruct (A p) as [E | [E | (j & Hj & E)]].
    + left. rewrite E, F2. reflexivity.
    + right. left. exact E.
    + right. right. exists j. split; [lia | exact E].
Qed.

(** The boxes of auto mode are the squared padded landmark boxes of the
    faces, in order. *)
Lemma auto_loop_boxes (faces : list (list (Q * Q))) :
  forall (acc boxes : list rect) (w : world),
    fst (auto_loop faces acc w) = Ok boxes ->
    exists bs,
      boxes = (acc ++ bs)%list /\
      Forall2 (fun face b => exists pb, get_padded_landmark_bbox face 1 = Ok pb /\
                                        b = to_square_bbox pb) faces bs.
Proof.
  induction faces as [|face rest IH]; intros acc boxes w E; cbn [auto_loop] in E.
  - cbn in E. injection E as <-. exists []. rewrite app_nil_r. split; [reflexivity|].
    constructor.
  - unfold bind, lift in E.
    destruct (get_padded_landmark_bbox face 1) as [pb| |] eqn:Ep; try discriminate.
    cbn [fst snd] in E. apply IH in E. destruct E as (bs & -> & F).
    exists (to_square_bbox pb :: bs). rewrite <- app_assoc. split; [reflexivity|].
    constructor; [exists pb; split; [exact Ep | reflexivity] | exact F].
Qed.

Lemma auto_loop_empty_face (faces : list (list (Q * Q))) :
  In [] faces ->
  forall (acc : list rect) (w : world), fst (auto_loop faces acc w) = Raise ValueError.
Proof.
  induction faces as [|face rest IH]; intros Hin acc w; [contradiction|].
  cbn [auto_loop]. unfold bind, lift. destruct face as [|p l].
  - reflexivity.
  - destruct Hin as [C | Hin]; [discriminate|].
    cbn [get_padded_landmark_bbox fst snd]. apply IH, Hin.
Qed.

Lemma nth_records_from_box (dir image_path : string) (boxes : list rect) :
  forall (i : Z) (k : nat) (b : rect),
    nth_error boxes k = Some b ->
    nth_error (records_from dir image_path i boxes) k =
      Some (face_record dir image_path (i + Z.of_nat k) b).
Proof.
  induction boxes as [|b0 rest IH]; intros i k b H.
  - destruct k; discriminate.
  - destruct k as [|k]; cbn [nth_error records_from] in *.
    + injection H as <-. do 2 f_equal. lia.
    + rewrite (IH _ _ _ H). do 2 f_equal. lia.
Qed.

(** X16. In auto mode, when the image opens and extraction ends normally,
    it has returned exactly one record per detected face, in detection
    order: the record at position k carries the squared padded landmark box
    of the k-th face, and no face is left out. *)
Theorem auto_mode_one_record_per_face
    (faces : list (list (Q * Q))) (events : list ui_event)
    (image_path output_dir : string) (w : world) (im : image) (recs : list dict) :
  files w image_path = Some (FImage im) ->
  fst (prepare_faces faces events image_path "auto" output_dir w) = Ok recs ->
  List.length recs = List.length faces /\
  forall (k : nat) (face : list (Q * Q)), nth_error faces k = Some face ->
    exists pb r,
      get_padded_landmark_bbox face 1 = Ok pb /\
      nth_error recs k = Some r /\
      lookup r "original_bbox_square" = Some (bbox_value (to_square_bbox pb)).
Proof.
  intros Hf E.
  destruct (prepare_faces faces events image_path "auto" output_dir w) as [res wf] eqn:Er.
  cbn [fst] in E. subst res. apply prepare_faces_inv in Er. cbv zeta in Er.
  destruct Er as (boxes & -> & _ & _ & _ & _ & Hm).
  destruct (Hm im Hf) as (_ & _ & w1 & Es).
  assert (F : Forall2 (fun face b => exists pb, get_padded_landmark_bbox face 1 = Ok pb /\
                                                b = to_square_bbox pb) faces boxes).
  { unfold select_boxes in Es. cbn [String.eqb Ascii.eqb Bool.eqb] in Es.
    unfold bind at 1 in Es. unfold print at 1 in Es. cbn [fst snd] in Es.
    destruct faces as [|face rest].
    - cbn in Es. injection Es as <-. constructor.
    - unfold bind at 1 in Es. unfold print at 1 in Es. cbn [fst snd] in Es.
      apply auto_loop_boxes in Es. destruct Es as (bs & -> & F). exact F. }
  split.
  - rewrite length_records_from. symmetry. eapply Forall2_length, F.
  - intros k face Hk.
    assert (Hb : exists b, nth_error boxes k = Some b /\
                   exists pb, get_padded_landmark_bbox face 1 = Ok pb /\
                              b = to_square_bbox pb).
    { clear - F Hk. revert k Hk. induction F as [|f b fs bs Hfb _ IH]; intros k Hk.
      - destruct k; discriminate.
      - destruct k as [|k]; cbn [nth_error] in *.
        + injection Hk as <-. exists b. split; [reflexivity | exact Hfb].
        + apply IH, Hk. }
    destruct Hb as (b & Hb & pb & Hp & ->).
    exists pb. eexists. split; [exact Hp|]. split.
    + apply nth_records_from_box. exact Hb.
    + destruct (to_square_bbox pb) as [[[a1 a2] a3] a4]. reflexivity.
Qed.

Lemma auto_mode_one_record_per_face_witness :
  List.length [face_record "prepared_faces_final/panel" "panel.png" 0 (-75, -50, 375, 400)] =
    List.length [scenario_landmarks] /\
  forall (k : nat) (face : list (Q * Q)), nth_error [scenario_landmarks] k = Some face ->
    exists pb r,
      get_padded_landmark_bbox face 1 = Ok pb /\
      nth_error [face_record "prepared_faces_final/panel" "panel.png" 0
                             (-75, -50, 375, 400)] k = Some r /\
      lookup r "original_bbox_square" = Some (bbox_value (to_square_bbox pb)).
Proof.
  apply (auto_mode_one_record_per_face [scenario_landmarks] [] "panel.png"
           "prepared_faces_final" scenario_world (Bitmap (800, 600) [])).
  - reflexivity.
  - vm_compute. reflexivity.
Defined.

(** X17. In auto mode a face with an empty landmark array makes
    [prepare_faces] raise [ValueError] (from [np.min]) before anything is
    cropped: once the image is open and its output directory made, no face
    image and no metadata document is written, even for the faces detected
    before it. *)
Theorem empty_landmarks_abort_before_writing
    (faces : list (list (Q * Q))) (events : list ui_event)
    (image_path output_dir : string) (w : world) (im : image) :
  files w image_path = Some (FImage im) ->
  fst (makedirs (specific_output_dir output_dir image_path) w) = Ok tt ->
  In [] faces ->
  let out := prepare_faces faces events image_path "auto" output_dir w in
  fst out = Raise ValueError /\ files (snd out) = files w.
Proof.
  intros Hf Hd Hin. cbv zeta.
  destruct (prepare_faces_opened faces events image_path "auto" output_dir w im Hf Hd)
    as (w1 & F1 & _ & _ & ->).
  pose proof (select_boxes_frame faces events "auto" w1) as [Fs _].
  assert (Hs : fst (select_boxes faces events "auto" w1) = Raise ValueError).
  { unfold select_boxes. cbn [String.eqb Ascii.eqb Bool.eqb].
    unfold bind at 1. unfold print at 1. cbn [fst snd].
    destruct faces as [|face rest]; [contradiction|].
    unfold bind at 1. unfold print at 1. cbn [fst snd].
    apply auto_loop_empty_face. exact Hin. }
  unfold bind. destruct (select_boxes faces events "auto" w1) as [r w2].
  cbn [fst snd] in *. subst r. cbn [fst snd]. split; [reflexivity|].
  rewrite Fs. exact F1.
Qed.

Lemma empty_landmarks_abort_before_writing_witness :
  let out := prepare_faces [scenario_landmarks; []] [] "panel.png" "auto"
                           "prepared_faces_final" scenario_world in
  fst out = Raise ValueError /\ files (snd out) = files scenario_world.
Proof.
  apply (empty_landmarks_abort_before_writing [scenario_landmarks; []] [] "panel.png"
           "prepared_faces_final" scenario_world (Bitmap (800, 600) [])).
  - reflexivity.
  - vm_compute. reflexivity.
  - right. left. reflexivity.
Defined.

(** ** Recombination as a whole *)

Ltac recombine_face_cases :=
  repeat match goal with
         | |- context [match ?x with _ => _ end] =>
             match x with
             | context [match _ with _ => _ end] => fail 1
             | _ => destruct x eqn:?
             end
         end.

(** The loop body never touches the file system, and its result depends on
    the world only through the files. *)
Lemma recombine_face_frame (dir : string) (st : image * Z) (v : value) (w : world) :
  files (snd (recombine_face dir st v w)) = files w /\
  dirs (snd (recombine_face dir st v w)) = dirs w.
Proof.
  destruct st as [panel count].
  unfold recombine_face, bind, lift, catch_FileNotFoundError, Image_open, print, ret.
  cbn [fst snd].
  recombine_face_cases; cbn [fst snd files dirs]; split; reflexivity.
Qed.

Lemma recombine_face_files_only (dir : string) (st : image * Z) (v : value)
    (w1 w2 : world) :
  files w1 = files w2 ->
  fst (recombine_face dir st v w1) = fst (recombine_face dir st v w2).
Proof.
  intros H. destruct st as [panel count].
  unfold recombine_face, bind, lift, catch_FileNotFoundError, Image_open, print, ret.
  cbn [fst snd]. rewrite H.
  recombine_face_cases; cbn [fst snd files dirs]; reflexivity.
Qed.

Lemma recombine_face_size (dir : string) (st st' : image * Z) (v : value) (w : world) :
  fst (recombine_face dir st v w) = Ok st' ->
  size (fst st') = size (fst st) /\ snd st <= snd st' <= snd st + 1.
Proof.
  destruct st as [panel count].
  unfold recombine_face, bind, lift, catch_FileNotFoundError, Image_open, print, ret,
    paste.
  cbn [fst snd].
  recombine_face_cases; cbn [fst snd]; intros E; try discriminate;
    injection E as <-; cbn [fst snd size]; split; try reflexivity; lia.
Qed.

Lemma recombine_loop_frame (dir : string) (records : list value) :
  forall (st : image * Z) (w : world),
    files (snd (recombine_loop dir records st w)) = files w /\
    dirs (snd (recombine_loop dir records st w)) = dirs w.
Proof.
  induction records as [|v rest IH]; intros st w; cbn [recombine_loop].
  - split; reflexivity.
  - unfold bind. pose proof (recombine_face_frame dir st v w) as [F D].
    destruct (recombine_face dir st v w) as [[st1|e|] w1]; cbn [fst snd] in *.
    + destruct (IH st1 w1) as [F' D']. rewrite F', D', F, D. split; reflexivity.
    + split; assumption.
    + split; assumption.
Qed.

Lemma recombine_loop_files_only (dir : string) (records : list value) :
  forall (st : image * Z) (w1 w2 : world),
    files w1 = files w2 ->
    fst (recombine_loop dir records st w1) = fst (recombine_loop dir records st w2).
Proof.
  induction records as [|v rest IH]; intros st w1 w2 H; cbn [recombine_loop].
  - reflexivity.
  - unfold bind.
    pose proof (recombine_face_files_only dir st v w1 w2 H) as E.
    pose proof (recombine_face_frame dir st v w1) as [F1 _].
    pose proof (recombine_face_frame dir st v w2) as [F2 _].
    destruct (recombine_face dir st v w1) as [r1 u1].
    destruct (recombine_face dir st v w2) as [r2 u2].
    cbn [fst snd] in *. subst r2.
    destruct r1 as [st1|e|]; cbn [fst snd]; [|reflexivity..].
    apply IH. rewrite F1, F2. exact H.
Qed.

Lemma recombine_loop_size (dir : string) (records : list value) :
  forall (st st' : image * Z) (w : world),
    fst (recombine_loop dir records st w) = Ok st' ->
    size (fst st') = size (fst st) /\
    snd st <= snd st' <= snd st + Z.of_nat (List.length records).
Proof.
  induction records as [|v rest IH]; intros st st' w E; cbn [recombine_loop] in E.
  - injection E as <-. split; [reflexivity | cbn; lia].
  - unfold bind in E.
    pose proof (recombine_face_size dir st) as S.
    destruct (recombine_face dir st v w) as [[st1|e|] w1] eqn:Ef; try discriminate.
    specialize (S st1 v w). rewrite Ef in S. destruct (S eq_refl) as [S1 S2].
    apply IH in E. destruct E as [E1 E2]. cbn [List.length].
    split; [congruence | lia].
Qed.

Lemma recombine_panel_run
    (original_panel_path metadata_path dir output_path : string) (w : world)
    (im : image) (doc : value) (records : list value) :
  files w original_panel_path = Some (FImage im) ->
  files w metadata_path = Some (FJson doc) ->
  iter doc = Ok records ->
  exists w1,
    files w1 = files w /\ dirs w1 = dirs w /\
    recombine_panel original_panel_path metadata_path dir output_path w =
      bind (recombine_loop dir records (Convert im "RGBA", 0))
           (fun st => save_result (fst st) (snd st) output_path) w1.
Proof.
  intros Ho Hm Hi.
  unfold recombine_panel.
  unfold bind at 1. unfold print at 1. cbn [fst snd].
  unfold bind at 1. unfold catch_FileNotFoundError at 1.
  unfold bind at 1. unfold Image_open at 1. cbn [files]. rewrite Ho.
  unfold bind at 1. unfold print at 1. cbn [fst snd ret].
  unfold bind at 1. unfold catch_FileNotFoundError at 1.
  unfold bind at 1. unfold json.load at 1. cbn [files]. rewrite Hm.
  unfold bind at 1. unfold lift at 1, len. rewrite Hi.
  unfold bind at 1. unfold print at 1. cbn [fst snd ret].
  unfold bind at 1. unfold lift at 1. rewrite Hi.
  eexists. split; [|split].
  3: reflexivity.
  all: reflexivity.
Qed.








Lemma recombine_face_mode (dir : string) (st st' : image * Z) (v : value) (w : world) :
  fst (recombine_face dir st v w) = Ok st' -> mode (fst st') = mode (fst st).
Proof.
  destruct st as [panel count].
  unfold recombine_face, bind, lift, catch_FileNotFoundError, Image_open, print, ret,
    paste.
  cbn [fst snd].
  recombine_face_cases; cbn [fst snd]; intros E; try discriminate;
    injection E as <-; reflexivity.
Qed.

(** The panel keeps its mode through the loop. *)
Lemma recombine_loop_mode (dir : string) (records : list value) :
  forall (st st' : image * Z) (w : world),
    fst (recombine_loop dir records st w) = Ok st' -> mode (fst st') = mode (fst st).
Proof.
  induction records as [|v rest IH]; intros st st' w E; cbn [recombine_loop] in E.
  - injection E as <-. reflexivity.
  - unfold bind in E.
    pose proof (recombine_face_mode dir st) as S.
    destruct (recombine_face dir st v w) as [[st1|e|] w1] eqn:Ef; try discriminate.
    specialize (S st1 v w). rewrite Ef in S. rewrite <- (S eq_refl).
    apply IH in E. exact E.
Qed.

(** X21. Let the output path name a PNG file whose directory part
    [os.makedirs] can make, the path itself not being a directory.  When
    the loop over the records ends with panel P and count n,
    [recombine_panel] ends normally, n lies between 0 and the number of
    records, P has the size of the original panel, and the output file is
    written, holding P, exactly when n > 0; no other file changes, and for
    n = 0 nothing is written or created. *)
Theorem output_written_iff_pasted
    (original_panel_path metadata_path dir output_path : string) (w : world)
    (im : image) (doc : value) (records : list value) (panel' : image) (n : Z) :
  files w original_panel_path = Some (FImage im) ->
  files w metadata_path = Some (FJson doc) ->
  iter doc = Ok records ->
  fst (recombine_loop dir records (Convert im "RGBA", 0) w) = Ok (panel', n) ->
  png_output_ready output_path w ->
  let out := recombine_panel original_panel_path metadata_path dir output_path w in
  fst out = Ok tt /\
  0 <= n <= Z.of_nat (List.length records) /\
  size panel' = size im /\
  (0 < n ->
     files (snd out) output_path = Some (FImage panel') /\
     forall p, p <> output_path -> files (snd out) p = files w p) /\
  (n = 0 -> files (snd out) = files w /\ dirs (snd out) = dirs w).
Proof.
  intros Ho Hm Hi Hl Hd. cbv zeta.
  destruct (recombine_panel_run original_panel_path metadata_path dir output_path w
              im doc records Ho Hm Hi) as (w1 & F1 & D1 & ->).
  unfold bind.
  rewrite (recombine_loop_files_only dir records (Convert im "RGBA", 0) w w1) in Hl
    by (symmetry; exact F1).
  pose proof (recombine_loop_size dir records _ _ w1 Hl) as [Sz Cn].
  pose proof (recombine_loop_mode dir records _ _ w1 Hl) as Md.
  pose proof (recombine_loop_frame dir records (Convert im "RGBA", 0) w1) as [F2 D2].
  destruct (recombine_loop dir records (Convert im "RGBA", 0) w1) as [r w2].
  cbn [fst snd] in *. subst r. cbn [fst snd size mode] in *.
  assert (Hw : 0 < n ->
            fst (save_result panel' n output_path w2) = Ok tt /\
            files (snd (save_result panel' n output_path w2)) output_path =
              Some (FImage panel') /\
            forall p, p <> output_path ->
              files (snd (save_result panel' n output_path w2)) p = files w p).
  { intros Hp.
    destruct (save_result_written panel' n output_path w2) as (R1 & R2 & R3).
    - apply (png_output_ready_ext output_path w); [congruence | congruence | exact Hd].
    - rewrite Md. reflexivity.
    - exact Hp.
    - split; [exact R1|]. split; [exact R2|].
      intros p Hne. rewrite (R3 p Hne), F2, F1. reflexivity. }
  split; [|split; [lia|split; [exact Sz|]]].
  - destruct (Z.ltb_spec 0 n) as [Hp | Hz].
    + apply Hw, Hp.
    + apply save_result_not_written; lia.
  - split.
    + intros Hp. apply Hw, Hp.
    + intros ->.
      destruct (save_result_not_written panel' 0 output_path w2 ltac:(lia))
        as (_ & F3 & D3).
      rewrite F3, D3, F2, D2, F1, D1. split; reflexivity.
Qed.

Lemma output_written_iff_pasted_witness :
  let face := Resize (Convert (Bitmap (512, 512) []) "RGBA") (450, 450) LANCZOS in
  let panel' := Paste (Convert (Bitmap (800, 600) []) "RGBA") face (-75, -50) face in
  let out := recombine_panel "panel.png" "metadata.json" "reenacted_faces/"
                             "output/recombined.png" flat_output_world in
  fst out = Ok tt /\
  0 <= 1 <= Z.of_nat (List.length flat_records) /\
  size panel' = size (Bitmap (800, 600) []) /\
  (0 < 1 ->
     files (snd out) "output/recombined.png" = Some (FImage panel') /\
     forall p, p <> "output/recombined.png" ->
               files (snd out) p = files flat_output_world p) /\
  (1 = 0 -> files (snd out) = files flat_output_world /\
            dirs (snd out) = dirs flat_output_world).
Proof.
  apply (output_written_iff_pasted "panel.png" "metadata.json" "reenacted_faces/"
           "output/recombined.png" flat_output_world (Bitmap (800, 600) [])
           (VList flat_records) flat_records).
  - reflexivity.
  - reflexivity.
  - reflexivity.
  - vm_compute. reflexivity.
  - repeat split; vm_compute; reflexivity.
Defined.

(** X22. When processing a record raises (a missing key, an ill-formed
    size), the exception leaves [recombine_panel] and nothing is written,
    not even the records already pasted. *)
Theorem failing_record_writes_nothing
    (original_panel_path metadata_path dir output_path : string) (w : world)
    (im : image) (doc : value) (records : list value) (e : exn) :
  files w original_panel_path = Some (FImage im) ->
  files w metadata_path = Some (FJson doc) ->
  iter doc = Ok records ->
  fst (recombine_loop dir records (Convert im "RGBA", 0) w) = Raise e ->
  let out := recombine_panel original_panel_path metadata_path dir output_path w in
  fst out = Raise e /\ files (snd out) = files w /\ dirs (snd out) = dirs w.
Proof.
  intros Ho Hm Hi Hl. cbv zeta.
  destruct (recombine_panel_run original_panel_path metadata_path dir output_path w
              im doc records Ho Hm Hi) as (w1 & F1 & D1 & ->).
  unfold bind.
  rewrite (recombine_loop_files_only dir records (Convert im "RGBA", 0) w w1) in Hl
    by (symmetry; exact F1).
  pose proof (recombine_loop_frame dir records (Convert im "RGBA", 0) w1) as [F2 D2].
  destruct (recombine_loop dir records (Convert im "RGBA", 0) w1) as [r w2].
  cbn [fst snd] in *. subst r. cbn [fst snd].
  rewrite F2, D2, F1, D1. repeat split.
Qed.

Lemma failing_record_writes_nothing_witness :
  let out := recombine_panel "panel.png" "metadata.json" "reenacted_faces/"
                             "output/recombined.png"
                             (mkWorld (fun p =>
                                if String.eqb p "metadata.json"
                                then Some (FJson (VList (flat_records ++
                                                         [VDict [("face_id", VInt 1)]])))
                                else files flat_output_world p) [] [] [] false stock_pillow) in
  fst out = Raise KeyError /\
  files (snd out) =
    (fun p => if String.eqb p "metadata.json"
              then Some (FJson (VList (flat_records ++ [VDict [("face_id", VInt 1)]])))
              else files flat_output_world p) /\
  dirs (snd out) = [].
Proof.
  apply (failing_record_writes_nothing "panel.png" "metadata.json" "reenacted_faces/"
           "output/recombined.png"
           (mkWorld (fun p =>
                       if String.eqb p "metadata.json"
                       then Some (FJson (VList (flat_records ++
                                                [VDict [("face_id", VInt 1)]])))
                       else files flat_output_world p) [] [] [] false stock_pillow)
           (Bitmap (800, 600) [])
           (VList (flat_records ++ [VDict [("face_id", VInt 1)]]))
           (flat_records ++ [VDict [("face_id", VInt 1)]])%list KeyError).
  - reflexivity.
  - reflexivity.
  - reflexivity.
  - vm_compute. reflexivity.
Defined.

(** ** File names across the two stages *)

Lemma substring_all (s : string) : substring 0 (String.length s) s = s.
Proof. induction s as [|c s IH]; cbn; [reflexivity | now rewrite IH]. Qed.

Lemma rfind_ge (c : ascii) (s : string) : -1 <= os_path.rfind c s.
Proof.
  induction s as [|a s IH]; cbn [os_path.rfind]; [lia|].
  destruct (0 <=? os_path.rfind c s) eqn:E; [apply Z.leb_le in E; lia|].
  destruct (Ascii.eqb a c); lia.
Qed.

Lemma basename_cons (c : ascii) (s : string) :
  os_path.basename (String c s) =
  if 0 <=? os_path.rfind os_path.sep s then os_path.basename s
  else if Ascii.eqb c os_path.sep then s else String c s.
Proof.
  unfold os_path.basename, os_path.from. cbn [os_path.rfind String.length].
  destruct (0 <=? os_path.rfind os_path.sep s) eqn:E.
  - apply Z.leb_le in E.
    replace (Z.to_nat (os_path.rfind os_path.sep s + 1 + 1))
      with (S (Z.to_nat (os_path.rfind os_path.sep s + 1))) by lia.
    reflexivity.
  - destruct (Ascii.eqb c os_path.sep).
    + change (Z.to_nat (0 + 1)) with 1%nat. cbn [substring Nat.sub].
      rewrite Nat.sub_0_r. apply substring_all.
    + change (Z.to_nat (-1 + 1)) with 0%nat. rewrite Nat.sub_0_r.
      apply (substring_all (String c s)).
Qed.

Lemma basename_no_sep (f : string) :
  os_path.rfind os_path.sep f = -1 -> os_path.basename f = f.
Proof.
  intros H. unfold os_path.basename, os_path.from. rewrite H.
  change (Z.to_nat (-1 + 1)) with 0%nat. rewrite Nat.sub_0_r. apply substring_all.
Qed.

Lemma basename_app_sep (a f : string) :
  os_path.rfind os_path.sep f = -1 ->
  os_path.basename (a ++ String os_path.sep f) = f.
Proof.
  intros H. induction a as [|c a IH]; cbn [String.append]; rewrite basename_cons.
  - rewrite H. reflexivity.
  - replace (0 <=? os_path.rfind os_path.sep (a ++ String os_path.sep f)) with true;
      [exact IH|].
    symmetry. apply Z.leb_le. clear. induction a as [|c a IH]; cbn [String.append os_path.rfind].
    + pose proof (rfind_ge os_path.sep f).
      destruct (0 <=? os_path.rfind os_path.sep f) eqn:E; [apply Z.leb_le in E; lia|].
      cbn. lia.
    + destruct (0 <=? os_path.rfind os_path.sep (a ++ String os_path.sep f)) eqn:E;
        [lia | apply Z.leb_gt in E; lia].
Qed.

Lemma endswith_sep_split (a : string) :
  os_path.endswith_sep a = true -> exists a', a = a' ++ String os_path.sep "".
Proof.
  induction a as [|c a IH]; [discriminate|].
  cbn [os_path.endswith_sep]. destruct a as [|c' a].
  - intros H. apply Ascii.eqb_eq in H. subst c. exists "". reflexivity.
  - intros H. destruct (IH H) as (a' & E). exists (String c a'). cbn. now rewrite E.
Qed.

Lemma no_sep_not_startswith (f : string) :
  os_path.rfind os_path.sep f = -1 -> os_path.startswith_sep f = false.
Proof.
  destruct f as [|c f]; [reflexivity|]. cbn [os_path.rfind os_path.startswith_sep].
  pose proof (rfind_ge os_path.sep f).
  destruct (0 <=? os_path.rfind os_path.sep f) eqn:E; [apply Z.leb_le in E; lia|].
  destruct (Ascii.eqb c os_path.sep); [discriminate | reflexivity].
Qed.

Lemma string_append_assoc (a b c : string) : (a ++ b) ++ c = a ++ (b ++ c).
Proof. induction a as [|x a IH]; cbn; [reflexivity | now rewrite IH]. Qed.

(** [basename] undoes [join] on a file name without separator. *)
Lemma basename_join (d f : string) :
  os_path.rfind os_path.sep f = -1 -> os_path.basename (os_path.join d f) = f.
Proof.
  intros H. unfold os_path.join. rewrite (no_sep_not_startswith f H).
  destruct (String.eqb d "") eqn:Ed.
  - apply String.eqb_eq in Ed. subst d. cbn. apply basename_no_sep, H.
  - cbn [orb]. destruct (os_path.endswith_sep d) eqn:Ee.
    + destruct (endswith_sep_split d Ee) as (a' & ->).
      rewrite string_append_assoc. cbn [String.append]. apply basename_app_sep, H.
    + cbn [String.append]. apply basename_app_sep, H.
Qed.

Lemma rfind_app_none (c : ascii) (a b : string) :
  os_path.rfind c a = -1 -> os_path.rfind c b = -1 -> os_path.rfind c (a ++ b) = -1.
Proof.
  intros Ha Hb. induction a as [|x a IH]; cbn [String.append]; [exact Hb|].
  cbn [os_path.rfind] in *. pose proof (rfind_ge c a).
  destruct (0 <=? os_path.rfind c a) eqn:E; [apply Z.leb_le in E; lia|].
  destruct (Ascii.eqb x c); [lia|].
  assert (Hr : os_path.rfind c a = -1) by (apply Z.leb_gt in E; lia).
  rewrite (IH Hr). reflexivity.
Qed.

Lemma str_no_sep (n : Z) : os_path.rfind os_path.sep (str n) = -1.
Proof.
  assert (U : forall d, os_path.rfind os_path.sep (NilEmpty.string_of_uint d) = -1).
  { induction d; cbn [NilEmpty.string_of_uint os_path.rfind]; rewrite ?IHd; reflexivity. }
  assert (V : forall d, os_path.rfind os_path.sep (NilZero.string_of_uint d) = -1).
  { intros d. destruct d; try apply U. reflexivity. }
  unfold str. destruct (Z.to_int n) as [d | d]; cbn [NilZero.string_of_int].
  - apply V.
  - cbn [os_path.rfind]. rewrite V. reflexivity.
Qed.

Lemma face_file_name_no_sep (i : Z) :
  os_path.rfind os_path.sep ("face_" ++ str i ++ ".png") = -1.
Proof.
  apply (rfind_app_none _ "face_"); [reflexivity|].
  apply rfind_app_none; [apply str_no_sep | reflexivity].
Qed.

Lemma replacement_path_face_path (stage1_dir reenacted_faces_dir : string) (i : Z) :
  replacement_path reenacted_faces_dir (face_path stage1_dir i) =
  os_path.join reenacted_faces_dir ("face_" ++ str i ++ ".png").
Proof.
  unfold replacement_path, face_path.
  rewrite basename_join by apply face_file_name_no_sep. reflexivity.
Qed.

(** X23. For the record at position k of an extraction, recombination
    looks for the replacement under the name face_<k>.png in the
    replacement directory, whatever the output directory of stage 1 was:
    the basename of the stored path is that file name. *)
Theorem replacement_named_by_position
    (faces : list (list (Q * Q))) (events : list ui_event)
    (image_path mode output_dir reenacted_faces_dir : string) (w : world)
    (recs : list dict) (k : nat) (r : dict) :
  fst (prepare_faces faces events image_path mode output_dir w) = Ok recs ->
  nth_error recs k = Some r ->
  exists stored,
    lookup r "face_image_512px_path" = Some (VStr stored) /\
    os_path.basename stored = "face_" ++ str (Z.of_nat k) ++ ".png" /\
    os_path.join reenacted_faces_dir (os_path.basename stored) =
      os_path.join reenacted_faces_dir ("face_" ++ str (Z.of_nat k) ++ ".png").
Proof.
  intros E Hk.
  destruct (prepare_faces faces events image_path mode output_dir w) as [res w'] eqn:Er.
  cbn [fst] in E. subst res. apply prepare_faces_inv in Er. cbv zeta in Er.
  destruct Er as (boxes & -> & _).
  apply nth_records_from in Hk. destruct Hk as ([[[x1 y1] x2] y2] & _ & ->).
  rewrite Z.add_0_l. eexists. split; [reflexivity|].
  rewrite basename_join by apply face_file_name_no_sep. split; reflexivity.
Qed.

Lemma replacement_named_by_position_witness :
  exists stored,
    lookup (face_record "prepared_faces_final/panel" "panel.png" 0 (-75, -50, 375, 400))
           "face_image_512px_path" = Some (VStr stored) /\
    os_path.basename stored = "face_" ++ str (Z.of_nat 0) ++ ".png" /\
    os_path.join "reenacted_faces" (os_path.basename stored) =
      os_path.join "reenacted_faces" ("face_" ++ str (Z.of_nat 0) ++ ".png").
Proof.
  apply (replacement_named_by_position [scenario_landmarks] [] "panel.png" "auto"
           "prepared_faces_final" "reenacted_faces" scenario_world
           [face_record "prepared_faces_final/panel" "panel.png" 0 (-75, -50, 375, 400)]
           0%nat).
  - reflexivity.
  - reflexivity.
Defined.

Lemma records_from_sizes (dir image_path : string) (boxes : list rect) :
  forall i : Z,
    Forall (fun r => exists sw sh,
              lookup r "original_size" = Some (pair_value (sw, sh)) /\
              1 <= sw /\ 1 <= sh) (records_from dir image_path i boxes) ->
    Forall (fun b => 1 <= width b /\ 1 <= height b) boxes.
Proof.
  induction boxes as [|b rest IH]; intros i H; cbn [records_from] in H.
  - constructor.
  - inversion H as [|r rs (sw & sh & Hl & Hw & Hh) Hrest]. subst.
    constructor; [|apply (IH (i + 1)), Hrest].
    destruct b as [[[x1 y1] x2] y2]. cbn in Hl. injection Hl as <- <-.
    cbn [width height]. split; assumption.
Qed.

Lemma recombine_loop_all_present (sdir image_path dir : string) (w0 : world)
    (boxes : list rect) :
  Forall (fun b => 1 <= width b /\ 1 <= height b) boxes ->
  forall (i : Z) (st : image * Z) (w : world),
    files w = files w0 ->
    (forall k, 0 <= k < Z.of_nat (List.length boxes) ->
       exists rep, files w0 (os_path.join dir ("face_" ++ str (i + k) ++ ".png")) =
                     Some (FImage rep)) ->
    exists P,
      fst (recombine_loop dir
             (map (fun r => json.encode (VDict r)) (records_from sdir image_path i boxes))
             st w) = Ok (P, snd st + Z.of_nat (List.length boxes)).
Proof.
  induction 1 as [|b rest Hb _ IH]; intros i [panel count] w Hw Hall.
  - exists panel. cbn. rewrite Z.add_0_r. reflexivity.
  - cbn [records_from map recombine_loop]. unfold bind.
    destruct (Hall 0) as (rep & Hrep); [cbn [List.length]; lia|].
    rewrite Z.add_0_r in Hrep.
    destruct b as [[[x1 y1] x2] y2]. cbn [width height] in Hb. destruct Hb as [Hbw Hbh].
    pose proof (recombine_face_present dir panel count
                  (map (fun kv => (fst kv, json.encode (snd kv)))
                       (face_record sdir image_path i (x1, y1, x2, y2)))
                  (VInt i)
                  (VList [VInt (x2 - x1); VInt (y2 - y1)])
                  (VList [VInt x1; VInt y1])
                  (face_path sdir i) (x2 - x1) (y2 - y1) x1 y1 rep w
                  eq_refl eq_refl eq_refl eq_refl eq_refl eq_refl Hbw Hbh) as Hp.
    rewrite replacement_path_face_path, Hw in Hp. specialize (Hp Hrep).
    cbv zeta in Hp. destruct Hp as (Er & Fr & _).
    change (json.encode (VDict (face_record sdir image_path i (x1, y1, x2, y2))))
      with (VDict (map (fun kv => (fst kv, json.encode (snd kv)))
                       (face_record sdir image_path i (x1, y1, x2, y2)))).
    destruct (recombine_face dir (panel, count) _ w) as [r w1].
    cbn [fst snd] in *. subst r.
    destruct (IH (i + 1) (Paste panel
                            (Resize (Convert rep "RGBA") (x2 - x1, y2 - y1) LANCZOS)
                            (x1, y1)
                            (Resize (Convert rep "RGBA") (x2 - x1, y2 - y1) LANCZOS),
                          count + 1) w1) as (P & EP).
    + exact Fr.
    + intros k Hk. destruct (Hall (k + 1)) as (rep' & H');
        [cbn [List.length]; lia|].
      exists rep'. replace (i + 1 + k) with (i + (k + 1)) by lia. exact H'.
    + exists P. rewrite EP. cbn [snd List.length]. do 2 f_equal. lia.
Qed.

(** X24. Extraction followed by recombination.  If the metadata file holds
    what a successful non-empty extraction persisted, every record has an
    original_size with both sides at least 1, the original panel opens, a
    replacement face_<k>.png is present for every record, and the output
    path names a PNG file whose directory part [os.makedirs] can make, then
    [recombine_panel] ends normally and writes an output image of the size
    of the original panel, whatever the replacements contain. *)
Theorem extraction_then_recombination
    (faces : list (list (Q * Q))) (events : list ui_event)
    (image_path mode output_dir : string) (w0 : world) (recs : list dict)
    (original_panel_path metadata_path dir output_path : string) (wr : world)
    (im : image) :
  fst (prepare_faces faces events image_path mode output_dir w0) = Ok recs ->
  recs <> [] ->
  Forall (fun r => exists sw sh,
            lookup r "original_size" = Some (pair_value (sw, sh)) /\
            1 <= sw /\ 1 <= sh) recs ->
  files wr original_panel_path = Some (FImage im) ->
  files wr metadata_path = Some (FJson (json.encode (VList (map VDict recs)))) ->
  (forall k, 0 <= k < Z.of_nat (List.length recs) ->
     exists rep, files wr (os_path.join dir ("face_" ++ str k ++ ".png")) =
                   Some (FImage rep)) ->
  png_output_ready output_path wr ->
  let out := recombine_panel original_panel_path metadata_path dir output_path wr in
  fst out = Ok tt /\
  exists P, files (snd out) output_path = Some (FImage P) /\ size P = size im.
Proof.
  intros E Hne Hsz Ho Hm Hall Hd. cbv zeta.
  destruct (prepare_faces faces events image_path mode output_dir w0) as [res w'] eqn:Er.
  cbn [fst] in E. subst res. apply prepare_faces_inv in Er. cbv zeta in Er.
  destruct Er as (boxes & -> & _).
  set (sdir := specific_output_dir output_dir image_path) in *.
  apply records_from_sizes in Hsz.
  assert (Hi : iter (json.encode (VList (map VDict (records_from sdir image_path 0 boxes))))
               = Ok (map (fun r => json.encode (VDict r))
                         (records_from sdir image_path 0 boxes))).
  { cbn [json.encode iter]. rewrite map_map. reflexivity. }
  destruct (recombine_panel_run original_panel_path metadata_path dir output_path wr
              im _ _ Ho Hm Hi) as (w1 & F1 & D1 & ->).
  rewrite length_records_from in Hall.
  destruct (recombine_loop_all_present sdir image_path dir wr boxes Hsz 0
              (Convert im "RGBA", 0) w1 F1) as (P & EP).
  { intros k Hk. rewrite Z.add_0_l. apply Hall, Hk. }
  pose proof (recombine_loop_size dir _ _ _ w1 EP) as [Sz _].
  pose proof (recombine_loop_mode dir _ _ _ w1 EP) as Md.
  pose proof (recombine_loop_frame dir
                (map (fun r => json.encode (VDict r)) (records_from sdir image_path 0 boxes))
                (Convert im "RGBA", 0) w1) as [F2 D2].
  unfold bind.
  destruct (recombine_loop dir _ (Convert im "RGBA", 0) w1) as [r w2].
  cbn [fst snd size PIL.mode] in *. subst r. cbn [fst snd].
  assert (Hn : 0 < 0 + Z.of_nat (List.length boxes)).
  { destruct boxes; [exfalso; apply Hne; reflexivity | cbn [List.length]; lia]. }
  destruct (save_result_written P (0 + Z.of_nat (List.length boxes)) output_path w2)
    as (R1 & R2 & _).
  - apply (png_output_ready_ext output_path wr); [congruence | congruence | exact Hd].
  - rewrite Md. reflexivity.
  - exact Hn.
  - split; [exact R1|]. exists P. split; [exact R2 | exact Sz].
Qed.

Lemma extraction_then_recombination_witness :
  let out := recombine_panel "panel.png" "prepared_faces_final/panel/metadata.json"
                             "reenacted_faces" "output/recombined_panel_01.png"
                             round_trip_world in
  fst out = Ok tt /\
  exists P, files (snd out) "output/recombined_panel_01.png" = Some (FImage P) /\
            size P = size (Bitmap (800, 600) []).
Proof.
  apply (extraction_then_recombination [scenario_landmarks] [] "panel.png" "auto"
           "prepared_faces_final" scenario_world
           [face_record "prepared_faces_final/panel" "panel.png" 0 (-75, -50, 375, 400)]
           "panel.png" "prepared_faces_final/panel/metadata.json" "reenacted_faces"
           "output/recombined_panel_01.png" round_trip_world (Bitmap (800, 600) [])).
  - reflexivity.
  - discriminate.
  - constructor; [|constructor]. exists 450, 450. repeat split; lia.
  - vm_compute. reflexivity.
  - vm_compute. reflexivity.
  - intros k Hk. assert (k = 0) as -> by (cbn in Hk; lia).
    eexists. vm_compute. reflexivity.
  - repeat split; vm_compute; reflexivity.
Defined.

(** X25. Without a directory part in the output path, a recombination that
    pasted at least one record does not end normally: [os.makedirs] is
    called on the empty string and raises [FileNotFoundError], and no file
    is written. *)
Theorem bare_output_name_raises
    (original_panel_path metadata_path dir output_path : string) (w : world)
    (im : image) (doc : value) (records : list value) (panel' : image) (n : Z) :
  files w original_panel_path = Some (FImage im) ->
  files w metadata_path = Some (FJson doc) ->
  iter doc = Ok records ->
  fst (recombine_loop dir records (Convert im "RGBA", 0) w) = Ok (panel', n) ->
  0 < n ->
  os_path.dirname output_path = "" ->
  let out := recombine_panel original_panel_path metadata_path dir output_path w in
  fst out = Raise FileNotFoundError /\ files (snd out) = files w /\
  dirs (snd out) = dirs w.
Proof.
  intros Ho Hm Hi Hl Hn Hd. cbv zeta.
  destruct (recombine_panel_run original_panel_path metadata_path dir output_path w
              im doc records Ho Hm Hi) as (w1 & F1 & D1 & ->).
  unfold bind.
  rewrite (recombine_loop_files_only dir records (Convert im "RGBA", 0) w w1) in Hl
    by (symmetry; exact F1).
  pose proof (recombine_loop_frame dir records (Convert im "RGBA", 0) w1) as [F2 D2].
  destruct (recombine_loop dir records (Convert im "RGBA", 0) w1) as [r w2].
  cbn [fst snd] in *. subst r. cbn [fst snd].
  unfold save_result.
  replace (0 <? n) with true by (symmetry; apply Z.ltb_lt; exact Hn).
  unfold bind, makedirs. rewrite Hd. cbn. rewrite F2, D2, F1, D1. repeat split.
Qed.

Lemma bare_output_name_raises_witness :
  let out := recombine_panel "panel.png" "metadata.json" "reenacted_faces/"
                             "result.png" flat_output_world in
  fst out = Raise FileNotFoundError /\ files (snd out) = files flat_output_world /\
  dirs (snd out) = dirs flat_output_world.
Proof.
  apply (bare_output_name_raises "panel.png" "metadata.json" "reenacted_faces/"
           "result.png" flat_output_world (Bitmap (800, 600) [])
           (VList flat_records) flat_records
           (Paste (Convert (Bitmap (800, 600) []) "RGBA")
                  (Resize (Convert (Bitmap (512, 512) []) "RGBA") (450, 450) LANCZOS)
                  (-75, -50)
                  (Resize (Convert (Bitmap (512, 512) []) "RGBA") (450, 450) LANCZOS))
           1).
  - reflexivity.
  - reflexivity.
  - reflexivity.
  - vm_compute. reflexivity.
  - lia.
  - vm_compute. reflexivity.
Defined.
